(** * WooCommerce product synchronisation: a shallow embedding

    The development follows the Python sources of the service:
    - [app/utils/webhook_verification.py]  (module [WebhookVerification])
    - [app/utils/encryption.py], [app/models.py]  (module [Credentials])
    - [app/services/product_sync.py], [app/routers/sync.py],
      [app/services/scheduler.py], [app/services/woocommerce_client.py]
      (module [Sync])

    Python code that touches the database, the clock or the remote shop is
    written in a state-and-exception monad over a [World]; [while True]
    loops take a fuel argument. *)

From Stdlib Require Import ZArith List String Ascii Bool Lia PrimFloat.
From stdpp Require Import base gmap strings list.

Local Set Warnings "-register-all".
Local Open Scope string_scope.
Local Open Scope list_scope.
Local Open Scope stdpp_scope.
Local Open Scope Z_scope.

(** ** JSON values and Python exceptions *)

(** A decoded JSON document, as [response.json()] and [json.loads]
    produce it.  Numbers are the integers; no field the service reads is
    fractional (prices arrive as strings). *)
Inductive JVal : Type :=
| JNull
| JBool (b : bool)
| JInt (n : Z)
| JStr (s : string)
| JList (l : list JVal)
| JObj (o : gmap string JVal).

(** A Python [dict] with string keys. *)
Definition Dict := gmap string JVal.

(** Python truthiness, as used by [if not x] and [if x]. *)
Definition truthy (v : JVal) : bool :=
  match v with
  | JNull => false
  | JBool b => b
  | JInt n => negb (n =? 0)
  | JStr s => negb (String.eqb s "")
  | JList l => match l with [] => false | _ => true end
  | JObj o => match map_to_list o with [] => false | _ => true end
  end.

(** [d.get(k)]: a missing key reads as [None]. *)
Definition dict_get (d : Dict) (k : string) : JVal :=
  default JNull (d !! k).

(** [d.get(k, dflt)]. *)
Definition dict_get_default (d : Dict) (k : string) (dflt : JVal) : JVal :=
  default dflt (d !! k).

Inductive Exn : Type :=
| KeyError (k : string)
| TypeError (msg : string)
| ValueError (msg : string)
| UnicodeError (msg : string)
| IntegrityError (msg : string)
| DataError (msg : string)
| HTTPError (msg : string)
| InvalidToken.

(** [str(e)] *)
Definition str_exn (e : Exn) : string :=
  match e with
  | KeyError k => ("'" ++ k ++ "'")%string
  | TypeError m | ValueError m | UnicodeError m
  | IntegrityError m | DataError m | HTTPError m => m
  | InvalidToken => ""
  end.

(** The outcome of running a piece of Python: a value, a raised
    exception, or a loop that used up its fuel. *)
Inductive Res (A : Type) : Type :=
| Ok (a : A)
| Raise (e : Exn)
| OutOfFuel.
Arguments Ok {A} a.
Arguments Raise {A} e.
Arguments OutOfFuel {A}.

Definition res_bind {A B} (m : Res A) (k : A -> Res B) : Res B :=
  match m with
  | Ok a => k a
  | Raise e => Raise e
  | OutOfFuel => OutOfFuel
  end.

(** [try: body  except Exception as e: handler e] for effect-free code. *)
Definition res_try {A} (body : Res A) (handler : Exn -> Res A) : Res A :=
  match body with
  | Raise e => handler e
  | r => r
  end.

Notation "'let?' x ':=' m 'in' k" := (res_bind m (fun x => k))
  (at level 10, x name, m at level 100, k at level 200, only parsing).

(** ** Bytes, Python strings, SHA-256, HMAC and base64

    What [hashlib], [hmac] and [base64] compute, so that signatures can be
    evaluated.  A byte is a [Z] in [0, 256); a 32-bit word is a [Z] reduced
    modulo [2^32]; a Python [str] is the list of its code points. *)
Module PyLib.

Definition bytes := list Z.
Definition str := list Z.

Definition str_of_string (s : string) : str :=
  map (fun a => Z.of_N (N_of_ascii a)) (list_ascii_of_string s).

Definition is_ascii (s : list Z) : bool :=
  forallb (fun c => (0 <=? c) && (c <? 128)) s.

Fixpoint list_eqb (a b : list Z) : bool :=
  match a, b with
  | [], [] => true
  | x :: a', y :: b' => (x =? y) && list_eqb a' b'
  | _, _ => false
  end.

(** [s.encode('utf-8')]; lone surrogates cannot be encoded. *)
Definition encode_char (c : Z) : Res bytes :=
  if (c <? 0) then Raise (UnicodeError "codec can't encode character")
  else if c <? 0x80 then Ok [c]
  else if c <? 0x800 then
    Ok [Z.lor 0xC0 (Z.shiftr c 6); Z.lor 0x80 (Z.land c 0x3F)]
  else if c <? 0x10000 then
    if (0xD800 <=? c) && (c <=? 0xDFFF)
    then Raise (UnicodeError "surrogates not allowed")
    else Ok [Z.lor 0xE0 (Z.shiftr c 12);
             Z.lor 0x80 (Z.land (Z.shiftr c 6) 0x3F);
             Z.lor 0x80 (Z.land c 0x3F)]
  else if c <? 0x110000 then
    Ok [Z.lor 0xF0 (Z.shiftr c 18);
        Z.lor 0x80 (Z.land (Z.shiftr c 12) 0x3F);
        Z.lor 0x80 (Z.land (Z.shiftr c 6) 0x3F);
        Z.lor 0x80 (Z.land c 0x3F)]
  else Raise (UnicodeError "codec can't encode character").

Fixpoint encode_utf8 (s : str) : Res bytes :=
  match s with
  | [] => Ok []
  | c :: s' =>
      let? b := encode_char c in
      let? r := encode_utf8 s' in
      Ok (b ++ r)
  end.

(** [b.decode('utf-8')]: strict UTF-8, refusing stray continuation
    bytes, overlong forms, surrogates and code points above U+10FFFF. *)
Definition is_cont (b : Z) : bool := (0x80 <=? b) && (b <=? 0xBF).
Definition cont_bits (b : Z) : Z := Z.land b 0x3F.

Definition bad_byte : Exn := UnicodeError "codec can't decode byte".

Fixpoint decode_utf8 (b : bytes) : Res str :=
  match b with
  | [] => Ok []
  | b0 :: r0 =>
      if (0 <=? b0) && (b0 <? 0x80) then
        let? s := decode_utf8 r0 in Ok (b0 :: s)
      else
        match r0 with
        | [] => Raise bad_byte
        | b1 :: r1 =>
            if (0xC2 <=? b0) && (b0 <=? 0xDF) then
              if is_cont b1 then
                let? s := decode_utf8 r1 in
                Ok (Z.lor (Z.shiftl (Z.land b0 0x1F) 6) (cont_bits b1) :: s)
              else Raise bad_byte
            else
              match r1 with
              | [] => Raise bad_byte
              | b2 :: r2 =>
                  if (0xE0 <=? b0) && (b0 <=? 0xEF) then
                    let c := Z.lor (Z.shiftl (Z.land b0 0x0F) 12)
                               (Z.lor (Z.shiftl (cont_bits b1) 6) (cont_bits b2)) in
                    if is_cont b1 && is_cont b2 && (0x800 <=? c)
                       && negb ((0xD800 <=? c) && (c <=? 0xDFFF))
                    then let? s := decode_utf8 r2 in Ok (c :: s)
                    else Raise bad_byte
                  else
                    match r2 with
                    | [] => Raise bad_byte
                    | b3 :: r3 =>
                        let c := Z.lor (Z.shiftl (Z.land b0 0x07) 18)
                                   (Z.lor (Z.shiftl (cont_bits b1) 12)
                                      (Z.lor (Z.shiftl (cont_bits b2) 6)
                                             (cont_bits b3))) in
                        if (0xF0 <=? b0) && (b0 <=? 0xF4)
                           && is_cont b1 && is_cont b2 && is_cont b3
                           && (0x10000 <=? c) && (c <? 0x110000)
                        then let? s := decode_utf8 r3 in Ok (c :: s)
                        else Raise bad_byte
                    end
              end
        end
  end.

(** *** SHA-256 (FIPS 180-4) *)

Definition w32 (x : Z) : Z := x mod 2 ^ 32.
Definition add32 (x y : Z) : Z := w32 (x + y).
Definition rotr (n x : Z) : Z :=
  Z.lor (Z.shiftr x n) (w32 (Z.shiftl x (32 - n))).

Definition Ch (x y z : Z) := Z.lxor (Z.land x y) (Z.land (Z.lnot x) z).
Definition Maj (x y z : Z) :=
  Z.lxor (Z.lxor (Z.land x y) (Z.land x z)) (Z.land y z).
Definition Sigma0 x := Z.lxor (Z.lxor (rotr 2 x) (rotr 13 x)) (rotr 22 x).
Definition Sigma1 x := Z.lxor (Z.lxor (rotr 6 x) (rotr 11 x)) (rotr 25 x).
Definition sigma0 x := Z.lxor (Z.lxor (rotr 7 x) (rotr 18 x)) (Z.shiftr x 3).
Definition sigma1 x := Z.lxor (Z.lxor (rotr 17 x) (rotr 19 x)) (Z.shiftr x 10).

(** The constants are the first 32 bits of the fractional parts of the
    cube roots (round constants) and of the square roots (initial hash
    value) of the first primes. *)
Definition is_prime (p : Z) : bool :=
  forallb (fun d => negb (p mod Z.of_nat d =? 0)) (seq 2 (Z.to_nat p - 2)).

Definition first_primes (n : nat) : list Z :=
  firstn n (List.filter is_prime (map Z.of_nat (seq 2 310))).

Fixpoint cube_root (bits : nat) (n r : Z) : Z :=
  match bits with
  | O => r
  | S b =>
      let c := r + 2 ^ Z.of_nat b in
      cube_root b n (if c * c * c <=? n then c else r)
  end.

Definition K256 : list Z :=
  Eval vm_compute in
    map (fun p => w32 (cube_root 48 (p * 2 ^ 96) 0)) (first_primes 64).

Definition H256 : list Z :=
  Eval vm_compute in
    map (fun p => w32 (Z.sqrt (p * 2 ^ 64))) (first_primes 8).

(** Big-endian encodings. *)
Fixpoint be_bytes (n : nat) (x : Z) : bytes :=
  match n with
  | O => []
  | S n' => Z.land (Z.shiftr x (8 * Z.of_nat n')) 0xFF :: be_bytes n' x
  end.

Fixpoint be_words (b : bytes) : list Z :=
  match b with
  | b0 :: b1 :: b2 :: b3 :: r =>
      (Z.shiftl b0 24 + Z.shiftl b1 16 + Z.shiftl b2 8 + b3) :: be_words r
  | _ => []
  end.

Definition sha_pad (msg : bytes) : bytes :=
  let len := Z.of_nat (List.length msg) in
  let zeros := Z.to_nat ((55 - len) mod 64) in
  msg ++ [0x80] ++ repeat 0 zeros ++ be_bytes 8 (8 * len).

Fixpoint schedule (n : nat) (w : list Z) : list Z :=
  match n with
  | O => w
  | S n' =>
      let t := List.length w in
      let x := add32 (add32 (sigma1 (nth (t - 2) w 0)) (nth (t - 7) w 0))
                     (add32 (sigma0 (nth (t - 15) w 0)) (nth (t - 16) w 0)) in
      schedule n' (w ++ [x])
  end.

Definition round (st : list Z) (kw : Z * Z) : list Z :=
  match st with
  | [a; b; c; d; e; f; g; h] =>
      let t1 := add32 (add32 (add32 h (Sigma1 e)) (Ch e f g))
                      (add32 (fst kw) (snd kw)) in
      let t2 := add32 (Sigma0 a) (Maj a b c) in
      [add32 t1 t2; a; b; c; add32 d t1; e; f; g]
  | _ => st
  end.

Definition compress (h : list Z) (block : bytes) : list Z :=
  let w := schedule 48 (be_words block) in
  let st := fold_left round (combine K256 w) h in
  map (fun p => add32 (fst p) (snd p)) (combine h st).

Fixpoint blocks (n : nat) (b : bytes) : list bytes :=
  match n with
  | O => []
  | S n' => match b with
            | [] => []
            | _ => firstn 64 b :: blocks n' (skipn 64 b)
            end
  end.

Definition sha256 (msg : bytes) : bytes :=
  let p := sha_pad msg in
  let h := fold_left compress (blocks (List.length p) p) H256 in
  flat_map (be_bytes 4) h.

(** *** HMAC (RFC 2104), as [hmac.new(key, msg, hashlib.sha256).digest()] *)

Definition hmac_key (key : bytes) : bytes :=
  let k := if (64 <? Z.of_nat (List.length key)) then sha256 key else key in
  k ++ repeat 0 (64 - List.length k)%nat.

Definition hmac_sha256 (key msg : bytes) : bytes :=
  let k := hmac_key key in
  let ipad := map (Z.lxor 0x36) k in
  let opad := map (Z.lxor 0x5c) k in
  sha256 (opad ++ sha256 (ipad ++ msg)).

(** *** [base64.b64encode] *)

Definition b64_alphabet : list Z :=
  str_of_string
    "ABCDEFGHIJKLMNOPQRSTUVWXYZabcdefghijklmnopqrstuvwxyz0123456789+/".

Definition b64_char (i : Z) : Z := nth (Z.to_nat (Z.land i 63)) b64_alphabet 61.

Fixpoint b64encode (b : bytes) : bytes :=
  match b with
  | [] => []
  | [x] =>
      [b64_char (Z.shiftr x 2); b64_char (Z.shiftl x 4); 61; 61]
  | [x; y] =>
      [b64_char (Z.shiftr x 2);
       b64_char (Z.lor (Z.shiftl x 4) (Z.shiftr y 4));
       b64_char (Z.shiftl y 2); 61]
  | x :: y :: z :: r =>
      b64_char (Z.shiftr x 2)
      :: b64_char (Z.lor (Z.shiftl x 4) (Z.shiftr y 4))
      :: b64_char (Z.lor (Z.shiftl y 2) (Z.shiftr z 6))
      :: b64_char z
      :: b64encode r
  end.

(** [hmac.compare_digest(a, b)] on two [str]: refuses non-ASCII text,
    and otherwise tells whether the two are equal (in time independent of
    where they differ, which has no counterpart here). *)
Definition compare_digest (a b : str) : Res bool :=
  if is_ascii a && is_ascii b then Ok (list_eqb a b)
  else Raise (TypeError "comparing strings with non-ASCII characters is not supported").

End PyLib.

Module WebhookVerification.
Import PyLib.

(** [verify_woocommerce_webhook(payload, signature, secret)] *)
Definition verify_woocommerce_webhook
    (payload : bytes) (signature secret : str) : Res bool :=
  match signature, secret with
  | [], _ | _, [] => Ok false
  | _, _ =>
      res_try
        (let? key := encode_utf8 secret in
         let? expected_signature := decode_utf8 (b64encode (hmac_sha256 key payload)) in
         let? is_valid := compare_digest expected_signature signature in
         Ok is_valid)
        (fun e => Ok false)
  end.

End WebhookVerification.

(** The signature WooCommerce attaches to a delivery, as the docstring of
    [verify_woocommerce_webhook] gives it:
    base64(HMAC-SHA256(payload, secret)). *)
Definition expected_signature (secret : PyLib.str) (payload : PyLib.bytes)
  : Res PyLib.str :=
  let? key := PyLib.encode_utf8 secret in
  Ok (PyLib.b64encode (PyLib.hmac_sha256 key payload)).

Definition hex (s : string) : PyLib.bytes :=
  let fix go (l : list Z) :=
    match l with
    | a :: b :: r => (16 * a + b) :: go r
    | _ => []
    end in
  go (map (fun a => let n := Z.of_N (N_of_ascii a) in
                    if n <? 58 then n - 48 else n - 87)
          (list_ascii_of_string s)).


(** ** Credential encryption ([app/utils/encryption.py]) *)
Module Credentials.
Import PyLib.

(** [cryptography.fernet.Fernet], through the two calls the service makes.
    [fernet_decrypt] raises [InvalidToken] on a token it does not accept. *)
Record Fernet := {
  fernet_encrypt : bytes -> bytes;
  fernet_decrypt : bytes -> Res bytes
}.

(** [class TokenEncryption] *)
Record TokenEncryption := { cipher : Fernet }.

(** [TokenEncryption.encrypt] *)
Definition encrypt (self : TokenEncryption) (plaintext : option str)
  : Res (option str) :=
  match plaintext with
  | None | Some [] => Ok plaintext
  | Some text =>
      let? data := encode_utf8 text in
      let? token := decode_utf8 (fernet_encrypt (cipher self) data) in
      Ok (Some token)
  end.

(** The body of the [try] block of [TokenEncryption.decrypt]. *)
Definition decrypt_attempt (self : TokenEncryption) (encrypted_text : str)
  : Res str :=
  let? token := encode_utf8 encrypted_text in
  let? decrypted_bytes := fernet_decrypt (cipher self) token in
  decode_utf8 decrypted_bytes.

(** [TokenEncryption.decrypt]: [None] and the empty string are handed
    back as they are; a failure of the attempt is re-raised as a
    [ValueError]. *)
Definition decrypt (self : TokenEncryption) (encrypted_text : option str)
  : Res (option str) :=
  match encrypted_text with
  | None | Some [] => Ok encrypted_text
  | Some text =>
      res_try
        (let? plain := decrypt_attempt self text in Ok (Some plain))
        (fun e => Raise (ValueError
                    ("Failed to decrypt credential: " ++ str_exn e)%string))
  end.

(** The hybrid property [WooCommerceStore.consumer_key] (and, with the
    other column, [consumer_secret]) of [app/models.py], over the stored
    column value; [get_encryption] is the outcome of building the
    process-wide [TokenEncryption]. *)
Definition read_credential (get_encryption : Res TokenEncryption)
    (column : option str) : Res (option str) :=
  match column with
  | None | Some [] => Ok None
  | Some _ =>
      res_try
        (let? enc := get_encryption in decrypt enc column)
        (fun _ => Ok None)
  end.

(** A stand-in cipher for examples: it has the interface and the failure
    behaviour of Fernet (tokens start with the version marker, anything
    else is an [InvalidToken]) and none of its secrecy. *)
Definition marker : bytes := str_of_string "gAAAAA".

Fixpoint strip_prefix (p b : bytes) : option bytes :=
  match p, b with
  | [], _ => Some b
  | x :: p', y :: b' => if x =? y then strip_prefix p' b' else None
  | _ :: _, [] => None
  end.

Definition sample_fernet : Fernet := {|
  fernet_encrypt := fun data => marker ++ data;
  fernet_decrypt := fun token =>
    match strip_prefix marker token with
    | Some data => Ok data
    | None => Raise InvalidToken
    end
|}.

End Credentials.

(** ** State and exceptions

    [M S A]: a computation over a state [S] that returns an [A], raises, or
    runs out of fuel.  The state survives an exception, as Python objects
    and committed rows do. *)
Definition M (S A : Type) : Type := S -> S * Res A.

Definition ret {S A} (a : A) : M S A := fun s => (s, Ok a).
Definition raise {S A} (e : Exn) : M S A := fun s => (s, Raise e).
Definition out_of_fuel {S A} : M S A := fun s => (s, OutOfFuel).

Definition bind {S A B} (m : M S A) (k : A -> M S B) : M S B :=
  fun s =>
    match m s with
    | (s', Ok a) => k a s'
    | (s', Raise e) => (s', Raise e)
    | (s', OutOfFuel) => (s', OutOfFuel)
    end.

Notation "'let*' x ':=' m 'in' k" := (bind m (fun x => k))
  (at level 10, x name, m at level 100, k at level 200, only parsing).
Notation "m ';;;' k" := (bind m (fun _ => k))
  (at level 100, k at level 200, right associativity, only parsing).

(** [try: body  except Exception as e: handler e] *)
Definition try_except {S A} (body : M S A) (handler : Exn -> M S A) : M S A :=
  fun s =>
    match body s with
    | (s', Raise e) => handler e s'
    | r => r
    end.

Definition of_res {S A} (r : Res A) : M S A := fun s => (s, r).
Definition gets {S A} (f : S -> A) : M S A := fun s => (s, Ok (f s)).
Definition modify {S} (f : S -> S) : M S unit := fun s => (f s, Ok tt).

(** A computation on the world, run where local variables [L] are in
    scope too. *)
Definition lift {W L A} (m : M W A) : M (W * L) A :=
  fun '(w, l) => let '(w', r) := m w in ((w', l), r).
Definition local {W L A} (f : L -> A) : M (W * L) A :=
  fun '(w, l) => ((w, l), Ok (f l)).
Definition set_local {W L} (f : L -> L) : M (W * L) unit :=
  fun '(w, l) => ((w, f l), Ok tt).

(** ** The data model ([app/models.py], [app/schemas.py], [app/config.py]) *)

(** A point in time, as [func.now()] and [datetime.now(timezone.utc)] give
    it. *)
Definition Timestamp := Z.

(** The value of [datetime.fromisoformat]. *)
Record datetime := {
  year : Z; month : Z; day : Z;
  hour : Z; minute : Z; second : Z; microsecond : Z;
  utcoffset : option Z
}.

(** An embedding vector (pgvector column [Vector(768)]). *)
Definition vector := list float.

Module WooCommerceStore.
Record t := mk {
  id : Z;
  merchant_id : string;
  store_url : string;
  _consumer_key : option PyLib.str;
  _consumer_secret : option PyLib.str;
  is_active : Z;
  is_verified : Z;
  updated_at : option Timestamp;
  last_synced_at : option Timestamp
}.
End WooCommerceStore.

Module Product.
Record t := mk {
  id : Z;
  wc_product_id : Z;
  store_id : Z;
  merchant_id : string;
  name : JVal;
  slug : JVal;
  sku : JVal;
  type : JVal;
  status : JVal;
  price : JVal;
  regular_price : JVal;
  sale_price : JVal;
  categories : JVal;
  tags : JVal;
  wc_created_at : option datetime;
  wc_modified_at : option datetime;
  raw_data : Dict;
  embedding : option vector;
  is_deleted : Z;
  deleted_at : option Timestamp;
  synced_at : Timestamp;
  created_at : Timestamp;
  updated_at : option Timestamp
}.
End Product.

(** [class Settings], the fields the synchronisation reads. *)
Record Settings := {
  ENABLE_EMBEDDINGS : bool;
  WC_PRODUCTS_PER_PAGE : Z
}.

(** [class ReconciliationResult] *)
Record ReconciliationResult := {
  status : string;
  products_checked : Z;
  products_added : Z;
  products_updated : Z;
  products_deleted : Z;
  errors : list string
}.

(** The dictionary [total_stats] of the bulk sync; [error] is the key set
    on failure only. *)
Record SyncStats := {
  st_status : string;
  total_products : Z;
  synced_count : Z;
  created_count : Z;
  updated_count : Z;
  failed_count : Z;
  pages_fetched : Z;
  error : option string
}.

(** ** The remote shop ([app/services/woocommerce_client.py]) *)

Record WooCommerceClient := {
  client_store_url : string;
  consumer_key : option PyLib.str;
  consumer_secret : option PyLib.str;
  api_version : string
}.

(** The query of a [GET /products] request. *)
Record ProductsQuery := {
  q_page : Z;
  q_per_page : Z;
  q_status : string;
  q_orderby : string;
  q_order : string
}.

(** A reply to it: the decoded body and the two pagination headers, read
    with [int(...)]; a header that is absent is [None]. *)
Record ProductsReply := {
  data : list Dict;
  x_wp_total : option Z;
  x_wp_totalpages : option Z
}.

(** [class EmbeddingService]: the text preparation and the remote model
    call [model.get_embeddings([text])], the values of each embedding
    returned. *)
Record EmbeddingService := {
  prepare_product_text : Dict -> Res string;
  get_embeddings : string -> Res (list vector)
}.

(** What the code is run against: configuration, the clock, the remote
    shops, the embedding provider and the standard library's ISO date
    parser. *)
Record Env := {
  settings : Settings;
  clock : nat -> Timestamp;
  http_get_products : WooCommerceClient -> ProductsQuery -> Res ProductsReply;
  embedding_service : Res EmbeddingService;
  encryption : Res Credentials.TokenEncryption;
  fromisoformat : string -> option datetime
}.

(** ** The database session

    [session] is what the SQLAlchemy session sees, [committed] what
    [db.commit()] made durable; [product_id_seq] feeds the autoincrement
    key, [ticks] counts the readings of the clock. *)
Record Tables := {
  products : list Product.t;
  stores : list WooCommerceStore.t
}.

Record World := {
  committed : Tables;
  session : Tables;
  product_id_seq : Z;
  ticks : nat
}.

Definition with_session (f : Tables -> Tables) (w : World) : World :=
  {| committed := committed w; session := f (session w);
     product_id_seq := product_id_seq w; ticks := ticks w |}.

Definition with_products (f : list Product.t -> list Product.t)
    (t : Tables) : Tables :=
  {| products := f (products t); stores := stores t |}.

Definition with_stores (f : list WooCommerceStore.t -> list WooCommerceStore.t)
    (t : Tables) : Tables :=
  {| products := products t; stores := f (stores t) |}.

(** [db.commit()] and [db.rollback()] *)
Definition commit : M World unit :=
  modify (fun w =>
    {| committed := session w; session := session w;
       product_id_seq := product_id_seq w; ticks := ticks w |}).

Definition rollback : M World unit :=
  modify (fun w =>
    {| committed := committed w; session := committed w;
       product_id_seq := product_id_seq w; ticks := ticks w |}).

(** One reading of the clock. *)
Definition now (env : Env) : M World Timestamp :=
  fun w =>
    ({| committed := committed w; session := session w;
        product_id_seq := product_id_seq w; ticks := S (ticks w) |},
     Ok (clock env (ticks w))).

(** [nextval] of the products key sequence. *)
Definition next_product_id : M World Z :=
  fun w =>
    ({| committed := committed w; session := session w;
        product_id_seq := product_id_seq w + 1; ticks := ticks w |},
     Ok (product_id_seq w)).

(** [db.query(Product).filter(...).first()] and [.all()] *)
Definition query_products_first (p : Product.t -> bool)
  : M World (option Product.t) :=
  gets (fun w => find p (products (session w))).

Definition query_products_all (p : Product.t -> bool)
  : M World (list Product.t) :=
  gets (fun w => List.filter p (products (session w))).

Definition query_stores_all (p : WooCommerceStore.t -> bool)
  : M World (list WooCommerceStore.t) :=
  gets (fun w => List.filter p (stores (session w))).

(** Assigning to attributes of the object a query returned: the first
    row the query matched is the one that changes. *)
Fixpoint update_first {A} (p : A -> bool) (f : A -> A) (l : list A) : list A :=
  match l with
  | [] => []
  | x :: r => if p x then f x :: r else x :: update_first p f r
  end.

(** ** Product synchronisation ([app/services/product_sync.py]) *)

(** [s.replace('Z', '+00:00')] *)
Fixpoint replace_Z (s : string) : string :=
  match s with
  | EmptyString => EmptyString
  | String c r =>
      if Ascii.eqb c "Z"%char then ("+00:00" ++ replace_Z r)%string
      else String c (replace_Z r)
  end.

(** [parse_datetime]: a falsy value gives [None]; a value without
    [.replace] (anything but a string) raises [AttributeError], a string
    that is no ISO date raises [ValueError], and both are turned into
    [None]. *)
Definition parse_datetime (env : Env) (date_string : JVal) : option datetime :=
  if negb (truthy date_string) then None
  else match date_string with
       | JStr s => fromisoformat env (replace_Z s)
       | _ => None
       end.

(** The dictionary [parse_woocommerce_product] returns. *)
Record ParsedProduct := {
  p_wc_product_id : JVal;
  p_name : JVal;
  p_slug : JVal;
  p_sku : JVal;
  p_type : JVal;
  p_status : JVal;
  p_price : JVal;
  p_regular_price : JVal;
  p_sale_price : JVal;
  p_categories : JVal;
  p_tags : JVal;
  p_wc_created_at : option datetime;
  p_wc_modified_at : option datetime;
  p_raw_data : Dict
}.

Definition parse_woocommerce_product (env : Env) (product_data : Dict)
  : ParsedProduct :=
  {| p_wc_product_id := dict_get product_data "id";
     p_name := dict_get product_data "name";
     p_slug := dict_get product_data "slug";
     p_sku := dict_get product_data "sku";
     p_type := dict_get product_data "type";
     p_status := dict_get product_data "status";
     p_price := dict_get product_data "price";
     p_regular_price := dict_get product_data "regular_price";
     p_sale_price := dict_get product_data "sale_price";
     p_categories := dict_get_default product_data "categories" (JList []);
     p_tags := dict_get_default product_data "tags" (JList []);
     p_wc_created_at := parse_datetime env (dict_get product_data "date_created");
     p_wc_modified_at := parse_datetime env (dict_get product_data "date_modified");
     p_raw_data := product_data |}.

(** [EmbeddingService.generate_embedding]; its [except] clause logs and
    re-raises. *)
Definition generate_embedding (svc : EmbeddingService) (text : string)
  : Res (option vector) :=
  if String.eqb text "" then Ok None
  else
    let? embeddings := get_embeddings svc text in
    match embeddings with
    | e :: _ => Ok (Some e)
    | [] => Ok None
    end.

(** [get_embedding_service] *)
Definition get_embedding_service (env : Env) : Res EmbeddingService :=
  if negb (ENABLE_EMBEDDINGS (settings env))
  then Raise (ValueError "Embeddings are disabled")
  else embedding_service env.

(** The embedding block of [upsert_product]: first the body of its
    [try], then the block as a whole, which is [None] when the key
    ['embedding'] is not put into [parsed_data] (embeddings not asked for,
    or the attempt raised and was logged), otherwise the value stored
    under it, which may be Python's [None]. *)
Definition embedding_attempt (env : Env) (product_data : Dict)
  : Res (option vector) :=
  let? emb_service := get_embedding_service env in
  let? product_text := prepare_product_text emb_service product_data in
  generate_embedding emb_service product_text.

Definition embedding_entry (env : Env) (product_data : Dict)
    (generate : bool) : option (option vector) :=
  if generate && ENABLE_EMBEDDINGS (settings env) then
    match embedding_attempt env product_data with
    | Ok embedding => Some embedding
    | _ => None
    end
  else None.

(** [parsed_data.get('embedding')] taken as a condition. *)
Definition embedding_truthy (e : option (option vector)) : option vector :=
  match e with
  | Some (Some (x :: v)) => Some (x :: v)
  | _ => None
  end.

(** The dictionary [update_set].  Its entries ['is_deleted'] and
    ['deleted_at'] are the constants of the source; ['synced_at'] and
    ['updated_at'] are [func.now()], read when the statement runs;
    ['embedding'] is present only when [u_embedding] is [Some]. *)
Record UpdateSet := {
  u_name : JVal;
  u_slug : JVal;
  u_sku : JVal;
  u_type : JVal;
  u_status : JVal;
  u_price : JVal;
  u_regular_price : JVal;
  u_sale_price : JVal;
  u_categories : JVal;
  u_tags : JVal;
  u_wc_modified_at : option datetime;
  u_raw_data : Dict;
  u_is_deleted : Z;
  u_deleted_at : option Timestamp;
  u_embedding : option vector
}.

(** The statement [insert(Product).values(...)] over all of
    [parsed_data], with [on_conflict_do_update] on the index element
    [wc_product_id] and [set_=update_set]. *)
Record UpsertStmt := {
  v_parsed : ParsedProduct;
  v_store_id : Z;
  v_merchant_id : string;
  v_embedding : option (option vector);
  set_ : UpdateSet
}.

(** A value bound to the [BigInteger], [nullable=False] key column. *)
Definition as_bigint (v : JVal) : Res Z :=
  match v with
  | JInt n => Ok n
  | JNull => Raise (IntegrityError "null value in column wc_product_id")
  | _ => Raise (DataError "invalid input for type bigint")
  end.

(** The row an insert without conflict creates: columns the statement
    does not name take their defaults. *)
Definition inserted_row (stmt : UpsertStmt) (key n : Z) (t : Timestamp)
  : Product.t :=
  let p := v_parsed stmt in
  {| Product.id := key;
     Product.wc_product_id := n;
     Product.store_id := v_store_id stmt;
     Product.merchant_id := v_merchant_id stmt;
     Product.name := p_name p;
     Product.slug := p_slug p;
     Product.sku := p_sku p;
     Product.type := p_type p;
     Product.status := p_status p;
     Product.price := p_price p;
     Product.regular_price := p_regular_price p;
     Product.sale_price := p_sale_price p;
     Product.categories := p_categories p;
     Product.tags := p_tags p;
     Product.wc_created_at := p_wc_created_at p;
     Product.wc_modified_at := p_wc_modified_at p;
     Product.raw_data := p_raw_data p;
     Product.embedding := match v_embedding stmt with
                          | Some e => e
                          | None => None
                          end;
     Product.is_deleted := 0;
     Product.deleted_at := None;
     Product.synced_at := t;
     Product.created_at := t;
     Product.updated_at := None |}.

(** The row [DO UPDATE SET] leaves: columns outside the set keep their
    value. *)
Definition apply_update_set (u : UpdateSet) (t : Timestamp) (r : Product.t)
  : Product.t :=
  {| Product.id := Product.id r;
     Product.wc_product_id := Product.wc_product_id r;
     Product.store_id := Product.store_id r;
     Product.merchant_id := Product.merchant_id r;
     Product.name := u_name u;
     Product.slug := u_slug u;
     Product.sku := u_sku u;
     Product.type := u_type u;
     Product.status := u_status u;
     Product.price := u_price u;
     Product.regular_price := u_regular_price u;
     Product.sale_price := u_sale_price u;
     Product.categories := u_categories u;
     Product.tags := u_tags u;
     Product.wc_created_at := Product.wc_created_at r;
     Product.wc_modified_at := u_wc_modified_at u;
     Product.raw_data := u_raw_data u;
     Product.embedding := match u_embedding u with
                          | Some v => Some v
                          | None => Product.embedding r
                          end;
     Product.is_deleted := u_is_deleted u;
     Product.deleted_at := u_deleted_at u;
     Product.synced_at := t;
     Product.created_at := Product.created_at r;
     Product.updated_at := Some t |}.

Definition has_wc_id (n : Z) (r : Product.t) : bool :=
  Product.wc_product_id r =? n.

(** The table after the statement: the row holding the key is updated,
    or, when no row holds it, a new row is added. *)
Definition upsert_rows (stmt : UpsertStmt) (key n : Z) (t : Timestamp)
    (rows : list Product.t) : list Product.t :=
  if existsb (has_wc_id n) rows
  then update_first (has_wc_id n) (apply_update_set (set_ stmt) t) rows
  else rows ++ [inserted_row stmt key n t].

(** [db.execute(stmt)] *)
Definition execute (env : Env) (stmt : UpsertStmt) : M World unit :=
  let* n := of_res (as_bigint (p_wc_product_id (v_parsed stmt))) in
  let* key := next_product_id in
  let* t := now env in
  modify (with_session (with_products (upsert_rows stmt key n t))).

(** A key column compared with a Python value in a filter: only an
    integer equals a key. *)
Definition wc_id_is (v : JVal) (r : Product.t) : bool :=
  match v with
  | JInt n => has_wc_id n r
  | _ => false
  end.

(** The statement [upsert_product] builds. *)
Definition upsert_statement (env : Env) (store : WooCommerceStore.t)
    (product_data : Dict) (generate : bool) : UpsertStmt :=
  let parsed_data := parse_woocommerce_product env product_data in
  let embedding := embedding_entry env product_data generate in
  let update_set :=
    {| u_name := p_name parsed_data;
       u_slug := p_slug parsed_data;
       u_sku := p_sku parsed_data;
       u_type := p_type parsed_data;
       u_status := p_status parsed_data;
       u_price := p_price parsed_data;
       u_regular_price := p_regular_price parsed_data;
       u_sale_price := p_sale_price parsed_data;
       u_categories := p_categories parsed_data;
       u_tags := p_tags parsed_data;
       u_wc_modified_at := p_wc_modified_at parsed_data;
       u_raw_data := p_raw_data parsed_data;
       u_is_deleted := 0;
       u_deleted_at := None;
       u_embedding := embedding_truthy embedding |} in
  {| v_parsed := parsed_data;
     v_store_id := WooCommerceStore.id store;
     v_merchant_id := WooCommerceStore.merchant_id store;
     v_embedding := embedding;
     set_ := update_set |}.

(** [upsert_product(db, store, product_data, generate_embedding)] *)
Definition upsert_product (env : Env) (store : WooCommerceStore.t)
    (product_data : Dict) (generate : bool) : M World (option Product.t) :=
  let stmt := upsert_statement env store product_data generate in
  execute env stmt ;;;
  commit ;;;
  query_products_first (wc_id_is (p_wc_product_id (v_parsed stmt))).

Definition for_tenant (n : Z) (merchant : string) (r : Product.t) : bool :=
  has_wc_id n r && String.eqb (Product.merchant_id r) merchant.

(** The attribute assignments of [soft_delete_product], with the two
    [onupdate=func.now()] columns the flush refreshes. *)
Definition mark_deleted (deleted : Timestamp) (t : Timestamp) (r : Product.t)
  : Product.t :=
  {| Product.id := Product.id r;
     Product.wc_product_id := Product.wc_product_id r;
     Product.store_id := Product.store_id r;
     Product.merchant_id := Product.merchant_id r;
     Product.name := Product.name r;
     Product.slug := Product.slug r;
     Product.sku := Product.sku r;
     Product.type := Product.type r;
     Product.status := JStr "deleted";
     Product.price := Product.price r;
     Product.regular_price := Product.regular_price r;
     Product.sale_price := Product.sale_price r;
     Product.categories := Product.categories r;
     Product.tags := Product.tags r;
     Product.wc_created_at := Product.wc_created_at r;
     Product.wc_modified_at := Product.wc_modified_at r;
     Product.raw_data := Product.raw_data r;
     Product.embedding := Product.embedding r;
     Product.is_deleted := 1;
     Product.deleted_at := Some deleted;
     Product.synced_at := t;
     Product.created_at := Product.created_at r;
     Product.updated_at := Some t |}.

(** [soft_delete_product(db, wc_product_id, merchant_id)] *)
Definition soft_delete_product (env : Env) (wc_product_id : Z)
    (merchant_id : string) : M World bool :=
  let* product := query_products_first (for_tenant wc_product_id merchant_id) in
  match product with
  | None => ret false
  | Some _ =>
      let* deleted := now env in
      let* t := now env in
      modify (with_session (with_products
        (update_first (for_tenant wc_product_id merchant_id)
                      (mark_deleted deleted t)))) ;;;
      commit ;;;
      ret true
  end.

(** The attribute assignments of [restore_product]. *)
Definition mark_restored (t : Timestamp) (r : Product.t) : Product.t :=
  {| Product.id := Product.id r;
     Product.wc_product_id := Product.wc_product_id r;
     Product.store_id := Product.store_id r;
     Product.merchant_id := Product.merchant_id r;
     Product.name := Product.name r;
     Product.slug := Product.slug r;
     Product.sku := Product.sku r;
     Product.type := Product.type r;
     Product.status := Product.status r;
     Product.price := Product.price r;
     Product.regular_price := Product.regular_price r;
     Product.sale_price := Product.sale_price r;
     Product.categories := Product.categories r;
     Product.tags := Product.tags r;
     Product.wc_created_at := Product.wc_created_at r;
     Product.wc_modified_at := Product.wc_modified_at r;
     Product.raw_data := Product.raw_data r;
     Product.embedding := Product.embedding r;
     Product.is_deleted := 0;
     Product.deleted_at := None;
     Product.synced_at := t;
     Product.created_at := Product.created_at r;
     Product.updated_at := Some t |}.

(** [restore_product(db, wc_product_id, merchant_id)] *)
Definition restore_product (env : Env) (wc_product_id : Z)
    (merchant_id : string) : M World bool :=
  let* product := query_products_first (for_tenant wc_product_id merchant_id) in
  match product with
  | None => ret false
  | Some _ =>
      let* t := now env in
      modify (with_session (with_products
        (update_first (for_tenant wc_product_id merchant_id)
                      (mark_restored t)))) ;;;
      commit ;;;
      ret true
  end.

(** *** The client *)

(** [s.rstrip('/')] *)
Fixpoint rstrip_slash (s : string) : string :=
  match s with
  | EmptyString => EmptyString
  | String c r =>
      match rstrip_slash r with
      | EmptyString => if Ascii.eqb c "/"%char then EmptyString
                       else String c EmptyString
      | r' => String c r'
      end
  end.

(** [WooCommerceClient(store_url=store.store_url,
    consumer_key=store.consumer_key, consumer_secret=store.consumer_secret)]:
    the two credentials are read through the decrypting properties of the
    store, which give [None] on any failure. *)
Definition credential (env : Env) (column : option PyLib.str)
  : option PyLib.str :=
  match Credentials.read_credential (encryption env) column with
  | Ok v => v
  | _ => None
  end.

Definition client_for (env : Env) (store : WooCommerceStore.t)
  : WooCommerceClient :=
  {| client_store_url := rstrip_slash (WooCommerceStore.store_url store);
     consumer_key := credential env (WooCommerceStore._consumer_key store);
     consumer_secret := credential env (WooCommerceStore._consumer_secret store);
     api_version := "wc/v3" |}.

(** [WooCommerceClient.get_products(page, per_page, status)] with the
    defaults [orderby='id'], [order='asc']. *)
Definition products_params (page per_page : Z) (status : string)
  : ProductsQuery :=
  {| q_page := page;
     q_per_page := Z.min per_page 100;
     q_status := status;
     q_orderby := "id";
     q_order := "asc" |}.

Definition get_products (env : Env) (client : WooCommerceClient)
    (page per_page : Z) (status : string) : M World (list Dict * Z * Z) :=
  let params := products_params page per_page status in
  let* reply := of_res (http_get_products env client params) in
  let total := default 0 (x_wp_total reply) in
  let total_pages := default 0 (x_wp_totalpages reply) in
  ret (data reply, total, total_pages).

(** *** Bulk sync *)

(** The dictionary [stats] of [sync_products_batch]. *)
Record BatchStats := {
  b_synced_count : Z;
  b_created_count : Z;
  b_updated_count : Z;
  b_failed_count : Z
}.

Definition batch_zero : BatchStats :=
  {| b_synced_count := 0; b_created_count := 0;
     b_updated_count := 0; b_failed_count := 0 |}.

Definition batch_synced (existing : option Product.t) (s : BatchStats)
  : BatchStats :=
  {| b_synced_count := b_synced_count s + 1;
     b_created_count := match existing with
                        | Some _ => b_created_count s
                        | None => b_created_count s + 1
                        end;
     b_updated_count := match existing with
                        | Some _ => b_updated_count s + 1
                        | None => b_updated_count s
                        end;
     b_failed_count := b_failed_count s |}.

Definition batch_failed (s : BatchStats) : BatchStats :=
  {| b_synced_count := b_synced_count s;
     b_created_count := b_created_count s;
     b_updated_count := b_updated_count s;
     b_failed_count := b_failed_count s + 1 |}.

(** One turn of the loop of [sync_products_batch]: the [try] block, and
    the [except] block with its rollback. *)
Definition sync_one (env : Env) (store : WooCommerceStore.t)
    (product_data : Dict) (stats : BatchStats) : M World BatchStats :=
  try_except
    (let* existing :=
       query_products_first (wc_id_is (dict_get product_data "id")) in
     upsert_product env store product_data
       (ENABLE_EMBEDDINGS (settings env)) ;;;
     ret (batch_synced existing stats))
    (fun e => rollback ;;; ret (batch_failed stats)).

Fixpoint sync_loop (env : Env) (store : WooCommerceStore.t)
    (products : list Dict) (stats : BatchStats) : M World BatchStats :=
  match products with
  | [] => ret stats
  | product_data :: rest =>
      let* stats' := sync_one env store product_data stats in
      sync_loop env store rest stats'
  end.

(** [sync_products_batch(db, store, products)] *)
Definition sync_products_batch (env : Env) (store : WooCommerceStore.t)
    (products : list Dict) : M World BatchStats :=
  sync_loop env store products batch_zero.

Definition stats_zero : SyncStats :=
  {| st_status := "completed"; total_products := 0; synced_count := 0;
     created_count := 0; updated_count := 0; failed_count := 0;
     pages_fetched := 0; error := None |}.

Definition set_total (total : Z) (s : SyncStats) : SyncStats :=
  {| st_status := st_status s; total_products := total;
     synced_count := synced_count s; created_count := created_count s;
     updated_count := updated_count s; failed_count := failed_count s;
     pages_fetched := pages_fetched s; error := error s |}.

Definition accumulate (b : BatchStats) (s : SyncStats) : SyncStats :=
  {| st_status := st_status s; total_products := total_products s;
     synced_count := synced_count s + b_synced_count b;
     created_count := created_count s + b_created_count b;
     updated_count := updated_count s + b_updated_count b;
     failed_count := failed_count s + b_failed_count b;
     pages_fetched := pages_fetched s + 1; error := error s |}.

Definition set_failed (e : Exn) (s : SyncStats) : SyncStats :=
  {| st_status := "failed"; total_products := total_products s;
     synced_count := synced_count s; created_count := created_count s;
     updated_count := updated_count s; failed_count := failed_count s;
     pages_fetched := pages_fetched s; error := Some (str_exn e) |}.

(** The [while True] loop of [fetch_all_products_from_woocommerce], from
    the page it is about to fetch; [total_stats] is the local state.  The
    pause between two pages has no effect on the state. *)
Fixpoint fetch_pages (env : Env) (fuel : nat) (store : WooCommerceStore.t)
    (client : WooCommerceClient) (page per_page : Z)
  : M (World * SyncStats) unit :=
  match fuel with
  | O => out_of_fuel
  | S fuel' =>
      let* fetched := lift (get_products env client page per_page "any") in
      let '(products, total, total_pages) := fetched in
      match products with
      | [] => ret tt
      | _ :: _ =>
          (if page =? 1 then set_local (set_total total) else ret tt) ;;;
          let* batch_stats := lift (sync_products_batch env store products) in
          set_local (accumulate batch_stats) ;;;
          if (page >=? total_pages)
             || (Z.of_nat (List.length products) <? per_page)
          then ret tt
          else fetch_pages env fuel' store client (page + 1) per_page
      end
  end.

Definition set_last_synced (t t' : Timestamp) (s : WooCommerceStore.t)
  : WooCommerceStore.t :=
  {| WooCommerceStore.id := WooCommerceStore.id s;
     WooCommerceStore.merchant_id := WooCommerceStore.merchant_id s;
     WooCommerceStore.store_url := WooCommerceStore.store_url s;
     WooCommerceStore._consumer_key := WooCommerceStore._consumer_key s;
     WooCommerceStore._consumer_secret := WooCommerceStore._consumer_secret s;
     WooCommerceStore.is_active := WooCommerceStore.is_active s;
     WooCommerceStore.is_verified := WooCommerceStore.is_verified s;
     WooCommerceStore.updated_at := Some t';
     WooCommerceStore.last_synced_at := Some t |}.

(** [store.last_synced_at = datetime.now(timezone.utc); db.commit()] *)
Definition touch_last_synced (env : Env) (store : WooCommerceStore.t)
  : M World unit :=
  let* t := now env in
  let* t' := now env in
  modify (with_session (with_stores
    (update_first
       (fun s => WooCommerceStore.id s =? WooCommerceStore.id store)
       (set_last_synced t t')))) ;;;
  commit.

(** Running a block that has local variables, from their initial
    values; the block's outcome is kept beside their final values. *)
Definition with_locals {W L} (l0 : L) (m : M (W * L) unit) : M W L :=
  fun w =>
    match m (w, l0) with
    | ((w', l), Ok _) => (w', Ok l)
    | ((w', _), Raise e) => (w', Raise e)
    | ((w', _), OutOfFuel) => (w', OutOfFuel)
    end.

(** [fetch_all_products_from_woocommerce(store, db)] *)
Definition fetch_all_products_from_woocommerce (env : Env) (fuel : nat)
    (store : WooCommerceStore.t) : M World SyncStats :=
  let client := client_for env store in
  let per_page := WC_PRODUCTS_PER_PAGE (settings env) in
  with_locals stats_zero
    (try_except
       (fetch_pages env fuel store client 1 per_page ;;;
        lift (touch_last_synced env store))
       (fun e => set_local (set_failed e))).

(** ** Reconciliation ([app/routers/sync.py]) *)

(** The locals of [reconcile_products]: the result object and the set
    [wc_product_ids], kept as the values added to it. *)
Record ReconLocals := {
  result : ReconciliationResult;
  wc_product_ids : list JVal
}.

Definition result_zero : ReconciliationResult :=
  {| status := "completed"; products_checked := 0; products_added := 0;
     products_updated := 0; products_deleted := 0; errors := [] |}.

Definition on_result (f : ReconciliationResult -> ReconciliationResult)
    (l : ReconLocals) : ReconLocals :=
  {| result := f (result l); wc_product_ids := wc_product_ids l |}.

Definition add_id (v : JVal) (l : ReconLocals) : ReconLocals :=
  {| result := result l; wc_product_ids := v :: wc_product_ids l |}.

Definition inc_checked (r : ReconciliationResult) : ReconciliationResult :=
  {| status := status r; products_checked := products_checked r + 1;
     products_added := products_added r;
     products_updated := products_updated r;
     products_deleted := products_deleted r; errors := errors r |}.

Definition inc_added (r : ReconciliationResult) : ReconciliationResult :=
  {| status := status r; products_checked := products_checked r;
     products_added := products_added r + 1;
     products_updated := products_updated r;
     products_deleted := products_deleted r; errors := errors r |}.

Definition inc_updated (r : ReconciliationResult) : ReconciliationResult :=
  {| status := status r; products_checked := products_checked r;
     products_added := products_added r;
     products_updated := products_updated r + 1;
     products_deleted := products_deleted r; errors := errors r |}.

Definition inc_deleted (r : ReconciliationResult) : ReconciliationResult :=
  {| status := status r; products_checked := products_checked r;
     products_added := products_added r;
     products_updated := products_updated r;
     products_deleted := products_deleted r + 1; errors := errors r |}.

Definition set_partial (e : Exn) (r : ReconciliationResult)
  : ReconciliationResult :=
  {| status := "partial"; products_checked := products_checked r;
     products_added := products_added r;
     products_updated := products_updated r;
     products_deleted := products_deleted r;
     errors := errors r ++ [str_exn e] |}.

(** [product['id']] *)
Definition subscript (d : Dict) (k : string) : Res JVal :=
  match d !! k with
  | Some v => Ok v
  | None => Raise (KeyError k)
  end.

(** [wc_product_ids.add(v)]: lists and dictionaries are not hashable. *)
Definition check_hashable (v : JVal) : Res unit :=
  match v with
  | JList _ => Raise (TypeError "unhashable type: 'list'")
  | JObj _ => Raise (TypeError "unhashable type: 'dict'")
  | _ => Ok tt
  end.

(** [n not in wc_product_ids], for a key [n] read from a row. *)
Definition observed (n : Z) (ids : list JVal) : bool :=
  existsb (fun v => match v with JInt m => m =? n | _ => false end) ids.

Definition for_merchant (v : JVal) (merchant : string) (r : Product.t) : bool :=
  wc_id_is v r && String.eqb (Product.merchant_id r) merchant.

(** The body of [for product in products] in the walk. *)
Definition reconcile_one (env : Env) (store : WooCommerceStore.t)
    (product : Dict) : M (World * ReconLocals) unit :=
  let* pid := of_res (subscript product "id") in
  of_res (check_hashable pid) ;;;
  set_local (add_id pid) ;;;
  set_local (on_result inc_checked) ;;;
  let* existing := lift (query_products_first
                     (for_merchant pid (WooCommerceStore.merchant_id store))) in
  match existing with
  | None =>
      lift (upsert_product env store product false) ;;;
      set_local (on_result inc_added)
  | Some row =>
      if negb (Product.is_deleted row =? 0) then
        lift (upsert_product env store product false) ;;;
        set_local (on_result inc_updated)
      else ret tt
  end.

Fixpoint reconcile_each (env : Env) (store : WooCommerceStore.t)
    (products : list Dict) : M (World * ReconLocals) unit :=
  match products with
  | [] => ret tt
  | product :: rest =>
      reconcile_one env store product ;;;
      reconcile_each env store rest
  end.

(** The [while True] loop of the walk, from the page it is about to
    fetch. *)
Fixpoint reconcile_pages (env : Env) (fuel : nat) (store : WooCommerceStore.t)
    (client : WooCommerceClient) (page : Z) : M (World * ReconLocals) unit :=
  match fuel with
  | O => out_of_fuel
  | S fuel' =>
      let* fetched := lift (get_products env client page 100 "any") in
      let '(products, total, total_pages) := fetched in
      match products with
      | [] => ret tt
      | _ :: _ =>
          reconcile_each env store products ;;;
          if page >=? total_pages then ret tt
          else reconcile_pages env fuel' store client (page + 1)
      end
  end.

Definition active_of (merchant : string) (r : Product.t) : bool :=
  String.eqb (Product.merchant_id r) merchant && (Product.is_deleted r =? 0).

(** The body of [for product in local_products]. *)
Fixpoint delete_absent (env : Env) (store : WooCommerceStore.t)
    (local_products : list Product.t) : M (World * ReconLocals) unit :=
  match local_products with
  | [] => ret tt
  | product :: rest =>
      let* ids := local wc_product_ids in
      (if negb (observed (Product.wc_product_id product) ids) then
         lift (soft_delete_product env (Product.wc_product_id product)
                 (WooCommerceStore.merchant_id store)) ;;;
         set_local (on_result inc_deleted)
       else ret tt) ;;;
      delete_absent env store rest
  end.

(** The [try] block of [reconcile_products]. *)
Definition reconcile_body (env : Env) (fuel : nat) (store : WooCommerceStore.t)
    (client : WooCommerceClient) : M (World * ReconLocals) unit :=
  reconcile_pages env fuel store client 1 ;;;
  let* local_products :=
    lift (query_products_all
            (active_of (WooCommerceStore.merchant_id store))) in
  delete_absent env store local_products.

(** The locals at the start of [reconcile_products]. *)
Definition recon_start : ReconLocals :=
  {| result := result_zero; wc_product_ids := [] |}.

(** [reconcile_products(store, db)] *)
Definition reconcile_products (env : Env) (fuel : nat)
    (store : WooCommerceStore.t) : M World ReconciliationResult :=
  let client := client_for env store in
  let* locals :=
    with_locals recon_start
      (try_except
         (reconcile_body env fuel store client)
         (fun e => set_local (on_result (set_partial e)))) in
  ret (result locals).

(** ** The scheduled job ([app/services/scheduler.py]) *)

(** [reconcile_store(store, db)]; the [except] clause logs and
    re-raises. *)
Definition reconcile_store (env : Env) (fuel : nat)
    (store : WooCommerceStore.t) : M World unit :=
  try_except
    (fetch_all_products_from_woocommerce env fuel store ;;; ret tt)
    (fun e => raise e).

Fixpoint reconcile_stores (env : Env) (fuel : nat)
    (stores : list WooCommerceStore.t) : M World unit :=
  match stores with
  | [] => ret tt
  | store :: rest =>
      try_except (reconcile_store env fuel store) (fun _ => ret tt) ;;;
      reconcile_stores env fuel rest
  end.

Definition active_verified (s : WooCommerceStore.t) : bool :=
  (WooCommerceStore.is_active s =? 1) && (WooCommerceStore.is_verified s =? 1).

(** [reconciliation_job()]: [SessionLocal()] opens a session on the
    committed state and [db.close()] drops what it did not commit. *)
Definition reconciliation_job (env : Env) (fuel : nat) : M World unit :=
  rollback ;;;
  try_except
    (let* stores := query_stores_all active_verified in
     reconcile_stores env fuel stores)
    (fun _ => ret tt) ;;;
  rollback.

(** ** Notions used in the statements *)

(** The world [upsert_product] leaves when its payload carries the
    integer key [n]. *)
Definition upserted (env : Env) (store : WooCommerceStore.t)
    (product_data : Dict) (generate : bool) (n : Z) (w : World) : World :=
  let t := with_products
             (upsert_rows (upsert_statement env store product_data generate)
                (product_id_seq w) n (clock env (ticks w)))
             (session w) in
  {| committed := t; session := t;
     product_id_seq := product_id_seq w + 1; ticks := S (ticks w) |}.

(** The world [soft_delete_product] leaves when it finds the row. *)
Definition soft_deleted (env : Env) (n : Z) (merchant : string) (w : World)
  : World :=
  let t := with_products
             (update_first (for_tenant n merchant)
                (mark_deleted (clock env (ticks w)) (clock env (S (ticks w)))))
             (session w) in
  {| committed := t; session := t;
     product_id_seq := product_id_seq w; ticks := S (S (ticks w)) |}.

(** The columns of a row that come from the payload agree with it. *)
Definition row_matches (env : Env) (product_data : Dict) (r : Product.t)
  : Prop :=
  Product.name r = dict_get product_data "name"
  /\ Product.slug r = dict_get product_data "slug"
  /\ Product.sku r = dict_get product_data "sku"
  /\ Product.type r = dict_get product_data "type"
  /\ Product.status r = dict_get product_data "status"
  /\ Product.price r = dict_get product_data "price"
  /\ Product.regular_price r = dict_get product_data "regular_price"
  /\ Product.sale_price r = dict_get product_data "sale_price"
  /\ Product.categories r = dict_get_default product_data "categories" (JList [])
  /\ Product.tags r = dict_get_default product_data "tags" (JList [])
  /\ Product.wc_modified_at r
     = parse_datetime env (dict_get product_data "date_modified")
  /\ Product.raw_data r = product_data.

(** A row with its two refresh stamps set to [t] and nothing else
    changed. *)
Definition refreshed (t : Timestamp) (r : Product.t) : Product.t :=
  {| Product.id := Product.id r;
     Product.wc_product_id := Product.wc_product_id r;
     Product.store_id := Product.store_id r;
     Product.merchant_id := Product.merchant_id r;
     Product.name := Product.name r;
     Product.slug := Product.slug r;
     Product.sku := Product.sku r;
     Product.type := Product.type r;
     Product.status := Product.status r;
     Product.price := Product.price r;
     Product.regular_price := Product.regular_price r;
     Product.sale_price := Product.sale_price r;
     Product.categories := Product.categories r;
     Product.tags := Product.tags r;
     Product.wc_created_at := Product.wc_created_at r;
     Product.wc_modified_at := Product.wc_modified_at r;
     Product.raw_data := Product.raw_data r;
     Product.embedding := Product.embedding r;
     Product.is_deleted := Product.is_deleted r;
     Product.deleted_at := Product.deleted_at r;
     Product.synced_at := t;
     Product.created_at := Product.created_at r;
     Product.updated_at := Some t |}.

(** A sequence of calls of [upsert_product], whatever each returns. *)
Fixpoint run_upserts (env : Env)
    (calls : list (WooCommerceStore.t * Dict * bool)) (w : World) : World :=
  match calls with
  | [] => w
  | (store, product_data, generate) :: rest =>
      run_upserts env rest
        (fst (upsert_product env store product_data generate w))
  end.

(** The reply of the shop to the bulk sync asking for a page. *)
Definition bulk_reply (env : Env) (store : WooCommerceStore.t) (page : Z)
  : Res ProductsReply :=
  http_get_products env (client_for env store)
    (products_params page (WC_PRODUCTS_PER_PAGE (settings env)) "any").

(** A page after which the bulk sync goes on to the next one, and a page
    that is its last: no items, or fewer items than the page size asked
    for, or the reported number of pages reached. *)
Definition bulk_goes_on (env : Env) (page : Z) (reply : ProductsReply) : Prop :=
  data reply <> []
  /\ WC_PRODUCTS_PER_PAGE (settings env) <= Z.of_nat (List.length (data reply))
  /\ page < default 0 (x_wp_totalpages reply).

Definition bulk_last_page (env : Env) (page : Z) (reply : ProductsReply)
  : Prop :=
  data reply = []
  \/ Z.of_nat (List.length (data reply)) < WC_PRODUCTS_PER_PAGE (settings env)
  \/ default 0 (x_wp_totalpages reply) <= page.

Definition bulk_continues (env : Env) (store : WooCommerceStore.t) (j : nat)
  : Prop :=
  exists reply,
    bulk_reply env store (Z.of_nat j) = Ok reply
    /\ bulk_goes_on env (Z.of_nat j) reply.

(** The reply of the shop to the reconciliation asking for a page, and
    the items on it. *)
Definition page_reply (env : Env) (store : WooCommerceStore.t) (page : Z)
  : Res ProductsReply :=
  http_get_products env (client_for env store) (products_params page 100 "any").

Definition page_items (env : Env) (store : WooCommerceStore.t) (j : nat)
  : list Dict :=
  match page_reply env store (Z.of_nat j) with
  | Ok reply => data reply
  | _ => []
  end.

(** A page after which the walk goes on, and a page that is its last. *)
Definition walk_continues (env : Env) (store : WooCommerceStore.t) (j : nat)
  : Prop :=
  exists reply,
    page_reply env store (Z.of_nat j) = Ok reply
    /\ data reply <> []
    /\ Z.of_nat j < default 0 (x_wp_totalpages reply).

Definition walk_ends (env : Env) (store : WooCommerceStore.t) (k : nat)
  : Prop :=
  exists reply,
    page_reply env store (Z.of_nat k) = Ok reply
    /\ (data reply = [] \/ default 0 (x_wp_totalpages reply) <= Z.of_nat k).

(** The remote products the walk meets on pages [1..k], in order. *)
Definition enumerated (env : Env) (store : WooCommerceStore.t) (k : nat)
  : list Dict :=
  flat_map (page_items env store) (seq 1 k).

Definition integer_id (product : Dict) : Prop :=
  exists n, product !! "id" = Some (JInt n).

(** The remote product carries the key [n]. *)
Definition has_id (n : Z) (product : Dict) : bool :=
  match product !! "id" with
  | Some (JInt m) => m =? n
  | _ => false
  end.

(** An active row of the tenant whose key no remote product carries. *)
Definition absent_remotely (merchant : string) (remote : list Dict)
    (row : Product.t) : bool :=
  active_of merchant row
  && negb (existsb (has_id (Product.wc_product_id row)) remote).

(** What the delete pass makes of a row. *)
Definition deleted_if_absent (merchant : string) (remote : list Dict)
    (row row' : Product.t) : Prop :=
  if absent_remotely merchant remote row
  then exists deleted t, row' = mark_deleted deleted t row
  else row' = row.

(** The unique constraint on [wc_product_id]. *)
Definition unique_keys (rows : list Product.t) : Prop :=
  NoDup (map Product.wc_product_id rows).

(** A session without uncommitted changes. *)
Definition clean (w : World) : Prop := session w = committed w.

(** The properties every part of [reconcile_products] keeps, whatever
    its outcome: nothing is left uncommitted, and the error list and the
    status are touched by the [except] block only. *)
Definition keeps (m : M (World * ReconLocals) unit) : Prop :=
  forall w l w' l' r,
    m (w, l) = ((w', l'), r) ->
    clean w ->
    clean w'
    /\ errors (result l') = errors (result l)
    /\ status (result l') = status (result l).

(** The soft-delete flag of the committed row of key [n]. *)
Definition deleted_flag (n : Z) (w : World) : option Z :=
  option_map Product.is_deleted (find (has_wc_id n) (products (committed w))).

(** ** Sample data for examples *)
Module Samples.

Definition digit (c : ascii) : option Z :=
  let n := Z.of_N (N_of_ascii c) in
  if (48 <=? n) && (n <=? 57) then Some (n - 48) else None.

Fixpoint number (acc : Z) (l : list ascii) : option Z :=
  match l with
  | [] => Some acc
  | c :: r => match digit c with
              | Some d => number (10 * acc + d) r
              | None => None
              end
  end.

(** The dates WooCommerce sends, [YYYY-MM-DDTHH:MM:SS], with or without
    the offset [+00:00]; anything else is refused. *)
Definition iso_datetime (s : string) : option datetime :=
  let field a b := number 0 (list_ascii_of_string (substring a b s)) in
  let offset :=
    if String.eqb (substring 19 6 s) "+00:00" then Some (Some 0)
    else if (String.length s =? 19)%nat then Some None else None in
  if String.eqb (substring 4 1 s) "-" && String.eqb (substring 7 1 s) "-"
     && String.eqb (substring 10 1 s) "T" && String.eqb (substring 13 1 s) ":"
     && String.eqb (substring 16 1 s) ":"
  then
    match field 0%nat 4%nat, field 5%nat 2%nat, field 8%nat 2%nat,
          field 11%nat 2%nat, field 14%nat 2%nat, field 17%nat 2%nat, offset with
    | Some y, Some mo, Some d, Some h, Some mi, Some se, Some off =>
        Some {| year := y; month := mo; day := d; hour := h; minute := mi;
                second := se; microsecond := 0; utcoffset := off |}
    | _, _, _, _, _, _, _ => None
    end
  else None.

Definition store_a : WooCommerceStore.t :=
  {| WooCommerceStore.id := 1;
     WooCommerceStore.merchant_id := "merchant-a";
     WooCommerceStore.store_url := "https://a.example/";
     WooCommerceStore._consumer_key :=
       Some (PyLib.str_of_string "gAAAAAck_a");
     WooCommerceStore._consumer_secret :=
       Some (PyLib.str_of_string "gAAAAAcs_a");
     WooCommerceStore.is_active := 1;
     WooCommerceStore.is_verified := 1;
     WooCommerceStore.updated_at := None;
     WooCommerceStore.last_synced_at := None |}.

Definition store_b : WooCommerceStore.t :=
  {| WooCommerceStore.id := 2;
     WooCommerceStore.merchant_id := "merchant-b";
     WooCommerceStore.store_url := "https://b.example";
     WooCommerceStore._consumer_key :=
       Some (PyLib.str_of_string "corrupted");
     WooCommerceStore._consumer_secret :=
       Some (PyLib.str_of_string "gAAAAAcs_b");
     WooCommerceStore.is_active := 1;
     WooCommerceStore.is_verified := 1;
     WooCommerceStore.updated_at := None;
     WooCommerceStore.last_synced_at := None |}.

(** A remote product as the API sends it. *)
Definition remote (n : Z) (title price : string) : Dict :=
  list_to_map
    [ ("id", JInt n); ("name", JStr title); ("slug", JStr title);
      ("sku", JStr ""); ("type", JStr "simple"); ("status", JStr "publish");
      ("price", JStr price); ("regular_price", JStr price);
      ("sale_price", JStr "");
      ("categories", JList []); ("tags", JList []);
      ("date_created", JStr "2024-01-15T10:30:00");
      ("date_modified", JStr "2024-02-01T08:00:00Z") ].

(** The catalogue of shop A: products 1 and 2 on one page. *)
Definition shop (pages : list (list Dict)) (total_pages : Z)
    (q : ProductsQuery) : Res ProductsReply :=
  match nth_error pages (Z.to_nat (q_page q - 1)) with
  | Some items =>
      Ok {| data := items;
            x_wp_total := Some (Z.of_nat (List.length (concat pages)));
            x_wp_totalpages := Some total_pages |}
  | None => Ok {| data := []; x_wp_total := Some 0;
                  x_wp_totalpages := Some total_pages |}
  end.

Definition env_of (per_page : Z)
    (http : WooCommerceClient -> ProductsQuery -> Res ProductsReply) : Env :=
  {| settings := {| ENABLE_EMBEDDINGS := false;
                    WC_PRODUCTS_PER_PAGE := per_page |};
     clock := fun n => 1000 + Z.of_nat n;
     http_get_products := http;
     embedding_service := Raise (ValueError "GCP_PROJECT_ID is required for embeddings");
     encryption := Ok {| Credentials.cipher := Credentials.sample_fernet |};
     fromisoformat := iso_datetime |}.

Definition empty_world : World :=
  {| committed := {| products := []; stores := [store_a; store_b] |};
     session := {| products := []; stores := [store_a; store_b] |};
     product_id_seq := 1;
     ticks := 0 |}.

(** Shop A serving its two products on two pages of one item; the
    bulk sync asks for pages of one item. *)
Definition env_two_pages : Env :=
  env_of 1 (fun _ => shop [[remote 1 "one" "1.00"]; [remote 2 "two" "2.00"]] 2).

(** Three products of merchant A in the local table. *)
Definition seeded : World :=
  fst (sync_products_batch env_two_pages store_a
         [remote 1 "one" "1.00"; remote 2 "two" "2.00"; remote 3 "three" "3.00"]
         empty_world).

(** A shop whose first page holds a new product and whose second page
    cannot be fetched. *)
Definition env_failing : Env :=
  env_of 100 (fun _ q =>
    if q_page q =? 1
    then Ok {| data := [remote 4 "four" "4.00"]; x_wp_total := Some 150;
               x_wp_totalpages := Some 2 |}
    else Raise (HTTPError "502 Bad Gateway")).

(** Embeddings switched on, with a provider that cannot be built. *)
Definition env_no_provider : Env :=
  {| settings := {| ENABLE_EMBEDDINGS := true; WC_PRODUCTS_PER_PAGE := 100 |};
     clock := fun n => 1000 + Z.of_nat n;
     http_get_products := fun _ => shop [] 0;
     embedding_service :=
       Raise (ValueError "GCP_PROJECT_ID is required for embeddings");
     encryption := Ok {| Credentials.cipher := Credentials.sample_fernet |};
     fromisoformat := iso_datetime |}.

(** The scheduled job's world: store B, whose shop is down, comes before
    store A, whose shop now lists products 1 and 2 only. *)
Definition env_job : Env :=
  env_of 100 (fun c =>
    if String.eqb (client_store_url c) "https://a.example"
    then shop [[remote 1 "one" "1.50"; remote 2 "two" "2.00"]] 1
    else fun _ => Raise (HTTPError "503 Service Unavailable")).

Definition job_world : World :=
  {| committed := {| products := products (committed seeded);
                     stores := [store_b; store_a] |};
     session := {| products := products (committed seeded);
                   stores := [store_b; store_a] |};
     product_id_seq := product_id_seq seeded;
     ticks := ticks seeded |}.

(** Two versions of product 1. *)
Definition V1 : Dict := remote 1 "one" "1.00".
Definition V2 : Dict := remote 1 "one, renamed" "1.20".

End Samples.

(** ** Further notions used in the statements *)

(** The columns a soft delete or a restore leaves alone. *)
Definition same_content (r r' : Product.t) : Prop :=
  Product.id r' = Product.id r
  /\ Product.wc_product_id r' = Product.wc_product_id r
  /\ Product.store_id r' = Product.store_id r
  /\ Product.merchant_id r' = Product.merchant_id r
  /\ Product.name r' = Product.name r
  /\ Product.slug r' = Product.slug r
  /\ Product.sku r' = Product.sku r
  /\ Product.type r' = Product.type r
  /\ Product.price r' = Product.price r
  /\ Product.regular_price r' = Product.regular_price r
  /\ Product.sale_price r' = Product.sale_price r
  /\ Product.categories r' = Product.categories r
  /\ Product.tags r' = Product.tags r
  /\ Product.wc_created_at r' = Product.wc_created_at r
  /\ Product.wc_modified_at r' = Product.wc_modified_at r
  /\ Product.raw_data r' = Product.raw_data r
  /\ Product.embedding r' = Product.embedding r
  /\ Product.created_at r' = Product.created_at r.

(** No product was marked deleted on the way from [rows] to [rows']:
    a row that is soft-deleted in [rows'] is a row of [rows]. *)
Definition no_new_deletion (rows rows' : list Product.t) : Prop :=
  forall r, In r rows' -> Product.is_deleted r <> 0 -> In r rows.

(** The payload carries an integer ID. *)
Definition integer_idb (product : Dict) : bool :=
  match dict_get product "id" with
  | JInt _ => true
  | _ => false
  end.

(** The world [db.rollback()] leaves. *)
Definition rolled_back (w : World) : World := fst (rollback w).

(** What a run of the synchronisation may do to the product table and
    the session, from a session without uncommitted changes: it leaves
    none, marks no product deleted and keeps the unique constraint; the
    stores table is as it was. *)
Definition sync_step (w w' : World) : Prop :=
  clean w ->
  clean w'
  /\ no_new_deletion (products (session w)) (products (session w'))
  /\ (unique_keys (products (session w)) -> unique_keys (products (session w')))
  /\ stores (session w') = stores (session w).

(** The stores the scheduled job works on, and the state after syncing
    them one after the other. *)
Definition job_stores (w : World) : list WooCommerceStore.t :=
  List.filter active_verified (stores (committed w)).

Fixpoint sync_each (env : Env) (fuel : nat)
    (todo : list WooCommerceStore.t) (w : World) : World :=
  match todo with
  | [] => w
  | store :: rest =>
      sync_each env fuel rest
        (fst (fetch_all_products_from_woocommerce env fuel store w))
  end.

(** The pagination of the shop of [store] comes to an end within [fuel]
    pages: with a last page, or with a request that raises. *)
Definition bulk_ends_within (env : Env) (store : WooCommerceStore.t)
    (fuel : nat) : Prop :=
  exists k,
    (1 <= k <= fuel)%nat
    /\ (forall j, (1 <= j < k)%nat -> bulk_continues env store j)
    /\ ((exists last, bulk_reply env store (Z.of_nat k) = Ok last
                      /\ bulk_last_page env (Z.of_nat k) last)
        \/ exists e, bulk_reply env store (Z.of_nat k) = Raise e).

(** The world [touch_last_synced] leaves. *)
Definition touched (env : Env) (store : WooCommerceStore.t) (w : World)
  : World :=
  fst (touch_last_synced env store w).

Definition same_store (store s : WooCommerceStore.t) : bool :=
  WooCommerceStore.id s =? WooCommerceStore.id store.

(** What the delete pass makes of a row when no remote product was met
    at all. *)
Definition deleted_if_active (merchant : string) (row row' : Product.t)
  : Prop :=
  if active_of merchant row
  then exists deleted t, row' = mark_deleted deleted t row
  else row' = row.

(** The walk only upserts. *)
Definition walk_keeps (m : M (World * ReconLocals) unit) : Prop :=
  forall w l w' l' r,
    m (w, l) = ((w', l'), r) ->
    sync_step w w'
    /\ products_deleted (result l') = products_deleted (result l).


(** ** Writing a credential ([app/models.py])

    The setters of the hybrid properties [consumer_key] and
    [consumer_secret]: the value the column gets. *)
Definition write_credential (get_encryption : Res Credentials.TokenEncryption)
    (value : option PyLib.str) : Res (option PyLib.str) :=
  match value with
  | None | Some [] => Ok None
  | Some _ =>
      let? enc := get_encryption in
      Credentials.encrypt enc value
  end.

(** A cipher that decrypts what it encrypted from ASCII data and whose
    tokens are then non-empty ASCII text, as Fernet's base64 tokens are. *)
Definition sound_cipher (c : Credentials.Fernet) : Prop :=
  forall data,
    PyLib.is_ascii data = true ->
    Credentials.fernet_decrypt c (Credentials.fernet_encrypt c data) = Ok data
    /\ PyLib.is_ascii (Credentials.fernet_encrypt c data) = true
    /\ Credentials.fernet_encrypt c data <> [].

(** ** Trailing slashes *)


Fixpoint ends_with_slash (s : string) : bool :=
  match s with
  | EmptyString => false
  | String c EmptyString => Ascii.eqb c "/"%char
  | String _ r => ends_with_slash r
  end.


(** ** Webhook headers ([app/utils/webhook_verification.py])

    Header names and values are text of one-byte characters, as the
    HTTP layer hands them over; [lower] is [str.lower] on the ASCII
    letters, which is all a header name has. *)
Definition lower_char (c : ascii) : ascii :=
  let n := N_of_ascii c in
  if ((65 <=? n) && (n <=? 90))%N then ascii_of_N (n + 32) else c.

Fixpoint lower (s : string) : string :=
  match s with
  | EmptyString => EmptyString
  | String c r => String (lower_char c) (lower r)
  end.

(** [class WebhookHeaders] *)
Record WebhookHeaders := {
  wh_source : option string;
  wh_topic : option string;
  wh_resource : option string;
  wh_event : option string;
  wh_signature : option string;
  wh_webhook_id : option string;
  wh_delivery_id : option string
}.

(** The dictionary comprehension [{k.lower(): v for k, v in
    headers.items()}]: of two names that differ in case only, the later
    one stays. *)
Definition normalized (headers : list (string * string)) : gmap string string :=
  fold_left (fun m kv => <[lower (fst kv) := snd kv]> m) headers ∅.

(** [WebhookHeaders.from_request_headers] *)
Definition from_request_headers (headers : list (string * string))
  : WebhookHeaders :=
  let n := normalized headers in
  {| wh_source := n !! "x-wc-webhook-source";
     wh_topic := n !! "x-wc-webhook-topic";
     wh_resource := n !! "x-wc-webhook-resource";
     wh_event := n !! "x-wc-webhook-event";
     wh_signature := n !! "x-wc-webhook-signature";
     wh_webhook_id := n !! "x-wc-webhook-id";
     wh_delivery_id := n !! "x-wc-webhook-delivery-id" |}.

(** A value that is neither [None] nor empty. *)
Definition present (v : option string) : bool :=
  match v with
  | Some s => negb (String.eqb s "")
  | None => false
  end.

(** [WebhookHeaders.get_store_url] *)
Definition get_store_url (self : WebhookHeaders) : option string :=
  if present (wh_source self)
  then option_map rstrip_slash (wh_source self)
  else None.

(** [WebhookHeaders.is_valid] *)
Definition is_valid (self : WebhookHeaders) : bool :=
  present (wh_source self) && present (wh_topic self)
  && present (wh_signature self).

(** ** Incoming webhooks ([app/routers/webhooks.py]) *)

Module Webhook.
Record t := mk {
  id : Z;
  store_id : Z;
  merchant_id : string;
  wc_webhook_id : Z;
  topic : string;
  delivery_url : string;
  secret : option PyLib.str;
  status : string;
  is_active : Z;
  last_verified_at : option Timestamp;
  updated_at : option Timestamp
}.
End Webhook.

(** What a handler gives back: its value, an [HTTPException] with
    status code and detail, or an exception it does not handle. *)
Inductive Http (A : Type) : Type :=
| Respond (a : A)
| HTTPException (status_code : Z) (detail : string)
| Unhandled (e : Exn).
Arguments Respond {A} a.
Arguments HTTPException {A} status_code detail.
Arguments Unhandled {A} e.

(** A delivery: the raw body and the [X-WC-Webhook-...] headers. *)
Record Delivery := {
  body : PyLib.bytes;
  x_wc_webhook_signature : option string;
  x_wc_webhook_source : option string;
  x_wc_webhook_topic : option string;
  x_wc_webhook_resource : option string;
  x_wc_webhook_event : option string
}.

(** What [verify_wc_webhook] hands to the handlers. *)
Record WebhookData := {
  wd_store : WooCommerceStore.t;
  wd_topic : string;
  wd_payload : JVal
}.

(** An f-string field: [None] prints as [None]. *)
Definition fmt (v : option string) : string :=
  match v with
  | Some s => s
  | None => "None"
  end.

Definition store_at (url : string) (s : WooCommerceStore.t) : bool :=
  String.eqb (WooCommerceStore.store_url s) url
  && (WooCommerceStore.is_active s =? 1).

Definition hook_for (store : WooCommerceStore.t) (topic : string)
    (h : Webhook.t) : bool :=
  (Webhook.store_id h =? WooCommerceStore.id store)
  && String.eqb (Webhook.topic h) topic
  && (Webhook.is_active h =? 1).

(** [verify_wc_webhook]: the dependency every product handler runs
    first.  [json_loads] is [json.loads], [None] standing for its
    [JSONDecodeError]; [hooks] is the webhooks table. *)
Definition verify_wc_webhook (json_loads : PyLib.str -> option JVal)
    (hooks : list Webhook.t) (d : Delivery) : M World (Http WebhookData) :=
  if negb (present (x_wc_webhook_source d))
     || negb (present (x_wc_webhook_signature d))
  then ret (HTTPException 401 "Missing required webhook headers")
  else
    let store_url := rstrip_slash (default "" (x_wc_webhook_source d)) in
    let* store := gets (fun w => find (store_at store_url) (stores (session w))) in
    match store with
    | None => ret (HTTPException 404 ("Store not found: " ++ store_url)%string)
    | Some store =>
        let topic :=
          if present (x_wc_webhook_topic d)
          then default "" (x_wc_webhook_topic d)
          else (fmt (x_wc_webhook_resource d) ++ "."
                ++ fmt (x_wc_webhook_event d))%string in
        match find (hook_for store topic) hooks with
        | None =>
            ret (HTTPException 401 "Webhook not registered or missing secret")
        | Some webhook =>
            match Webhook.secret webhook with
            | None | Some [] =>
                ret (HTTPException 401 "Webhook not registered or missing secret")
            | Some secret =>
                match WebhookVerification.verify_woocommerce_webhook (body d)
                        (PyLib.str_of_string
                           (default "" (x_wc_webhook_signature d)))
                        secret with
                | Ok true =>
                    match PyLib.decode_utf8 (body d) with
                    | Ok text =>
                        match json_loads text with
                        | Some payload =>
                            ret (Respond {| wd_store := store;
                                            wd_topic := topic;
                                            wd_payload := payload |})
                        | None => ret (HTTPException 400 "Invalid JSON payload")
                        end
                    | Raise e => ret (Unhandled e)
                    | OutOfFuel => out_of_fuel
                    end
                | Ok false => ret (HTTPException 401 "Invalid webhook signature")
                | Raise e => ret (Unhandled e)
                | OutOfFuel => out_of_fuel
                end
            end
        end
    end.

(** The reply of a product handler. *)
Record Ack := {
  ack_status : string;
  ack_action : string;
  ack_product_id : JVal;
  ack_merchant_id : option string;
  ack_message : option string
}.

(** [payload.get(...)] and [product_data.get(...)] on a payload that is
    no JSON object: the [AttributeError], by its message. *)
Definition no_get (v : JVal) : string :=
  (match v with
   | JNull => "'NoneType'"
   | JBool _ => "'bool'"
   | JInt _ => "'int'"
   | JStr _ => "'str'"
   | JList _ => "'list'"
   | JObj _ => "'dict'"
   end ++ " object has no attribute 'get'")%string.

(** The handlers [product_created_webhook], [product_updated_webhook]
    and [product_restored_webhook], which differ in the action they
    report. *)
Definition product_upsert_webhook (action : string) (env : Env)
    (json_loads : PyLib.str -> option JVal) (hooks : list Webhook.t)
    (d : Delivery) : M World (Http Ack) :=
  let* webhook_data := verify_wc_webhook json_loads hooks d in
  match webhook_data with
  | Respond wd =>
      let store := wd_store wd in
      match wd_payload wd with
      | JObj payload =>
          try_except
            (upsert_product env store payload true ;;;
             ret (Respond
                    {| ack_status := "success";
                       ack_action := action;
                       ack_product_id := dict_get payload "id";
                       ack_merchant_id :=
                         Some (WooCommerceStore.merchant_id store);
                       ack_message := None |}))
            (fun e => ret (HTTPException 500 (str_exn e)))
      | other => ret (HTTPException 500 (no_get other))
      end
  | HTTPException status_code detail => ret (HTTPException status_code detail)
  | Unhandled e => ret (Unhandled e)
  end.

Definition product_created_webhook := product_upsert_webhook "created".
Definition product_updated_webhook := product_upsert_webhook "updated".
Definition product_restored_webhook := product_upsert_webhook "restored".

(** [soft_delete_product] called with the ID as the payload has it: an
    integer, or [None] when the key is missing, which no row's key equals.
    A value of another type is not what the column can be compared
    with. *)
Definition soft_delete_payload_id (env : Env) (product_id : JVal)
    (merchant_id : string) : M World bool :=
  match product_id with
  | JInt n => soft_delete_product env n merchant_id
  | JNull => ret false
  | _ => raise (DataError "invalid input for type bigint")
  end.

(** [product_deleted_webhook] *)
Definition product_deleted_webhook (env : Env)
    (json_loads : PyLib.str -> option JVal) (hooks : list Webhook.t)
    (d : Delivery) : M World (Http Ack) :=
  let* webhook_data := verify_wc_webhook json_loads hooks d in
  match webhook_data with
  | Respond wd =>
      let store := wd_store wd in
      match wd_payload wd with
      | JObj payload =>
          try_except
            (let product_id := dict_get payload "id" in
             let* success :=
               soft_delete_payload_id env product_id
                 (WooCommerceStore.merchant_id store) in
             if success then
               ret (Respond
                      {| ack_status := "success";
                         ack_action := "deleted";
                         ack_product_id := product_id;
                         ack_merchant_id :=
                           Some (WooCommerceStore.merchant_id store);
                         ack_message := None |})
             else
               ret (Respond
                      {| ack_status := "success";
                         ack_action := "not_found";
                         ack_product_id := product_id;
                         ack_merchant_id := None;
                         ack_message := Some "Product not found in database" |}))
            (fun e => ret (HTTPException 500 (str_exn e)))
      | other => ret (HTTPException 500 (no_get other))
      end
  | HTTPException status_code detail => ret (HTTPException status_code detail)
  | Unhandled e => ret (Unhandled e)
  end.

(** A delivery is authentic for the tables at hand: an active store has
    the source URL, an active subscription of that store has the topic, and
    the signature verifies under its secret. *)
Definition authentic (hooks : list Webhook.t) (w : World) (d : Delivery)
    (store : WooCommerceStore.t) (topic : string) : Prop :=
  exists source signature webhook secret,
    x_wc_webhook_source d = Some source
    /\ source <> ""
    /\ x_wc_webhook_signature d = Some signature
    /\ find (store_at (rstrip_slash source)) (stores (session w)) = Some store
    /\ find (hook_for store topic) hooks = Some webhook
    /\ Webhook.secret webhook = Some secret
    /\ WebhookVerification.verify_woocommerce_webhook (body d)
         (PyLib.str_of_string signature) secret = Ok true.

(** The value of the last header that has the given name, whatever the
    case of its letters. *)
Definition header_value (headers : list (string * string)) (name : string)
  : option string :=
  option_map snd
    (find (fun kv => String.eqb (lower (fst kv)) (lower name)) (rev headers)).

(** The topic a delivery is handled under. *)
Definition delivery_topic (d : Delivery) : string :=
  if present (x_wc_webhook_topic d)
  then default "" (x_wc_webhook_topic d)
  else (fmt (x_wc_webhook_resource d) ++ "." ++ fmt (x_wc_webhook_event d))%string.

Definition rejection {A} (r : Res (Http A)) : Prop :=
  exists detail,
    r = Ok (HTTPException 401 detail) \/ r = Ok (HTTPException 404 detail).

From stdpp Require Import pretty.
Local Open Scope Z_scope.

(** ** Authentication ([app/middleware/auth.py]) *)

(** [verify_api_key]; [API_KEY] is [settings.API_KEY]. *)
Definition verify_api_key (API_KEY x_api_key : PyLib.str)
  : Res (Http PyLib.str) :=
  match x_api_key with
  | [] => Ok (HTTPException 401 "Missing X-API-Key header")
  | _ =>
      match PyLib.compare_digest x_api_key API_KEY with
      | Ok true => Ok (Respond x_api_key)
      | Ok false => Ok (HTTPException 403 "Invalid API Key")
      | Raise e => Ok (Unhandled e)
      | OutOfFuel => OutOfFuel
      end
  end.

(** [get_merchant_id] *)
Definition get_merchant_id (x_merchant_id : string) : Http string :=
  if String.eqb x_merchant_id ""
  then HTTPException 400 "Missing X-Merchant-Id header"
  else Respond x_merchant_id.

Definition store_of (merchant_id : string) (s : WooCommerceStore.t) : bool :=
  String.eqb (WooCommerceStore.merchant_id s) merchant_id.

(** [get_merchant_from_header], after [get_merchant_id] gave it the
    merchant ID. *)
Definition get_merchant_from_header (merchant_id : string)
  : M World (Http WooCommerceStore.t) :=
  let* store :=
    gets (fun w => find (store_of merchant_id) (stores (session w))) in
  match store with
  | None =>
      ret (HTTPException 404 ("Merchant not found: " ++ merchant_id)%string)
  | Some store =>
      if WooCommerceStore.is_active store =? 0 then
        ret (HTTPException 403
               ("Merchant is inactive: " ++ merchant_id)%string)
      else if WooCommerceStore.is_verified store =? 0 then
        ret (HTTPException 403
               "Merchant connection not verified. Please verify WooCommerce connection first.")
      else ret (Respond store)
  end.

(** ** Reading products ([app/routers/products.py])

    [model_validate] is [ProductResponse.model_validate], which makes
    the response schema of a row or raises; [ilike] is the operator of the
    database on a column value and a pattern. *)

(** [Product.<column> == value] on a text column. *)
Definition column_is (column : JVal) (value : string) : bool :=
  match column with
  | JStr s => String.eqb s value
  | _ => false
  end.

(** [[ProductResponse.model_validate(p) for p in products]] *)
Fixpoint validate_each {R} (model_validate : Product.t -> Res R)
    (products : list Product.t) : Res (list R) :=
  match products with
  | [] => Ok []
  | p :: rest =>
      let? v := model_validate p in
      let? vs := validate_each model_validate rest in
      Ok (v :: vs)
  end.

(** [order_by(Product.wc_product_id.desc())]; the column is unique, so
    the order of equal keys never shows. *)
Fixpoint insert_desc (r : Product.t) (sorted : list Product.t)
  : list Product.t :=
  match sorted with
  | [] => [r]
  | x :: rest =>
      if Product.wc_product_id x <=? Product.wc_product_id r
      then r :: sorted
      else x :: insert_desc r rest
  end.

Definition order_by_wc_product_id_desc (rows : list Product.t)
  : list Product.t :=
  fold_right insert_desc [] rows.

(** The filters of [list_products], one after the other. *)
Definition listed (ilike : JVal -> string -> bool) (merchant_id : string)
    (status type search : option string) (include_deleted : bool)
    (r : Product.t) : bool :=
  String.eqb (Product.merchant_id r) merchant_id
  && (include_deleted || (Product.is_deleted r =? 0))
  && (if present status
      then column_is (Product.status r) (default "" status) else true)
  && (if present type
      then column_is (Product.type r) (default "" type) else true)
  && (if present search
      then
        let search_term := ("%" ++ default "" search ++ "%")%string in
        ilike (Product.name r) search_term
        || ilike (Product.sku r) search_term
        || ilike (Product.slug r) search_term
      else true).

(** [class ProductListResponse] *)
Record ProductListResponse (R : Type) := {
  pl_products : list R;
  pl_total : Z;
  pl_page : Z;
  pl_per_page : Z;
  pl_total_pages : Z
}.
Arguments pl_products {R} _.
Arguments pl_total {R} _.
Arguments pl_page {R} _.
Arguments pl_per_page {R} _.
Arguments pl_total_pages {R} _.

(** The bounds the signature of [list_products] declares: [page:
    int = Query(1, ge=1)] and [per_page: int = Query(50, ge=1, le=100)].  A
    request outside them is answered 422 before the body runs. *)
Definition within_bounds (page per_page : Z) : bool :=
  (1 <=? page) && (1 <=? per_page) && (per_page <=? 100).

(** [offset(offset).limit(per_page)] *)
Definition offset_limit {A} (offset per_page : Z) (rows : list A) : list A :=
  firstn (Z.to_nat per_page) (skipn (Z.to_nat offset) rows).

(** [list_products] *)
Definition list_products {R} (model_validate : Product.t -> Res R)
    (ilike : JVal -> string -> bool)
    (page per_page : Z) (status type search : option string)
    (include_deleted : bool) (store : WooCommerceStore.t)
  : M World (Http (ProductListResponse R)) :=
  if negb (within_bounds page per_page)
  then ret (HTTPException 422 "Unprocessable Entity")
  else
    let query :=
      listed ilike (WooCommerceStore.merchant_id store) status type search
        include_deleted in
    let* matching := query_products_all query in
    let total := Z.of_nat (List.length matching) in
    let total_pages := (total + per_page - 1) / per_page in
    let offset := (page - 1) * per_page in
    let products :=
      offset_limit offset per_page (order_by_wc_product_id_desc matching) in
    let* validated := of_res (validate_each model_validate products) in
    ret (Respond {| pl_products := validated;
                    pl_total := total;
                    pl_page := page;
                    pl_per_page := per_page;
                    pl_total_pages := total_pages |}).

(** [get_product] *)
Definition get_product {R} (model_validate : Product.t -> Res R)
    (product_id : Z) (store : WooCommerceStore.t) : M World (Http R) :=
  let* product :=
    query_products_first
      (for_tenant product_id (WooCommerceStore.merchant_id store)) in
  match product with
  | None =>
      ret (HTTPException 404
             ("Product " ++ pretty product_id ++ " not found")%string)
  | Some product =>
      let* v := of_res (model_validate product) in
      ret (Respond v)
  end.

(** ** Sync status ([app/routers/sync.py]) *)

(** [class SyncStatusResponse] *)
Record SyncStatusResponse := {
  ss_merchant_id : string;
  ss_store_url : string;
  ss_total_products : Z;
  ss_active_products : Z;
  ss_deleted_products : Z;
  ss_last_synced_at : option Timestamp;
  ss_webhooks_registered : Z;
  ss_scheduler_enabled : bool
}.

Definition of_merchant (merchant_id : string) (r : Product.t) : bool :=
  String.eqb (Product.merchant_id r) merchant_id.

Definition active_hook (store : WooCommerceStore.t) (h : Webhook.t) : bool :=
  (Webhook.store_id h =? WooCommerceStore.id store)
  && (Webhook.is_active h =? 1).

(** [query.count()] *)
Definition count {A} (p : A -> bool) (rows : list A) : Z :=
  Z.of_nat (List.length (List.filter p rows)).

(** [get_sync_status]; [ENABLE_SCHEDULER] is the setting of that name
    and [hooks] the webhooks table. *)
Definition get_sync_status (ENABLE_SCHEDULER : bool) (hooks : list Webhook.t)
    (store : WooCommerceStore.t) : M World SyncStatusResponse :=
  let* total_products :=
    gets (fun w => count (of_merchant (WooCommerceStore.merchant_id store))
                     (products (session w))) in
  let* active_products :=
    gets (fun w => count (active_of (WooCommerceStore.merchant_id store))
                     (products (session w))) in
  let deleted_products := total_products - active_products in
  let webhooks_registered := count (active_hook store) hooks in
  ret {| ss_merchant_id := WooCommerceStore.merchant_id store;
         ss_store_url := WooCommerceStore.store_url store;
         ss_total_products := total_products;
         ss_active_products := active_products;
         ss_deleted_products := deleted_products;
         ss_last_synced_at := WooCommerceStore.last_synced_at store;
         ss_webhooks_registered := webhooks_registered;
         ss_scheduler_enabled := ENABLE_SCHEDULER |}.

(** ** Notions for the readers *)

(** The status [get_sync_status] reports in a world. *)
Definition sync_status (ENABLE_SCHEDULER : bool) (hooks : list Webhook.t)
    (store : WooCommerceStore.t) (w : World) : SyncStatusResponse :=
  let merchant := WooCommerceStore.merchant_id store in
  let total := count (of_merchant merchant) (products (session w)) in
  let active := count (active_of merchant) (products (session w)) in
  {| ss_merchant_id := merchant;
     ss_store_url := WooCommerceStore.store_url store;
     ss_total_products := total;
     ss_active_products := active;
     ss_deleted_products := total - active;
     ss_last_synced_at := WooCommerceStore.last_synced_at store;
     ss_webhooks_registered := count (active_hook store) hooks;
     ss_scheduler_enabled := ENABLE_SCHEDULER |}.

(** The rows [list_products] lists, over all pages. *)
Definition listing (ilike : JVal -> string -> bool)
    (status type search : option string) (include_deleted : bool)
    (store : WooCommerceStore.t) (w : World) : list Product.t :=
  order_by_wc_product_id_desc
    (List.filter
       (listed ilike (WooCommerceStore.merchant_id store) status type search
          include_deleted)
       (products (session w))).

(** The products of a reply, none for a reply that is no listing. *)
Definition products_of {R} (r : Res (Http (ProductListResponse R))) : list R :=
  match r with
  | Ok (Respond reply) => pl_products reply
  | _ => []
  end.

(** The pages [1] to [n] of a listing, one after the other. *)
Definition pages_upto {R} (model_validate : Product.t -> Res R)
    (ilike : JVal -> string -> bool) (per_page : Z)
    (status type search : option string) (include_deleted : bool)
    (store : WooCommerceStore.t) (w : World) (n : nat) : list R :=
  concat
    (map (fun k =>
            products_of
              (snd (list_products model_validate ilike (Z.of_nat k) per_page
                      status type search include_deleted store w)))
         (seq 1 n)).

(** ** Further sample data *)
Module MoreSamples.
Import Samples.

(** A shop that serves its two products on pages of one item and
    reports five pages, synced with a configured page size of 250. *)
Definition env_big_pages : Env :=
  env_of 250
    (fun _ => shop [[remote 1 "one" "1.00"]; [remote 2 "two" "2.00"]] 5).

(** A shop whose catalogue is empty. *)
Definition env_empty_shop : Env := env_of 100 (fun _ => shop [] 0).

(** Store B with product 7. *)
Definition world_b : World :=
  fst (upsert_product env_two_pages store_b (remote 7 "seven" "7.00") false
         empty_world).

Definition hook (key : Z) (topic : string) : Webhook.t :=
  {| Webhook.id := key;
     Webhook.store_id := 2;
     Webhook.merchant_id := "merchant-b";
     Webhook.wc_webhook_id := 40 + key;
     Webhook.topic := topic;
     Webhook.delivery_url := "https://sync.example/api/webhooks/product";
     Webhook.secret := Some (PyLib.str_of_string "s3cret");
     Webhook.status := "active";
     Webhook.is_active := 1;
     Webhook.last_verified_at := None;
     Webhook.updated_at := None |}.

Definition hooks_b : list Webhook.t :=
  [hook 1 "product.updated"; hook 2 "product.deleted"].

(** The body [{ id : 7 }] as WooCommerce sends it, and its signature
    under the secret of [hooks_b]. *)
Definition body_7 : PyLib.bytes := [123; 34; 105; 100; 34; 58; 55; 125].

Definition signature_7 : string :=
  "xI3LoitJqTcc32B6QQFiOCIeOMeNcunsy1XHW9wPPrw=".

Definition payload_7 : Dict :=
  list_to_map [("id", JInt 7); ("name", JStr "seven, renamed")].

Definition json_7 (text : PyLib.str) : option JVal :=
  if PyLib.list_eqb text body_7 then Some (JObj payload_7) else None.

(** A delivery of store B for the topic [product.updated], one for
    [product.deleted] that names the topic by resource and event, and one
    with a signature that is not the body's. *)
Definition delivery_updated : Delivery :=
  {| body := body_7;
     x_wc_webhook_signature := Some signature_7;
     x_wc_webhook_source := Some "https://b.example/";
     x_wc_webhook_topic := Some "product.updated";
     x_wc_webhook_resource := Some "product";
     x_wc_webhook_event := Some "updated" |}.

Definition delivery_deleted : Delivery :=
  {| body := body_7;
     x_wc_webhook_signature := Some signature_7;
     x_wc_webhook_source := Some "https://b.example";
     x_wc_webhook_topic := None;
     x_wc_webhook_resource := Some "product";
     x_wc_webhook_event := Some "deleted" |}.

Definition delivery_forged : Delivery :=
  {| body := body_7;
     x_wc_webhook_signature := Some "AAAAAAAAAAAAAAAAAAAAAAAAAAAAAAAAAAAAAAAAAAA=";
     x_wc_webhook_source := Some "https://b.example/";
     x_wc_webhook_topic := Some "product.updated";
     x_wc_webhook_resource := Some "product";
     x_wc_webhook_event := Some "updated" |}.

End MoreSamples.
(** ** The library model against published test vectors *)
Module PyLibTests.
Import PyLib.

Example sha256_constants :
  firstn 2 K256 = [0x428a2f98; 0x71374491] /\ nth 63 K256 0 = 0xc67178f2
  /\ firstn 2 H256 = [0x6a09e667; 0xbb67ae85] /\ nth 7 H256 0 = 0x5be0cd19.
Proof. vm_compute. repeat split. Qed.

Example sha256_abc :
  sha256 (str_of_string "abc")
  = hex "ba7816bf8f01cfea414140de5dae2223b00361a396177a9cb410ff61f20015ad".
Proof. vm_compute. reflexivity. Qed.

Example sha256_two_blocks :
  sha256 (repeat 97 120)
  = hex "2f3d335432c70b580af0e8e1b3674a7c020d683aa5f73aaaedfdc55af904c21c".
Proof. vm_compute. reflexivity. Qed.

(** RFC 4231, test case 2. *)
Example hmac_rfc4231_2 :
  hmac_sha256 (str_of_string "Jefe")
              (str_of_string "what do ya want for nothing?")
  = hex "5bdcc146bf60754e6a042426089575c75a003f089d2739839dec58b964ec3843".
Proof. vm_compute. reflexivity. Qed.

Example b64_rfc4231_2 :
  b64encode (hmac_sha256 (str_of_string "Jefe")
                         (str_of_string "what do ya want for nothing?"))
  = str_of_string "W9zBRr9gdU5qBCQmCJV1x1oAPwidJzmDnexYuWTsOEM=".
Proof. vm_compute. reflexivity. Qed.

Example b64_padding :
  map b64encode [str_of_string "f"; str_of_string "fo"; str_of_string "foo";
                 str_of_string "foob"]
  = map str_of_string ["Zg=="; "Zm8="; "Zm9v"; "Zm9vYg=="].
Proof. vm_compute. reflexivity. Qed.

Example utf8_decode_samples :
  map decode_utf8 [[0x41]; [0xC3; 0xA9]; [0xE2; 0x82; 0xAC];
                   [0xF0; 0x9F; 0x98; 0x80]; [0xED; 0xA0; 0x80];
                   [0xC0; 0x80]; [0x80]; [0xE2; 0x82]]
  = [Ok [0x41]; Ok [0xE9]; Ok [0x20AC]; Ok [0x1F600]; Raise bad_byte;
     Raise bad_byte; Raise bad_byte; Raise bad_byte].
Proof. vm_compute. reflexivity. Qed.

Example utf8_samples :
  map encode_utf8 [[0x41]; [0xE9]; [0x20AC]; [0x1F600]; [0xD800]]
  = [Ok [0x41]; Ok [0xC3; 0xA9]; Ok [0xE2; 0x82; 0xAC];
     Ok [0xF0; 0x9F; 0x98; 0x80]; Raise (UnicodeError "surrogates not allowed")].
Proof. vm_compute. reflexivity. Qed.

End PyLibTests.

(** ** Webhook signature verification *)
Module WebhookVerificationFacts.
Import PyLib WebhookVerification.

Lemma list_eqb_eq (a b : list Z) : list_eqb a b = true <-> a = b.
Proof.
  revert b; induction a as [|x a IH]; intros [|y b]; simpl; split;
    try congruence; try discriminate.
  - rewrite andb_true_iff, Z.eqb_eq, IH. intros [-> ->]; reflexivity.
  - intros [= -> ->]. rewrite Z.eqb_refl. simpl. apply IH; reflexivity.
Qed.

Lemma b64_char_ascii (i : Z) :
  ((0 <=? b64_char i) && (b64_char i <? 128)) = true.
Proof.
  unfold b64_char.
  generalize (Z.to_nat (Z.land i 63)); intros n.
  destruct (Nat.lt_ge_cases n (List.length b64_alphabet)) as [Hlt|Hge].
  - assert (Hall : forallb (fun c => (0 <=? c) && (c <? 128)) b64_alphabet = true)
      by (vm_compute; reflexivity).
    rewrite forallb_forall in Hall. apply Hall, nth_In, Hlt.
  - rewrite nth_overflow by exact Hge. reflexivity.
Qed.

Lemma b64encode_ascii_upto (n : nat) :
  forall b, (List.length b <= n)%nat -> is_ascii (b64encode b) = true.
Proof.
  induction n as [|n IH]; intros b Hlen.
  - destruct b; [reflexivity | simpl in Hlen; lia].
  - destruct b as [|x [|y [|z r]]]; try reflexivity.
    + simpl. rewrite !b64_char_ascii. reflexivity.
    + simpl. rewrite !b64_char_ascii. reflexivity.
    + change (is_ascii (b64encode (x :: y :: z :: r)))
        with (forallb (fun c => (0 <=? c) && (c <? 128))
                (b64_char (Z.shiftr x 2)
                 :: b64_char (Z.lor (Z.shiftl x 4) (Z.shiftr y 4))
                 :: b64_char (Z.lor (Z.shiftl y 2) (Z.shiftr z 6))
                 :: b64_char z :: b64encode r)).
      cbn [forallb]. rewrite !b64_char_ascii. cbn [andb].
      apply IH. simpl in Hlen. lia.
Qed.

Lemma b64encode_ascii (b : bytes) : is_ascii (b64encode b) = true.
Proof. apply (b64encode_ascii_upto (List.length b)); lia. Qed.

Lemma decode_utf8_ascii (b : bytes) :
  is_ascii b = true -> decode_utf8 b = Ok b.
Proof.
  induction b as [|x b IH]; [reflexivity|].
  cbn [is_ascii forallb]. intros H. apply andb_true_iff in H as [Hx Hb].
  cbn [decode_utf8]. rewrite Hx. rewrite (IH Hb). reflexivity.
Qed.

Lemma encode_utf8_terminates (s : str) : encode_utf8 s <> OutOfFuel.
Proof.
  induction s as [|c s IH]; simpl; [discriminate|].
  unfold encode_char.
  repeat match goal with
         | |- context [if ?c then _ else _] => destruct c
         end; simpl; try discriminate;
    destruct (encode_utf8 s); simpl; congruence.
Qed.

(** The body of the [try] block, once the two emptiness guards passed. *)
Lemma verify_nonempty (payload : bytes) (signature secret : str) :
  signature <> [] -> secret <> [] ->
  verify_woocommerce_webhook payload signature secret
  = match encode_utf8 secret with
    | Ok key =>
        Ok (is_ascii signature
            && list_eqb (b64encode (hmac_sha256 key payload)) signature)
    | _ => Ok false
    end.
Proof.
  intros Hsig Hsec.
  destruct signature as [|c sg]; [congruence|].
  destruct secret as [|d sc]; [congruence|].
  unfold verify_woocommerce_webhook.
  pose proof (encode_utf8_terminates (d :: sc)) as Hterm.
  destruct (encode_utf8 (d :: sc)) as [key| |]; [|reflexivity|congruence].
  cbn [res_bind res_try].
  rewrite (decode_utf8_ascii _ (b64encode_ascii _)).
  cbn [res_bind]. unfold compare_digest.
  rewrite b64encode_ascii. cbn [andb].
  destruct (is_ascii (c :: sg)); reflexivity.
Qed.

Lemma verify_true_iff (payload : bytes) (signature secret : str) :
  verify_woocommerce_webhook payload signature secret = Ok true
  <-> signature <> [] /\ secret <> []
      /\ expected_signature secret payload = Ok signature.
Proof.
  destruct signature as [|c sg].
  { simpl. split; [discriminate | intros [H _]; congruence]. }
  destruct secret as [|d sc].
  { simpl. split; [discriminate | intros (_ & H & _); congruence]. }
  rewrite verify_nonempty by discriminate.
  unfold expected_signature.
  destruct (encode_utf8 (d :: sc)) as [key| |]; cbn [res_bind].
  - split.
    + intros [= H]. apply andb_true_iff in H as [_ H].
      apply list_eqb_eq in H. rewrite H. repeat split; discriminate.
    + intros (_ & _ & [= H]). rewrite <- H.
      rewrite b64encode_ascii. f_equal. apply list_eqb_eq. reflexivity.
  - split; [discriminate | intros (_ & _ & H); discriminate].
  - split; [discriminate | intros (_ & _ & H); discriminate].
Qed.

Lemma verify_total (payload : bytes) (signature secret : str) :
  exists b, verify_woocommerce_webhook payload signature secret = Ok b.
Proof.
  destruct signature as [|c sg]; [eexists; reflexivity|].
  destruct secret as [|d sc]; [eexists; reflexivity|].
  rewrite verify_nonempty by discriminate.
  destruct (encode_utf8 (d :: sc)); eexists; reflexivity.
Qed.

(** C4. [verify_woocommerce_webhook] always returns a boolean and never
    raises.  It returns [True] exactly when signature and secret are both
    non-empty and the signature is the base64 text of the HMAC-SHA256 of the
    payload bytes under the secret.  Hence it returns [False] for an empty
    signature or secret, for a secret that cannot be encoded (an error inside
    the [try] block), and, given a signature valid for one payload and
    secret, for every other payload or secret whose expected signature is a
    different one. *)
Theorem verify_woocommerce_webhook_spec
    (payload : bytes) (signature secret : str) :
  (exists b, verify_woocommerce_webhook payload signature secret = Ok b)
  /\ (verify_woocommerce_webhook payload signature secret = Ok true
      <-> signature <> [] /\ secret <> []
          /\ expected_signature secret payload = Ok signature)
  /\ (signature = [] \/ secret = [] ->
      verify_woocommerce_webhook payload signature secret = Ok false)
  /\ (forall e, encode_utf8 secret = Raise e ->
      verify_woocommerce_webhook payload signature secret = Ok false)
  /\ (forall payload' secret',
      verify_woocommerce_webhook payload signature secret = Ok true ->
      expected_signature secret' payload' <> Ok signature ->
      verify_woocommerce_webhook payload' signature secret' = Ok false).
Proof.
  assert (Hfalse : forall p sg sc,
             verify_woocommerce_webhook p sg sc <> Ok true ->
             verify_woocommerce_webhook p sg sc = Ok false).
  { intros p sg sc H. destruct (verify_total p sg sc) as [[|] Hb]; congruence. }
  split; [apply verify_total|].
  split; [apply verify_true_iff|].
  split; [|split].
  - intros H. apply Hfalse. rewrite verify_true_iff. intros (? & ? & _).
    destruct H; congruence.
  - intros e He. apply Hfalse. rewrite verify_true_iff.
    unfold expected_signature. rewrite He. intros (_ & _ & H); discriminate.
  - intros payload' secret' _ Hne. apply Hfalse. rewrite verify_true_iff.
    intros (_ & _ & H). congruence.
Qed.

(** The body [id=1] signed with [s3cret], then with one payload
    byte altered, with another secret, and with signature or secret
    missing. *)
Example verify_samples :
  let sig := str_of_string "2SJPWETSEwy25pG/ExbAwixSyMI3Fu/Kr0cgk4ZoY3M=" in
  let body := str_of_string "id=1" in
  map (fun '(p, s, k) => verify_woocommerce_webhook p s k)
      [ (body, sig, str_of_string "s3cret");
        (str_of_string "id=2", sig, str_of_string "s3cret");
        (body, sig, str_of_string "s3cres");
        (body, [], str_of_string "s3cret");
        (body, sig, []);
        (body, sig, [0xD800]);
        (body, 0xE9 :: sig, str_of_string "s3cret") ]
  = [Ok true; Ok false; Ok false; Ok false; Ok false; Ok false; Ok false].
Proof. vm_compute. reflexivity. Qed.

End WebhookVerificationFacts.

(** ** Lists of rows *)
Section ListFacts.
Context {A : Type}.

Lemma existsb_find (p : A -> bool) (l : list A) :
  existsb p l = match find p l with Some _ => true | None => false end.
Proof.
  induction l as [|x l IH]; simpl; [reflexivity|].
  destruct (p x); simpl; [reflexivity | exact IH].
Qed.

Lemma find_update_first (p : A -> bool) (f : A -> A) (l : list A) :
  (forall x, p x = true -> p (f x) = true) ->
  find p (update_first p f l) = option_map f (find p l).
Proof.
  intros Hp. induction l as [|x l IH]; simpl; [reflexivity|].
  destruct (p x) eqn:E; simpl.
  - rewrite (Hp x E). reflexivity.
  - rewrite E. exact IH.
Qed.

Lemma find_update_first_other (p q : A -> bool) (f : A -> A) (l : list A) :
  (forall x, q (f x) = q x) ->
  (forall x, p x = true -> q x = false) ->
  find q (update_first p f l) = find q l.
Proof.
  intros Hq Hpq. induction l as [|x l IH]; simpl; [reflexivity|].
  destruct (p x) eqn:E; simpl.
  - rewrite Hq. rewrite (Hpq x E). reflexivity.
  - destruct (q x); [reflexivity | exact IH].
Qed.

Lemma find_snoc (p : A -> bool) (l : list A) (x : A) :
  find p (l ++ [x])
  = match find p l with
    | Some y => Some y
    | None => if p x then Some x else None
    end.
Proof.
  induction l as [|y l IH]; simpl; [reflexivity|].
  destruct (p y); [reflexivity | exact IH].
Qed.

Lemma length_update_first (p : A -> bool) (f : A -> A) (l : list A) :
  List.length (update_first p f l) = List.length l.
Proof.
  induction l as [|x l IH]; simpl; [reflexivity|].
  destruct (p x); simpl; [reflexivity | rewrite IH; reflexivity].
Qed.

Lemma map_update_first {B} (g : A -> B) (p : A -> bool) (f : A -> A)
    (l : list A) :
  (forall x, g (f x) = g x) ->
  map g (update_first p f l) = map g l.
Proof.
  intros Hg. induction l as [|x l IH]; simpl; [reflexivity|].
  destruct (p x); simpl; [rewrite Hg | rewrite IH]; reflexivity.
Qed.

Lemma update_first_ext (p : A -> bool) (f g : A -> A) (l : list A) :
  (forall x, find p l = Some x -> f x = g x) ->
  update_first p f l = update_first p g l.
Proof.
  induction l as [|x l IH]; simpl; [reflexivity|].
  destruct (p x); intros H.
  - rewrite (H x eq_refl). reflexivity.
  - rewrite (IH H). reflexivity.
Qed.

Lemma find_none_not_in {B} (key : A -> B) (eqb : B -> B -> bool) (n : B)
    (l : list A) :
  (forall a b, eqb a b = true <-> a = b) ->
  find (fun x => eqb (key x) n) l = None -> ~ In n (map key l).
Proof.
  intros Heq Hf Hin. apply in_map_iff in Hin as (x & Hx & Hin).
  pose proof (find_none _ _ Hf x Hin) as H. simpl in H.
  assert (eqb (key x) n = true) by (apply Heq; exact Hx). congruence.
Qed.

Lemma Forall2_map_left {B C} (P : B -> C -> Prop) (f : A -> B)
    (l : list A) (k : list C) :
  Forall2 P (map f l) k -> Forall2 (fun x y => P (f x) y) l k.
Proof.
  revert k. induction l as [|x l IH]; intros k H; inversion H; subst;
    constructor; auto.
Qed.

Lemma Forall2_impl_In {B} (P Q : A -> B -> Prop) (l : list A) (k : list B) :
  Forall2 P l k ->
  (forall x y, In x l -> P x y -> Q x y) ->
  Forall2 Q l k.
Proof.
  induction 1 as [|x y l k Hxy _ IH]; intros HPQ; constructor.
  - apply HPQ; [left; reflexivity | exact Hxy].
  - apply IH. intros a b Ha. apply HPQ. right. exact Ha.
Qed.

Lemma Forall2_same (P : A -> A -> Prop) (l : list A) :
  (forall x, P x x) -> Forall2 P l l.
Proof. intros H. induction l; constructor; auto. Qed.

Lemma find_is_some (p : A -> bool) (l : list A) (x : A) :
  In x l -> p x = true -> exists y, find p l = Some y.
Proof.
  intros Hin Hp. destruct (find p l) as [y|] eqn:E; [eauto|].
  pose proof (find_none _ _ E x Hin). congruence.
Qed.

End ListFacts.

(** ** The upsert *)
Module UpsertFacts.

Lemma upsert_product_run env store product_data generate n w :
  dict_get product_data "id" = JInt n ->
  upsert_product env store product_data generate w
  = (upserted env store product_data generate n w,
     Ok (find (has_wc_id n)
           (products (session (upserted env store product_data generate n w))))).
Proof.
  intros Hid.
  unfold upsert_product, execute, bind, of_res, next_product_id, now, modify,
    commit, query_products_first, gets, upserted.
  cbn [upsert_statement v_parsed parse_woocommerce_product p_wc_product_id].
  rewrite Hid. reflexivity.
Qed.

Lemma upsert_product_refused env store product_data generate w :
  (forall n, dict_get product_data "id" <> JInt n) ->
  exists e, upsert_product env store product_data generate w = (w, Raise e).
Proof.
  intros Hid.
  unfold upsert_product, execute, bind, of_res.
  cbn [upsert_statement v_parsed parse_woocommerce_product p_wc_product_id].
  destruct (dict_get product_data "id") eqn:E; simpl;
    try (eexists; reflexivity).
  exfalso. eapply Hid. reflexivity.
Qed.

Lemma has_wc_id_apply u t r n :
  has_wc_id n (apply_update_set u t r) = has_wc_id n r.
Proof. reflexivity. Qed.

(** The row holding key [n] after the statement ran. *)
Lemma find_upsert_rows stmt key n t rows :
  find (has_wc_id n) (upsert_rows stmt key n t rows)
  = Some match find (has_wc_id n) rows with
         | Some r => apply_update_set (set_ stmt) t r
         | None => inserted_row stmt key n t
         end.
Proof.
  unfold upsert_rows. rewrite existsb_find.
  destruct (find (has_wc_id n) rows) as [r|] eqn:E.
  - rewrite find_update_first by (intros x Hx; exact Hx).
    rewrite E. reflexivity.
  - rewrite find_snoc, E. unfold has_wc_id at 1. simpl.
    rewrite Z.eqb_refl. reflexivity.
Qed.

Lemma find_upsert_rows_other stmt key n t rows m :
  m <> n ->
  find (has_wc_id m) (upsert_rows stmt key n t rows)
  = find (has_wc_id m) rows.
Proof.
  intros Hne. unfold upsert_rows.
  destruct (existsb (has_wc_id n) rows).
  - apply find_update_first_other; [reflexivity|].
    unfold has_wc_id. intros x Hx. apply Z.eqb_eq in Hx.
    apply Z.eqb_neq. congruence.
  - rewrite find_snoc. destruct (find (has_wc_id m) rows); [reflexivity|].
    unfold has_wc_id. simpl.
    destruct (Z.eqb_spec n m); [congruence | reflexivity].
Qed.

Lemma unique_keys_upsert_rows stmt key n t rows :
  unique_keys rows -> unique_keys (upsert_rows stmt key n t rows).
Proof.
  unfold unique_keys, upsert_rows. intros Hu.
  rewrite existsb_find.
  destruct (find (has_wc_id n) rows) eqn:E.
  - rewrite map_update_first by reflexivity. exact Hu.
  - rewrite map_app. simpl.
    apply NoDup_app. split; [exact Hu|]. split; [|apply NoDup_singleton].
    intros x Hx Hin. apply list_elem_of_In in Hin. simpl in Hin.
    destruct Hin as [<-|[]].
    apply list_elem_of_In in Hx. revert Hx.
    apply (find_none_not_in Product.wc_product_id Z.eqb); [apply Z.eqb_eq|].
    exact E.
Qed.

Lemma length_upsert_rows stmt key n t rows :
  List.length (upsert_rows stmt key n t rows)
  = match find (has_wc_id n) rows with
    | Some _ => List.length rows
    | None => S (List.length rows)
    end.
Proof.
  unfold upsert_rows. rewrite existsb_find.
  destruct (find (has_wc_id n) rows).
  - apply length_update_first.
  - rewrite length_app. simpl. lia.
Qed.

Lemma filter_absent n rows :
  n ∉ map Product.wc_product_id rows -> List.filter (has_wc_id n) rows = [].
Proof.
  induction rows as [|y rows IH]; simpl; [reflexivity|].
  intros Hn. apply not_elem_of_cons in Hn as [Hy Hn].
  unfold has_wc_id at 1. destruct (Z.eqb_spec (Product.wc_product_id y) n).
  - congruence.
  - apply IH, Hn.
Qed.

(** Under the unique constraint the rows of one key are one row. *)
Lemma filter_unique n rows r :
  unique_keys rows ->
  find (has_wc_id n) rows = Some r ->
  List.filter (has_wc_id n) rows = [r].
Proof.
  unfold unique_keys. induction rows as [|x rows IH]; simpl; [discriminate|].
  intros Hu Hf. apply NoDup_cons in Hu as [Hx Hu].
  destruct (has_wc_id n x) eqn:E.
  - injection Hf as <-. f_equal.
    apply Z.eqb_eq in E. subst n. apply filter_absent, Hx.
  - apply IH; assumption.
Qed.

End UpsertFacts.

Module SoftDeleteFacts.

Lemma soft_delete_product_run env n merchant w :
  soft_delete_product env n merchant w
  = match find (for_tenant n merchant) (products (session w)) with
    | Some _ => (soft_deleted env n merchant w, Ok true)
    | None => (w, Ok false)
    end.
Proof.
  unfold soft_delete_product, bind, query_products_first, gets.
  destruct (find (for_tenant n merchant) (products (session w)));
    reflexivity.
Qed.

Lemma for_tenant_has_wc_id n merchant r :
  for_tenant n merchant r = true -> has_wc_id n r = true.
Proof. unfold for_tenant. intros H. apply andb_true_iff in H. tauto. Qed.

End SoftDeleteFacts.

Module UpsertClaims.
Import UpsertFacts SoftDeleteFacts.

Lemma row_matches_apply env store product_data generate t r :
  row_matches env product_data
    (apply_update_set (set_ (upsert_statement env store product_data generate)) t r).
Proof. repeat split. Qed.

Lemma row_matches_inserted env store product_data generate key n t :
  row_matches env product_data
    (inserted_row (upsert_statement env store product_data generate) key n t).
Proof. repeat split. Qed.

(** What one upsert with an integer key leaves, from any state. *)
Lemma upsert_product_result env store product_data generate n w :
  dict_get product_data "id" = JInt n ->
  exists r,
    upsert_product env store product_data generate w
    = (upserted env store product_data generate n w, Ok (Some r))
    /\ find (has_wc_id n)
         (products (committed (upserted env store product_data generate n w)))
       = Some r
    /\ Product.wc_product_id r = n
    /\ row_matches env product_data r
    /\ Product.is_deleted r = 0
    /\ Product.deleted_at r = None
    /\ Product.synced_at r = clock env (ticks w)
    /\ (forall r0, find (has_wc_id n) (products (session w)) = Some r0 ->
        r = apply_update_set
              (set_ (upsert_statement env store product_data generate))
              (clock env (ticks w)) r0).
Proof.
  intros Hid. rewrite (upsert_product_run _ _ _ _ n) by exact Hid.
  cbn [upserted committed session with_products products].
  rewrite find_upsert_rows.
  eexists. split; [reflexivity|]. split; [reflexivity|].
  destruct (find (has_wc_id n) (products (session w))) as [r0|] eqn:E.
  - apply find_some in E as [_ E]. apply Z.eqb_eq in E.
    split; [exact E|].
    split; [apply row_matches_apply|].
    repeat split. intros r1 [= <-]. reflexivity.
  - split; [reflexivity|].
    split; [apply row_matches_inserted|].
    repeat split. intros r1 [=].
Qed.

(** C1. On a conflict [upsert_product] overwrites the columns that come
    from the payload and the raw payload, sets [is_deleted] to 0 and
    [deleted_at] to [None], and sets [synced_at] to the time of the call;
    the row it returns is the committed row of that remote ID.  Hence
    upserting V1 and then V2 for one remote ID, with or without a soft
    delete in between, leaves the row matching V2 with the flag cleared;
    and an upsert that returns never leaves its product marked deleted. *)
Theorem upsert_product_converges (env : Env) :
  (forall store product_data generate n w r0,
      dict_get product_data "id" = JInt n ->
      find (has_wc_id n) (products (session w)) = Some r0 ->
      let w' := upserted env store product_data generate n w in
      let r := apply_update_set
                 (set_ (upsert_statement env store product_data generate))
                 (clock env (ticks w)) r0 in
      upsert_product env store product_data generate w = (w', Ok (Some r))
      /\ find (has_wc_id n) (products (committed w')) = Some r
      /\ row_matches env product_data r
      /\ Product.is_deleted r = 0
      /\ Product.deleted_at r = None
      /\ Product.synced_at r = clock env (ticks w))
  /\ (forall store1 store2 V1 V2 g1 g2 n merchant (soft : bool) w,
      dict_get V1 "id" = JInt n ->
      dict_get V2 "id" = JInt n ->
      let w1 := fst (upsert_product env store1 V1 g1 w) in
      let w2 := if soft then fst (soft_delete_product env n merchant w1)
                else w1 in
      exists w3 r,
        upsert_product env store2 V2 g2 w2 = (w3, Ok (Some r))
        /\ find (has_wc_id n) (products (committed w3)) = Some r
        /\ row_matches env V2 r
        /\ Product.is_deleted r = 0
        /\ Product.deleted_at r = None)
  /\ (forall store product_data generate w w' res,
      upsert_product env store product_data generate w = (w', Ok res) ->
      exists n r,
        dict_get product_data "id" = JInt n
        /\ res = Some r
        /\ find (has_wc_id n) (products (committed w')) = Some r
        /\ Product.is_deleted r = 0
        /\ Product.deleted_at r = None).
Proof.
  split; [|split].
  - intros store pd g n w r0 Hid Hfind w' r.
    destruct (upsert_product_result env store pd g n w Hid)
      as (r' & Hrun & Hc & _ & Hm & Hd & Hda & Hs & Hr0).
    rewrite (Hr0 r0 Hfind) in *. subst w' r. repeat split; try assumption;
      try apply Hm.
  - intros store1 store2 V1 V2 g1 g2 n merchant soft w H1 H2 w1 w2.
    destruct (upsert_product_result env store2 V2 g2 n w2 H2)
      as (r & Hrun & Hc & _ & Hm & Hd & Hda & _).
    exists (upserted env store2 V2 g2 n w2), r. repeat split; try assumption;
      try apply Hm.
  - intros store pd g w w' res Hrun.
    destruct (dict_get pd "id") as [| |n| | |] eqn:Hid;
      try (destruct (upsert_product_refused env store pd g w) as [e He];
           [intros m; congruence | rewrite He in Hrun; discriminate]).
    destruct (upsert_product_result env store pd g n w Hid)
      as (r & Hrun' & Hc & _ & _ & Hd & Hda & _).
    rewrite Hrun' in Hrun. injection Hrun as <- <-.
    exists n, r. repeat split; assumption.
Qed.

(** C10. On a conflict the row keeps its [store_id], [merchant_id],
    [wc_created_at] and [created_at] (and its primary key): the update set
    leaves them out.  The store on whose behalf the upsert runs plays no
    part: the conflict is on the remote product ID alone, so an upsert
    for another store is not rejected and overwrites the payload columns
    of the row of the store that owns it, without adding a row. *)
Theorem upsert_conflict_keeps_ownership
    env store product_data generate n w r0 :
  dict_get product_data "id" = JInt n ->
  find (has_wc_id n) (products (session w)) = Some r0 ->
  exists w' r,
    upsert_product env store product_data generate w = (w', Ok (Some r))
    /\ find (has_wc_id n) (products (committed w')) = Some r
    /\ Product.store_id r = Product.store_id r0
    /\ Product.merchant_id r = Product.merchant_id r0
    /\ Product.wc_created_at r = Product.wc_created_at r0
    /\ Product.created_at r = Product.created_at r0
    /\ Product.id r = Product.id r0
    /\ row_matches env product_data r
    /\ List.length (products (committed w'))
       = List.length (products (session w)).
Proof.
  intros Hid Hfind.
  destruct (upsert_product_result env store product_data generate n w Hid)
    as (r & Hrun & Hc & _ & Hm & _ & _ & _ & Hr0).
  exists (upserted env store product_data generate n w), r.
  rewrite (Hr0 r0 Hfind) in *.
  repeat split; try assumption; try apply Hm.
  cbn [upserted committed with_products products].
  rewrite length_upsert_rows, Hfind. reflexivity.
Qed.

Lemma embedding_entry_no_vector env product_data generate :
  (embedding_attempt env product_data = Ok None
   \/ exists e, embedding_attempt env product_data = Raise e) ->
  embedding_truthy (embedding_entry env product_data generate) = None
  /\ match embedding_entry env product_data generate with
     | Some e => e
     | None => None
     end = None.
Proof.
  unfold embedding_entry. intros [H|[e H]]; rewrite H;
    destruct (generate && ENABLE_EMBEDDINGS (settings env)); split; reflexivity.
Qed.

Lemma upsert_rows_ext stmt1 stmt2 key n t rows :
  set_ stmt1 = set_ stmt2 ->
  inserted_row stmt1 key n t = inserted_row stmt2 key n t ->
  upsert_rows stmt1 key n t rows = upsert_rows stmt2 key n t rows.
Proof. unfold upsert_rows. intros -> ->. reflexivity. Qed.

(** When the embedding step gives no vector, asking for an embedding
    changes nothing. *)
Lemma upsert_rows_no_vector env store product_data key n t rows :
  (embedding_attempt env product_data = Ok None
   \/ exists e, embedding_attempt env product_data = Raise e) ->
  upsert_rows (upsert_statement env store product_data true) key n t rows
  = upsert_rows (upsert_statement env store product_data false) key n t rows.
Proof.
  intros H.
  destruct (embedding_entry_no_vector env product_data true H) as [Ht Hi].
  apply upsert_rows_ext.
  - unfold upsert_statement. cbn [set_]. rewrite Ht. reflexivity.
  - unfold inserted_row, upsert_statement. cbn [v_embedding v_parsed
      v_store_id v_merchant_id]. rewrite Hi. reflexivity.
Qed.

(** C8. If the embedding step raises or yields no vector, the upsert
    runs exactly as one that was not asked for an embedding: nothing is
    propagated, and with an integer key it returns the row.  On a conflict
    the row keeps the embedding it had; a new row has none.  The update
    set holds an embedding only when embeddings were asked for and
    enabled and this call computed a (non-empty) vector. *)
Theorem embedding_failure_is_swallowed env store product_data w :
  (embedding_attempt env product_data = Ok None
   \/ exists e, embedding_attempt env product_data = Raise e) ->
  upsert_product env store product_data true w
  = upsert_product env store product_data false w
  /\ (forall n, dict_get product_data "id" = JInt n ->
      exists w' r,
        upsert_product env store product_data true w = (w', Ok (Some r))
        /\ find (has_wc_id n) (products (committed w')) = Some r
        /\ Product.embedding r
           = match find (has_wc_id n) (products (session w)) with
             | Some r0 => Product.embedding r0
             | None => None
             end)
  /\ (forall generate v,
      u_embedding (set_ (upsert_statement env store product_data generate))
      = Some v
      <-> generate = true /\ ENABLE_EMBEDDINGS (settings env) = true
          /\ embedding_attempt env product_data = Ok (Some v) /\ v <> []).
Proof.
  intros H.
  destruct (embedding_entry_no_vector env product_data true H) as [Ht Hi].
  split; [|split].
  - destruct (dict_get product_data "id") as [| |n| | |] eqn:Hid;
      try (unfold upsert_product, execute, bind, of_res;
           cbn [upsert_statement v_parsed parse_woocommerce_product
                p_wc_product_id];
           rewrite Hid; reflexivity).
    rewrite !(upsert_product_run _ _ _ _ n) by exact Hid.
    unfold upserted, with_products.
    rewrite (upsert_rows_no_vector env store product_data _ _ _ _ H).
    reflexivity.
  - intros n Hid.
    destruct (upsert_product_result env store product_data true n w Hid)
      as (r & Hrun & Hc & _ & _ & _ & _ & _ & Hr0).
    exists (upserted env store product_data true n w), r.
    split; [exact Hrun|]. split; [exact Hc|].
    destruct (find (has_wc_id n) (products (session w))) as [r0|] eqn:E.
    + rewrite (Hr0 r0 eq_refl).
      unfold upsert_statement. cbn [set_ apply_update_set Product.embedding
        u_embedding]. rewrite Ht. reflexivity.
    + cbn [upserted committed with_products products] in Hc.
      rewrite find_upsert_rows, E in Hc. injection Hc as <-.
      unfold inserted_row, upsert_statement.
      cbn [Product.embedding v_embedding]. exact Hi.
  - intros generate v. unfold upsert_statement. cbn [set_ u_embedding].
    unfold embedding_entry.
    destruct generate; cbn [andb].
    + destruct (ENABLE_EMBEDDINGS (settings env)).
      * destruct (embedding_attempt env product_data) as [[[|x l]|]| |];
          cbn [embedding_truthy]; split; intros Hx;
          first
            [ discriminate Hx
            | destruct Hx as (_ & _ & Hx & Hv);
              first [ discriminate Hx
                    | injection Hx as <-; first [congruence | reflexivity] ]
            | injection Hx as <-; repeat split; discriminate ].
      * cbn [embedding_truthy]. split; [discriminate|].
        intros (_ & Hx & _). discriminate Hx.
    + cbn [embedding_truthy]. split; [discriminate|].
      intros (Hx & _). discriminate Hx.
Qed.

Lemma apply_update_set_twice u t1 t2 r :
  apply_update_set u t2 (apply_update_set u t1 r)
  = refreshed t2 (apply_update_set u t1 r).
Proof.
  unfold apply_update_set, refreshed. cbn.
  destruct (u_embedding u); reflexivity.
Qed.

Lemma apply_update_set_inserted env store product_data generate key n t1 t2 :
  let stmt := upsert_statement env store product_data generate in
  apply_update_set (set_ stmt) t2 (inserted_row stmt key n t1)
  = refreshed t2 (inserted_row stmt key n t1).
Proof.
  unfold apply_update_set, refreshed, inserted_row, upsert_statement. cbn.
  destruct (embedding_entry env product_data generate) as [[[|x v]|]|];
    reflexivity.
Qed.

Lemma unique_keys_upserted env store product_data generate w :
  unique_keys (products (session w)) ->
  unique_keys
    (products (session (fst (upsert_product env store product_data generate w)))).
Proof.
  intros Hu.
  destruct (dict_get product_data "id") as [| |n| | |] eqn:Hid;
    try (destruct (upsert_product_refused env store product_data generate w)
           as [e He]; [intros m; congruence | rewrite He; exact Hu]).
  rewrite (upsert_product_run _ _ _ _ n) by exact Hid.
  cbn [fst upserted session with_products products].
  apply unique_keys_upsert_rows, Hu.
Qed.

Lemma unique_keys_run_upserts env calls w :
  unique_keys (products (session w)) ->
  unique_keys (products (session (run_upserts env calls w))).
Proof.
  revert w. induction calls as [|[[store pd] g] calls IH]; intros w Hu;
    simpl; [exact Hu|].
  apply IH, unique_keys_upserted, Hu.
Qed.

(** C7, as the code has it.  A second upsert of the same payload for the
    same store leaves every column of the row as the first left it, except
    [synced_at] and [updated_at], which take the time of the second call;
    it adds no row.  Under the unique constraint the remote ID then has
    exactly one row, and the constraint holds after any sequence of
    upserts. *)
Theorem upsert_product_idempotent env store product_data generate n w :
  dict_get product_data "id" = JInt n ->
  unique_keys (products (session w)) ->
  let w1 := fst (upsert_product env store product_data generate w) in
  let w2 := fst (upsert_product env store product_data generate w1) in
  products (committed w2)
  = update_first (has_wc_id n) (refreshed (clock env (ticks w1)))
      (products (committed w1))
  /\ List.length (products (committed w2))
     = List.length (products (committed w1))
  /\ (exists r, List.filter (has_wc_id n) (products (committed w2)) = [r])
  /\ (forall calls,
      unique_keys (products (session (run_upserts env calls w)))).
Proof.
  intros Hid Hu w1 w2. subst w1 w2.
  rewrite !(upsert_product_run _ _ _ _ n) by exact Hid.
  cbn [fst].
  set (w1 := upserted env store product_data generate n w).
  assert (Hf1 : exists r1,
             find (has_wc_id n) (products (session w1)) = Some r1
             /\ apply_update_set
                  (set_ (upsert_statement env store product_data generate))
                  (clock env (ticks w1)) r1
                = refreshed (clock env (ticks w1)) r1).
  { subst w1. cbn [upserted session with_products products ticks].
    rewrite find_upsert_rows. eexists. split; [reflexivity|].
    destruct (find (has_wc_id n) (products (session w))).
    - apply apply_update_set_twice.
    - apply apply_update_set_inserted. }
  destruct Hf1 as (r1 & Hf1 & Hr1).
  assert (Hrows : products (committed (upserted env store product_data generate n w1))
                  = update_first (has_wc_id n) (refreshed (clock env (ticks w1)))
                      (products (committed w1))).
  { cbn [upserted committed with_products products].
    change (with_products
              (upsert_rows (upsert_statement env store product_data generate)
                 (product_id_seq w) n (clock env (ticks w))) (session w))
      with (session w1).
    unfold upsert_rows at 1. rewrite existsb_find, Hf1.
    apply update_first_ext. intros x Hx.
    assert (x = r1) as ->
      by (change (find (has_wc_id n) (products (session w1)) = Some x) in Hx;
          congruence).
    exact Hr1. }
  split; [exact Hrows|].
  split; [rewrite Hrows; apply length_update_first|].
  split.
  - eexists. apply filter_unique.
    + rewrite Hrows. unfold unique_keys.
      rewrite map_update_first by reflexivity.
      apply unique_keys_upsert_rows, Hu.
    + rewrite Hrows.
      rewrite find_update_first by (intros x Hx; exact Hx).
      change (products (committed w1)) with (products (session w1)).
      rewrite Hf1. reflexivity.
  - intros calls. apply unique_keys_run_upserts, Hu.
Qed.

End UpsertClaims.

(** ** Bulk sync *)
Module BulkSyncFacts.
Import UpsertFacts.

Lemma get_products_run env client page per_page status w :
  get_products env client page per_page status w
  = match http_get_products env client (products_params page per_page status) with
    | Ok reply => (w, Ok (data reply, default 0 (x_wp_total reply),
                          default 0 (x_wp_totalpages reply)))
    | Raise e => (w, Raise e)
    | OutOfFuel => (w, OutOfFuel)
    end.
Proof.
  unfold get_products, bind, of_res, ret.
  destruct (http_get_products env client (products_params page per_page status));
    reflexivity.
Qed.

Lemma upsert_product_returns env store product_data generate w :
  exists w' r, upsert_product env store product_data generate w = (w', r)
               /\ r <> OutOfFuel.
Proof.
  destruct (dict_get product_data "id") as [| |n| | |] eqn:Hid;
    try (destruct (upsert_product_refused env store product_data generate w)
           as [e He]; [intros m; congruence|];
         exists w, (Raise e); split; [exact He | discriminate]).
  rewrite (upsert_product_run _ _ _ _ n) by exact Hid.
  do 2 eexists. split; [reflexivity | discriminate].
Qed.

Lemma sync_one_ok env store product_data stats w :
  exists w' stats', sync_one env store product_data stats w = (w', Ok stats').
Proof.
  unfold sync_one, try_except, bind, query_products_first, gets.
  destruct (upsert_product_returns env store product_data
              (ENABLE_EMBEDDINGS (settings env)) w) as (w' & r & -> & Hr).
  destruct r as [x|e|]; [| |congruence].
  - do 2 eexists. reflexivity.
  - unfold rollback, modify, ret. do 2 eexists. reflexivity.
Qed.

Lemma sync_products_batch_ok env store products w :
  exists w' stats, sync_products_batch env store products w = (w', Ok stats).
Proof.
  unfold sync_products_batch. generalize batch_zero. revert w.
  induction products as [|pd rest IH]; intros w stats; simpl.
  - do 2 eexists. reflexivity.
  - unfold bind.
    destruct (sync_one_ok env store pd stats w) as (w1 & s1 & ->).
    apply IH.
Qed.

Section Pages.
Variables (env : Env) (store : WooCommerceStore.t).
Let client := client_for env store.
Let per_page := WC_PRODUCTS_PER_PAGE (settings env).

(** One turn of the loop on a page after which it goes on. *)
Lemma fetch_pages_goes_on fuel (j : nat) w s :
  bulk_continues env store j ->
  exists w1 s1,
    fetch_pages env (S fuel) store client (Z.of_nat j) per_page (w, s)
    = fetch_pages env fuel store client (Z.of_nat (S j)) per_page (w1, s1)
    /\ st_status s1 = st_status s /\ error s1 = error s
    /\ pages_fetched s1 = pages_fetched s + 1.
Proof.
  intros (reply & Hreply & Hne & Hlen & Hpage).
  unfold bulk_reply in Hreply. fold client per_page in Hreply.
  cbn [fetch_pages]. unfold bind at 1. unfold lift at 1.
  rewrite get_products_run, Hreply.
  destruct (data reply) as [|p1 items] eqn:Hdata; [congruence|].
  fold per_page in Hlen.
  unfold bind at 1.
  set (first := if Z.of_nat j =? 1 then _ else _).
  assert (Hfirst : exists s0, first (w, s) = ((w, s0), Ok tt)
                     /\ st_status s0 = st_status s /\ error s0 = error s
                     /\ pages_fetched s0 = pages_fetched s).
  { subst first. destruct (Z.of_nat j =? 1).
    - eexists. split; [reflexivity|]. repeat split.
    - eexists. split; [reflexivity|]. repeat split. }
  destruct Hfirst as (s0 & -> & Hst & Herr & Hpf).
  unfold bind at 1. unfold lift at 1.
  destruct (sync_products_batch_ok env store (p1 :: items) w) as (w1 & b & ->).
  unfold bind at 1. unfold set_local at 1.
  assert (Hgo : (Z.of_nat j >=? default 0 (x_wp_totalpages reply))
                || (Z.of_nat (List.length (p1 :: items)) <? per_page) = false).
  { apply orb_false_iff. split.
    - rewrite Z.geb_leb. apply Z.leb_gt. exact Hpage.
    - apply Z.ltb_ge. exact Hlen. }
  rewrite Hgo.
  exists w1, (accumulate b s0).
  replace (Z.of_nat j + 1) with (Z.of_nat (S j)) by lia.
  split; [reflexivity|]. cbn. repeat split; try congruence; try lia.
Qed.

(** The turn on a last page. *)
Lemma fetch_pages_last fuel (j : nat) last w s :
  bulk_reply env store (Z.of_nat j) = Ok last ->
  bulk_last_page env (Z.of_nat j) last ->
  exists w1 s1,
    fetch_pages env (S fuel) store client (Z.of_nat j) per_page (w, s)
    = ((w1, s1), Ok tt)
    /\ st_status s1 = st_status s /\ error s1 = error s
    /\ pages_fetched s1
       = pages_fetched s + match data last with [] => 0 | _ => 1 end.
Proof.
  intros Hreply Hlast.
  unfold bulk_reply in Hreply. fold client per_page in Hreply.
  cbn [fetch_pages]. unfold bind at 1. unfold lift at 1.
  rewrite get_products_run, Hreply.
  destruct (data last) as [|p1 items] eqn:Hdata.
  { exists w, s. split; [reflexivity|]. repeat split. lia. }
  unfold bind at 1.
  set (first := if Z.of_nat j =? 1 then _ else _).
  assert (Hfirst : exists s0, first (w, s) = ((w, s0), Ok tt)
                     /\ st_status s0 = st_status s /\ error s0 = error s
                     /\ pages_fetched s0 = pages_fetched s).
  { subst first. destruct (Z.of_nat j =? 1).
    - eexists. split; [reflexivity|]. repeat split.
    - eexists. split; [reflexivity|]. repeat split. }
  destruct Hfirst as (s0 & -> & Hst & Herr & Hpf).
  unfold bind at 1. unfold lift at 1.
  destruct (sync_products_batch_ok env store (p1 :: items) w) as (w1 & b & ->).
  unfold bind at 1. unfold set_local at 1.
  assert (Hstop : (Z.of_nat j >=? default 0 (x_wp_totalpages last))
                  || (Z.of_nat (List.length (p1 :: items)) <? per_page) = true).
  { unfold bulk_last_page in Hlast. rewrite Hdata in Hlast.
    apply orb_true_iff. destruct Hlast as [Hl|[Hl|Hl]].
    - discriminate Hl.
    - right. apply Z.ltb_lt. exact Hl.
    - left. rewrite Z.geb_leb. apply Z.leb_le. exact Hl. }
  rewrite Hstop.
  exists w1, (accumulate b s0). split; [reflexivity|].
  cbn. repeat split; try congruence; try lia.
Qed.

Lemma fetch_pages_stops (d : nat) :
  forall (p fuel : nat) last w s,
    (d < fuel)%nat ->
    (forall j, (p <= j < p + d)%nat -> bulk_continues env store j) ->
    bulk_reply env store (Z.of_nat (p + d)) = Ok last ->
    bulk_last_page env (Z.of_nat (p + d)) last ->
    exists w1 s1,
      fetch_pages env fuel store client (Z.of_nat p) per_page (w, s)
      = ((w1, s1), Ok tt)
      /\ st_status s1 = st_status s /\ error s1 = error s
      /\ pages_fetched s1
         = pages_fetched s + Z.of_nat d
           + match data last with [] => 0 | _ => 1 end.
Proof.
  induction d as [|d IH]; intros p fuel last w s Hfuel Hcont Hreply Hlast.
  - destruct fuel as [|fuel]; [lia|].
    rewrite Nat.add_0_r in Hreply, Hlast.
    destruct (fetch_pages_last fuel p last w s Hreply Hlast)
      as (w1 & s1 & Hrun & Hst & Herr & Hpf).
    exists w1, s1. repeat split; try assumption. lia.
  - destruct fuel as [|fuel]; [lia|].
    destruct (fetch_pages_goes_on fuel p w s) as (w0 & s0 & -> & Hst & Herr & Hpf).
    { apply Hcont. lia. }
    destruct (IH (S p) fuel last w0 s0) as (w1 & s1 & Hrun & Hst1 & Herr1 & Hpf1).
    + lia.
    + intros j Hj. apply Hcont. lia.
    + replace (S p + d)%nat with (p + S d)%nat by lia. exact Hreply.
    + replace (S p + d)%nat with (p + S d)%nat by lia. exact Hlast.
    + exists w1, s1. split; [exact Hrun|].
      repeat split; try congruence; try lia.
Qed.

Lemma fetch_pages_needs_fuel (fuel : nat) :
  forall (p : nat) w s,
    (forall j, (p <= j < p + fuel)%nat -> bulk_continues env store j) ->
    snd (fetch_pages env fuel store client (Z.of_nat p) per_page (w, s))
    = OutOfFuel.
Proof.
  induction fuel as [|fuel IH]; intros p w s Hcont; [reflexivity|].
  destruct (fetch_pages_goes_on fuel p w s) as (w0 & s0 & -> & _).
  { apply Hcont. lia. }
  apply IH. intros j Hj. apply Hcont. lia.
Qed.

Lemma fetch_pages_raises (d : nat) :
  forall (p fuel : nat) e w s,
    (d < fuel)%nat ->
    (forall j, (p <= j < p + d)%nat -> bulk_continues env store j) ->
    bulk_reply env store (Z.of_nat (p + d)) = Raise e ->
    exists w1 s1,
      fetch_pages env fuel store client (Z.of_nat p) per_page (w, s)
      = ((w1, s1), Raise e)
      /\ pages_fetched s1 = pages_fetched s + Z.of_nat d.
Proof.
  induction d as [|d IH]; intros p fuel e w s Hfuel Hcont Hreply.
  - destruct fuel as [|fuel]; [lia|].
    rewrite Nat.add_0_r in Hreply.
    unfold bulk_reply in Hreply. fold client per_page in Hreply.
    cbn [fetch_pages]. unfold bind at 1. unfold lift at 1.
    rewrite get_products_run, Hreply.
    exists w, s. split; [reflexivity | lia].
  - destruct fuel as [|fuel]; [lia|].
    destruct (fetch_pages_goes_on fuel p w s) as (w0 & s0 & -> & _ & _ & Hpf).
    { apply Hcont. lia. }
    destruct (IH (S p) fuel e w0 s0) as (w1 & s1 & Hrun & Hpf1).
    + lia.
    + intros j Hj. apply Hcont. lia.
    + replace (S p + d)%nat with (p + S d)%nat by lia. exact Hreply.
    + exists w1, s1. split; [exact Hrun | lia].
Qed.

End Pages.

Lemma touch_last_synced_ok env store w :
  exists w', touch_last_synced env store w = (w', Ok tt).
Proof. eexists. reflexivity. Qed.

(** C5. The bulk sync asks for page 1 first and then for one page after
    the other.  After a page it goes on to the next exactly when the page
    had items, had at least as many items as the page size asked for, and
    the page number is below the reported number of pages; so it does not
    end while pages of that kind keep coming, and it ends with the first
    page [k] that has no items, or fewer items than the page size, or a
    number not below the reported number of pages, having used exactly [k]
    turns of the loop.  [pages_fetched] then counts the pages that had
    items: [k], or [k - 1] when page [k] was empty.  A request that
    raises ends the sync as failed, with the pages before it counted. *)
Theorem bulk_sync_pagination env store w :
  (forall fuel,
      (forall j, (1 <= j <= fuel)%nat -> bulk_continues env store j) ->
      snd (fetch_all_products_from_woocommerce env fuel store w) = OutOfFuel)
  /\ (forall (k fuel : nat) last,
      (1 <= k <= fuel)%nat ->
      (forall j, (1 <= j < k)%nat -> bulk_continues env store j) ->
      bulk_reply env store (Z.of_nat k) = Ok last ->
      bulk_last_page env (Z.of_nat k) last ->
      exists w' stats,
        fetch_all_products_from_woocommerce env fuel store w = (w', Ok stats)
        /\ st_status stats = "completed"
        /\ error stats = None
        /\ pages_fetched stats
           = match data last with
             | [] => Z.of_nat k - 1
             | _ => Z.of_nat k
             end)
  /\ (forall (k fuel : nat) e,
      (1 <= k <= fuel)%nat ->
      (forall j, (1 <= j < k)%nat -> bulk_continues env store j) ->
      bulk_reply env store (Z.of_nat k) = Raise e ->
      exists w' stats,
        fetch_all_products_from_woocommerce env fuel store w = (w', Ok stats)
        /\ st_status stats = "failed"
        /\ error stats = Some (str_exn e)
        /\ pages_fetched stats = Z.of_nat k - 1).
Proof.
  split; [|split].
  - intros fuel Hcont.
    unfold fetch_all_products_from_woocommerce, with_locals, try_except.
    unfold bind at 1.
    pose proof (fetch_pages_needs_fuel env store fuel 1 w stats_zero) as H.
    change (Z.of_nat 1) with 1 in H.
    destruct (fetch_pages env fuel store (client_for env store) 1
                (WC_PRODUCTS_PER_PAGE (settings env)) (w, stats_zero))
      as [[w1 s1] r].
    cbn [snd] in H. rewrite H; [reflexivity|].
    intros j Hj. apply Hcont. lia.
  - intros k fuel last Hk Hcont Hreply Hlast.
    destruct (fetch_pages_stops env store (k - 1) 1 fuel last w stats_zero)
      as (w1 & s1 & Hrun & Hst & Herr & Hpf).
    + lia.
    + intros j Hj. apply Hcont. lia.
    + replace (1 + (k - 1))%nat with k by lia. exact Hreply.
    + replace (1 + (k - 1))%nat with k by lia. exact Hlast.
    + change (Z.of_nat 1) with 1 in Hrun.
      unfold fetch_all_products_from_woocommerce, with_locals, try_except.
      unfold bind at 1. rewrite Hrun.
      unfold lift. destruct (touch_last_synced_ok env store w1) as (w2 & ->).
      exists w2, s1. split; [reflexivity|].
      split; [exact Hst|]. split; [exact Herr|].
      rewrite Hpf. cbn [pages_fetched stats_zero].
      destruct (data last); lia.
  - intros k fuel e Hk Hcont Hreply.
    destruct (fetch_pages_raises env store (k - 1) 1 fuel e w stats_zero)
      as (w1 & s1 & Hrun & Hpf).
    + lia.
    + intros j Hj. apply Hcont. lia.
    + replace (1 + (k - 1))%nat with k by lia. exact Hreply.
    + change (Z.of_nat 1) with 1 in Hrun.
      unfold fetch_all_products_from_woocommerce, with_locals, try_except.
      unfold bind at 1. rewrite Hrun.
      unfold set_local.
      exists w1, (set_failed e s1). split; [reflexivity|].
      cbn. repeat split. rewrite Hpf. cbn. lia.
Qed.

End BulkSyncFacts.

(** ** Reconciliation *)
Module ReconcileFacts.
Import UpsertFacts SoftDeleteFacts BulkSyncFacts.

Lemma dict_get_subscript (d : Dict) k v :
  d !! k = Some v -> dict_get d k = v.
Proof. unfold dict_get. intros ->. reflexivity. Qed.

(** An upsert either is refused and leaves the world alone, or runs. *)
Lemma upsert_product_cases env store product_data generate w :
  (exists e, upsert_product env store product_data generate w = (w, Raise e))
  \/ (exists n r,
        dict_get product_data "id" = JInt n
        /\ upsert_product env store product_data generate w
           = (upserted env store product_data generate n w, Ok r)).
Proof.
  destruct (dict_get product_data "id") as [| |n| | |] eqn:Hid;
    try (left; apply upsert_product_refused; intros m; congruence).
  right. exists n. eexists. split; [reflexivity|].
  apply upsert_product_run, Hid.
Qed.

(** The body of the walk on a product with an integer key. *)
Lemma reconcile_one_run env store product n w l :
  product !! "id" = Some (JInt n) ->
  reconcile_one env store product (w, l)
  = let l1 := on_result inc_checked (add_id (JInt n) l) in
    let w' := fst (upsert_product env store product false w) in
    match find (for_tenant n (WooCommerceStore.merchant_id store))
            (products (session w)) with
    | None => ((w', on_result inc_added l1), Ok tt)
    | Some row =>
        if negb (Product.is_deleted row =? 0)
        then ((w', on_result inc_updated l1), Ok tt)
        else ((w, l1), Ok tt)
    end.
Proof.
  intros Hid. pose proof (dict_get_subscript _ _ _ Hid) as Hget.
  unfold reconcile_one, subscript. rewrite Hid.
  unfold bind, of_res, set_local, lift, query_products_first, gets, ret.
  cbn [check_hashable]. cbv beta iota zeta.
  change (for_merchant (JInt n) (WooCommerceStore.merchant_id store))
    with (for_tenant n (WooCommerceStore.merchant_id store)).
  destruct (find (for_tenant n (WooCommerceStore.merchant_id store))
              (products (session w))) as [row|];
    [destruct (negb (Product.is_deleted row =? 0))|];
    cbv beta iota zeta;
    rewrite ?(upsert_product_run _ _ _ _ n) by exact Hget;
    reflexivity.
Qed.

(** What the body may do to the state, whatever the product. *)
Lemma reconcile_one_cases env store product w l :
  exists w' l' r,
    reconcile_one env store product (w, l) = ((w', l'), r)
    /\ r <> OutOfFuel
    /\ (w' = w \/ exists n, w' = upserted env store product false n w)
    /\ errors (result l') = errors (result l)
    /\ status (result l') = status (result l)
    /\ products_deleted (result l') = products_deleted (result l).
Proof.
  unfold reconcile_one, subscript.
  destruct (product !! "id") as [pid|] eqn:Hid.
  2:{ exists w, l, (Raise (KeyError "id")).
      repeat split; try discriminate. left; reflexivity. }
  unfold bind at 1. unfold of_res at 1.
  unfold bind at 1. unfold of_res at 1.
  destruct (check_hashable pid) as [[]|e|] eqn:Hh.
  3:{ destruct pid; discriminate. }
  2:{ exists w, l, (Raise e). repeat split; try discriminate.
      left; reflexivity. }
  unfold bind, set_local, lift, query_products_first, gets, ret.
  destruct (find (for_merchant pid (WooCommerceStore.merchant_id store))
              (products (session w))) as [row|].
  - destruct (negb (Product.is_deleted row =? 0)).
    + destruct (upsert_product_cases env store product false w)
        as [(e & ->)|(n & r & _ & ->)].
      * do 3 eexists. split; [reflexivity|].
        repeat split; try discriminate. left; reflexivity.
      * do 3 eexists. split; [reflexivity|].
        repeat split; try discriminate. right. exists n. reflexivity.
    + do 3 eexists. split; [reflexivity|].
      repeat split; try discriminate. left; reflexivity.
  - destruct (upsert_product_cases env store product false w)
      as [(e & ->)|(n & r & _ & ->)].
    + do 3 eexists. split; [reflexivity|].
      repeat split; try discriminate. left; reflexivity.
    + do 3 eexists. split; [reflexivity|].
      repeat split; try discriminate. right. exists n. reflexivity.
Qed.

Lemma clean_upserted env store product generate n w :
  clean (upserted env store product generate n w).
Proof. reflexivity. Qed.

Lemma clean_soft_deleted env n merchant w :
  clean (soft_deleted env n merchant w).
Proof. reflexivity. Qed.

Lemma keeps_reconcile_one env store product :
  keeps (reconcile_one env store product).
Proof.
  intros w l w' l' r Hrun Hclean.
  destruct (reconcile_one_cases env store product w l)
    as (w1 & l1 & r1 & Hrun1 & _ & Hw & He & Hs & _).
  rewrite Hrun1 in Hrun. injection Hrun as <- <- <-.
  split; [|split; assumption].
  destruct Hw as [->|[n ->]]; [exact Hclean | apply clean_upserted].
Qed.

Lemma keeps_bind (m k : M (World * ReconLocals) unit) :
  keeps m -> keeps k -> keeps (bind m (fun _ => k)).
Proof.
  intros Hm Hk w l w' l' r Hrun Hclean. unfold bind in Hrun.
  destruct (m (w, l)) as [[w1 l1] [[]|e|]] eqn:E.
  - destruct (Hm _ _ _ _ _ E Hclean) as (Hc & He & Hs).
    destruct (Hk _ _ _ _ _ Hrun Hc) as (Hc' & He' & Hs').
    repeat split; congruence.
  - injection Hrun as <- <- <-. exact (Hm _ _ _ _ _ E Hclean).
  - injection Hrun as <- <- <-. exact (Hm _ _ _ _ _ E Hclean).
Qed.

Lemma keeps_ret : keeps (ret tt).
Proof.
  intros w l w' l' r [= <- <- <-] Hclean. repeat split. exact Hclean.
Qed.

Lemma keeps_reconcile_each env store products :
  keeps (reconcile_each env store products).
Proof.
  induction products as [|p rest IH]; cbn [reconcile_each].
  - apply keeps_ret.
  - apply keeps_bind; [apply keeps_reconcile_one | exact IH].
Qed.

Lemma keeps_reconcile_pages env fuel store client :
  forall page, keeps (reconcile_pages env fuel store client page).
Proof.
  induction fuel as [|fuel IH]; intros page; cbn [reconcile_pages].
  - intros w l w' l' r [= <- <- <-] Hclean. repeat split. exact Hclean.
  - intros w l w' l' r Hrun Hclean.
    unfold bind at 1 in Hrun. unfold lift at 1 in Hrun.
    rewrite get_products_run in Hrun.
    destruct (http_get_products env client (products_params page 100 "any"))
      as [reply|e|].
    2,3: injection Hrun as <- <- <-; repeat split; exact Hclean.
    destruct (data reply) as [|p1 items].
    { injection Hrun as <- <- <-. repeat split. exact Hclean. }
    revert Hrun Hclean. revert w l w' l' r.
    change (keeps (bind (reconcile_each env store (p1 :: items))
                     (fun _ => if page >=? default 0 (x_wp_totalpages reply)
                               then ret tt
                               else reconcile_pages env fuel store client (page + 1)))).
    apply keeps_bind; [apply keeps_reconcile_each|].
    destruct (page >=? default 0 (x_wp_totalpages reply));
      [apply keeps_ret | apply IH].
Qed.

Lemma keeps_delete_absent env store local_products :
  keeps (delete_absent env store local_products).
Proof.
  induction local_products as [|p rest IH]; cbn [delete_absent].
  - apply keeps_ret.
  - intros w l w' l' r Hrun Hclean.
    unfold bind at 1 in Hrun. unfold local at 1 in Hrun.
    revert Hrun Hclean. revert w l w' l' r.
    intros w l. revert w.
    set (ids := wc_product_ids l).
    intros w w' l' r.
    change (bind
              (if negb (observed (Product.wc_product_id p) ids)
               then bind (lift (soft_delete_product env (Product.wc_product_id p)
                                  (WooCommerceStore.merchant_id store)))
                      (fun _ => set_local (on_result inc_deleted))
               else ret tt)
              (fun _ => delete_absent env store rest) (w, l) = (w', l', r)
            -> clean w ->
            clean w' /\ errors (result l') = errors (result l)
            /\ status (result l') = status (result l)).
    apply keeps_bind; [|exact IH].
    destruct (negb (observed (Product.wc_product_id p) ids));
      [|apply keeps_ret].
    intros w0 l0 w1 l1 r1 Hrun Hclean.
    unfold bind, lift, set_local in Hrun.
    rewrite soft_delete_product_run in Hrun.
    destruct (find _ _); injection Hrun as <- <- <-; repeat split;
      try exact Hclean.
Qed.

Lemma keeps_reconcile_body env fuel store client :
  keeps (reconcile_body env fuel store client).
Proof.
  unfold reconcile_body.
  intros w l w' l' r Hrun Hclean. unfold bind at 1 in Hrun.
  destruct (reconcile_pages env fuel store client 1 (w, l))
    as [[w1 l1] r1] eqn:E.
  destruct (keeps_reconcile_pages env fuel store client 1 _ _ _ _ _ E Hclean)
    as (Hc & He & Hs).
  destruct r1 as [[]|e|].
  2,3: injection Hrun as <- <- <-; repeat split; assumption.
  unfold bind at 1 in Hrun. unfold lift, query_products_all, gets in Hrun.
  destruct (keeps_delete_absent env store _ _ _ _ _ _ Hrun Hc) as (Hc' & He' & Hs').
  repeat split; congruence.
Qed.

Lemma reconcile_one_raise env store product w l w' l' e :
  reconcile_one env store product (w, l) = ((w', l'), Raise e) -> w' = w.
Proof.
  unfold reconcile_one, subscript.
  destruct (product !! "id") as [pid|]; [|intros [= <- <- <-]; reflexivity].
  unfold bind at 1. unfold of_res at 1.
  unfold bind at 1. unfold of_res at 1.
  destruct (check_hashable pid) as [[]|e0|];
    [| intros [= <- <- <-]; reflexivity | intros [=] ].
  unfold bind, set_local, lift, query_products_first, gets, ret.
  destruct (find (for_merchant pid (WooCommerceStore.merchant_id store))
              (products (session w))) as [row|];
    [destruct (negb (Product.is_deleted row =? 0))|];
    try (intros [=]; fail);
    (destruct (upsert_product_cases env store product false w)
       as [(e1 & ->)|(n & r & _ & ->)];
     [intros [= <- <- <-]; reflexivity | intros [=]]).
Qed.

Lemma reconcile_each_app env store a b s :
  reconcile_each env store (a ++ b) s
  = bind (reconcile_each env store a) (fun _ => reconcile_each env store b) s.
Proof.
  revert s. induction a as [|p a IH]; intros s; cbn [reconcile_each app].
  - reflexivity.
  - unfold bind.
    destruct (reconcile_one env store p s) as [s1 [[]|e|]]; [|reflexivity..].
    rewrite IH. reflexivity.
Qed.

Lemma bind_ret_tt {S} (m : M S unit) (s : S) :
  bind m (fun _ => ret tt) s = m s.
Proof.
  unfold bind, ret. destruct (m s) as [s1 [[]|e|]]; reflexivity.
Qed.

Lemma bind_ext {S A B} (m : M S A) (f g : A -> M S B) (s : S) :
  (forall a s', f a s' = g a s') -> bind m f s = bind m g s.
Proof.
  intros H. unfold bind. destruct (m s) as [s1 [a|e|]]; [apply H|reflexivity..].
Qed.

Section Walk.
Variables (env : Env) (store : WooCommerceStore.t).
Let client := client_for env store.

(** The paginated walk treats the items of the pages it meets one after
    the other. *)
Lemma reconcile_pages_walk (d : nat) :
  forall (p fuel : nat) s,
    (d < fuel)%nat ->
    (forall j, (p <= j < p + d)%nat -> walk_continues env store j) ->
    walk_ends env store (p + d) ->
    reconcile_pages env fuel store client (Z.of_nat p) s
    = reconcile_each env store
        (flat_map (page_items env store) (seq p (S d))) s.
Proof.
  induction d as [|d IH]; intros p fuel [w l] Hfuel Hcont Hend.
  - destruct fuel as [|fuel]; [lia|].
    rewrite Nat.add_0_r in Hend. destruct Hend as (reply & Hreply & Hlast).
    cbn [seq flat_map]. rewrite app_nil_r.
    unfold page_items. rewrite Hreply.
    unfold page_reply in Hreply. fold client in Hreply.
    cbn [reconcile_pages]. unfold bind at 1. unfold lift at 1.
    rewrite get_products_run, Hreply.
    destruct (data reply) as [|p1 items] eqn:Hdata; [reflexivity|].
    destruct Hlast as [Hl|Hl]; [discriminate Hl|].
    replace (Z.of_nat p >=? default 0 (x_wp_totalpages reply)) with true
      by (symmetry; rewrite Z.geb_leb; apply Z.leb_le; exact Hl).
    apply bind_ret_tt.
  - destruct fuel as [|fuel]; [lia|].
    destruct (Hcont p) as (reply & Hreply & Hne & Hpage); [lia|].
    change (seq p (S (S d))) with (p :: seq (S p) (S d)).
    cbn [flat_map]. rewrite reconcile_each_app.
    unfold page_items at 1. rewrite Hreply.
    unfold page_reply in Hreply. fold client in Hreply.
    cbn [reconcile_pages]. unfold bind at 1. unfold lift at 1.
    rewrite get_products_run, Hreply.
    destruct (data reply) as [|p1 items] eqn:Hdata; [congruence|].
    replace (Z.of_nat p >=? default 0 (x_wp_totalpages reply)) with false
      by (symmetry; rewrite Z.geb_leb; apply Z.leb_gt; exact Hpage).
    apply bind_ext. intros _ s'.
    replace (Z.of_nat p + 1) with (Z.of_nat (S p)) by lia.
    apply IH.
    + lia.
    + intros j Hj. apply Hcont. lia.
    + replace (S p + d)%nat with (p + S d)%nat by lia. exact Hend.
Qed.

Lemma observed_cons n m ids :
  observed n (JInt m :: ids) = (m =? n) || observed n ids.
Proof. reflexivity. Qed.

(** The walk over products with integer keys: it completes, keeps the
    unique constraint, counts each product and remembers its key. *)
Lemma reconcile_each_ok (remote : list Dict) :
  forall w l,
    Forall integer_id remote ->
    unique_keys (products (session w)) ->
    exists w1 l1,
      reconcile_each env store remote (w, l) = ((w1, l1), Ok tt)
      /\ unique_keys (products (session w1))
      /\ products_checked (result l1)
         = products_checked (result l) + Z.of_nat (List.length remote)
      /\ products_deleted (result l1) = products_deleted (result l)
      /\ (forall n, observed n (wc_product_ids l1)
                    = existsb (has_id n) remote || observed n (wc_product_ids l)).
Proof.
  induction remote as [|p rest IH]; intros w l Hids Hu.
  - exists w, l. split; [reflexivity|]. repeat split; try assumption.
    cbn. lia.
  - apply Forall_cons in Hids as [[n Hid] Hids].
    cbn [reconcile_each]. unfold bind at 1.
    rewrite (reconcile_one_run env store p n w l Hid).
    cbv zeta.
    set (l0 := on_result inc_checked (add_id (JInt n) l)).
    assert (Hstep : exists w0 l0',
               match find (for_tenant n (WooCommerceStore.merchant_id store))
                       (products (session w)) with
               | Some row =>
                   if negb (Product.is_deleted row =? 0)
                   then ((fst (upsert_product env store p false w),
                          on_result inc_updated l0), Ok tt)
                   else ((w, l0), Ok tt)
               | None => ((fst (upsert_product env store p false w),
                           on_result inc_added l0), Ok tt)
               end = ((w0, l0'), Ok tt)
               /\ unique_keys (products (session w0))
               /\ products_checked (result l0') = products_checked (result l) + 1
               /\ products_deleted (result l0') = products_deleted (result l)
               /\ wc_product_ids l0' = JInt n :: wc_product_ids l).
    { pose proof (UpsertClaims.unique_keys_upserted env store p false w Hu) as Hu'.
      destruct (find _ _) as [row|];
        [destruct (negb (Product.is_deleted row =? 0))|];
        do 2 eexists; (split; [reflexivity|]); repeat split; assumption. }
    destruct Hstep as (w0 & l0' & -> & Hu0 & Hc0 & Hd0 & Hi0).
    destruct (IH w0 l0' Hids Hu0) as (w1 & l1 & Hrun & Hu1 & Hc1 & Hd1 & Hi1).
    exists w1, l1. split; [exact Hrun|].
    split; [exact Hu1|].
    split; [rewrite Hc1, Hc0; cbn [List.length]; lia|].
    split; [congruence|].
    intros m. rewrite Hi1, Hi0, observed_cons. cbn [existsb].
    unfold has_id at 2. rewrite Hid.
    destruct (n =? m), (existsb (has_id m) rest); reflexivity.
Qed.

End Walk.

(** *** The delete pass *)

Lemma unique_key_eq rows a b :
  unique_keys rows -> In a rows -> In b rows ->
  Product.wc_product_id a = Product.wc_product_id b -> a = b.
Proof.
  unfold unique_keys. induction rows as [|x rows IH]; simpl; [tauto|].
  intros Hu Ha Hb Hk. apply NoDup_cons in Hu as [Hx Hu].
  destruct Ha as [<-|Ha], Hb as [<-|Hb]; try reflexivity.
  - exfalso. apply Hx. apply list_elem_of_In, in_map_iff. exists b.
    split; [congruence | exact Hb].
  - exfalso. apply Hx. apply list_elem_of_In, in_map_iff. exists a.
    split; [congruence | exact Ha].
  - apply IH; assumption.
Qed.

(** Under the unique constraint a soft delete that finds its row changes
    the one row of that key. *)
Lemma update_first_unique rows n merchant f h :
  unique_keys rows -> In h rows -> for_tenant n merchant h = true ->
  update_first (for_tenant n merchant) f rows
  = map (fun r => if has_wc_id n r then f r else r) rows.
Proof.
  intros Hu Hin Hh.
  assert (Hkey : Product.wc_product_id h = n)
    by (apply for_tenant_has_wc_id in Hh; apply Z.eqb_eq; exact Hh).
  assert (Hrow : forall r, In r rows -> has_wc_id n r = true -> r = h).
  { intros r Hr Hn. apply Z.eqb_eq in Hn.
    apply (unique_key_eq rows); try assumption. congruence. }
  clear Hkey.
  induction rows as [|x rows IH]; [reflexivity|].
  cbn [update_first map].
  destruct (for_tenant n merchant x) eqn:Ex.
  - rewrite (for_tenant_has_wc_id _ _ _ Ex). f_equal.
    unfold unique_keys in Hu. cbn [map] in Hu.
    apply NoDup_cons in Hu as [Hx _].
    apply for_tenant_has_wc_id, Z.eqb_eq in Ex.
    clear -Hx Ex. induction rows as [|y rows IHr]; [reflexivity|].
    cbn [map] in *. apply not_elem_of_cons in Hx as [Hy Hx].
    unfold has_wc_id at 1.
    destruct (Z.eqb_spec (Product.wc_product_id y) n); [congruence|].
    f_equal. apply IHr, Hx.
  - destruct (has_wc_id n x) eqn:En.
    + rewrite (Hrow x (or_introl eq_refl) En) in Ex. congruence.
    + f_equal. unfold unique_keys in Hu. cbn [map] in Hu.
      apply NoDup_cons in Hu as [_ Hu].
      apply IH; try assumption.
      * destruct Hin as [<-|Hin]; [|exact Hin].
        congruence.
      * intros r Hr. apply Hrow. right. exact Hr.
Qed.

Lemma active_of_for_tenant merchant h :
  active_of merchant h = true ->
  for_tenant (Product.wc_product_id h) merchant h = true.
Proof.
  unfold active_of, for_tenant, has_wc_id. intros H.
  apply andb_true_iff in H as [H _]. rewrite Z.eqb_refl, H. reflexivity.
Qed.

Section DeletePass.
Variables (env : Env) (store : WooCommerceStore.t) (remote : list Dict).
Let merchant := WooCommerceStore.merchant_id store.

(** What the loop over the rows [todo] makes of a row. *)
Let handled (todo : list Product.t) (row row' : Product.t) : Prop :=
  if existsb (fun h => Product.wc_product_id h =? Product.wc_product_id row) todo
     && absent_remotely merchant remote row
  then exists deleted t, row' = mark_deleted deleted t row
  else row' = row.

Lemma delete_absent_spec (todo : list Product.t) :
  forall w l,
    unique_keys (products (session w)) ->
    (forall h, In h todo ->
               In h (products (session w)) /\ active_of merchant h = true) ->
    NoDup (map Product.wc_product_id todo) ->
    (forall n, observed n (wc_product_ids l) = existsb (has_id n) remote) ->
    exists w' l',
      delete_absent env store todo (w, l) = ((w', l'), Ok tt)
      /\ Forall2 (handled todo) (products (session w)) (products (session w'))
      /\ products_deleted (result l')
         = products_deleted (result l)
           + Z.of_nat (List.length
                         (List.filter (absent_remotely merchant remote) todo))
      /\ products_checked (result l') = products_checked (result l)
      /\ products_added (result l') = products_added (result l)
      /\ products_updated (result l') = products_updated (result l).
Proof.
  induction todo as [|h todo IH]; intros w l Hu Hin Hnd Hobs.
  - exists w, l. split; [reflexivity|].
    split; [apply Forall2_same; intros x; reflexivity|].
    repeat split. cbn. lia.
  - destruct (Hin h (or_introl eq_refl)) as [HhT Hact].
    cbn [map] in Hnd. apply NoDup_cons in Hnd as [Hh Hnd].
    assert (Habs : absent_remotely merchant remote h
                   = negb (observed (Product.wc_product_id h) (wc_product_ids l))).
    { unfold absent_remotely. rewrite Hact, Hobs. reflexivity. }
    cbn [delete_absent]. unfold bind at 1. unfold local at 1.
    unfold bind at 1.
    cbn [List.filter]. rewrite Habs.
    destruct (negb (observed (Product.wc_product_id h) (wc_product_ids l)))
      eqn:Eabs.
    + (* the row is absent remotely: soft delete *)
      unfold bind at 1. unfold lift at 1.
      rewrite soft_delete_product_run.
      fold merchant.
      destruct (find_is_some (for_tenant (Product.wc_product_id h) merchant)
                  (products (session w)) h HhT (active_of_for_tenant _ _ Hact))
        as [y ->].
      unfold set_local at 1.
      set (w1 := soft_deleted env (Product.wc_product_id h) merchant w).
      set (l1 := on_result inc_deleted l).
      assert (HT1 : products (session w1)
                    = map (fun r => if has_wc_id (Product.wc_product_id h) r
                                    then mark_deleted (clock env (ticks w))
                                           (clock env (S (ticks w))) r
                                    else r)
                        (products (session w))).
      { subst w1. cbn [soft_deleted session with_products products].
        apply (update_first_unique _ _ _ _ h); try assumption.
        apply active_of_for_tenant, Hact. }
      destruct (IH w1 l1) as (w' & l' & Hrun & HF & Hd & Hc & Ha & Hup).
      * rewrite HT1. unfold unique_keys. rewrite map_map.
        erewrite List.map_ext; [exact Hu|].
        intros a. cbv beta. destruct (has_wc_id _ a); reflexivity.
      * intros x Hx. destruct (Hin x (or_intror Hx)) as [HxT Hxa].
        split; [|exact Hxa]. rewrite HT1. apply in_map_iff. exists x.
        split; [|exact HxT]. unfold has_wc_id.
        destruct (Z.eqb_spec (Product.wc_product_id x) (Product.wc_product_id h))
          as [Heq|]; [|reflexivity].
        exfalso. apply Hh. rewrite <- Heq.
        apply list_elem_of_In, in_map. exact Hx.
      * exact Hnd.
      * exact Hobs.
      * exists w', l'. split; [exact Hrun|].
        split.
        -- rewrite HT1 in HF. apply Forall2_map_left in HF.
           eapply Forall2_impl_In; [exact HF|].
           intros row row' Hrow Hhand. unfold handled in *. cbn [existsb].
           unfold has_wc_id in Hhand.
           destruct (Z.eqb_spec (Product.wc_product_id row)
                       (Product.wc_product_id h)) as [Heq|Hne].
           ++ assert (row = h) as -> by (apply (unique_key_eq _ _ _ Hu); assumption).
              rewrite Z.eqb_refl. cbn [orb]. rewrite Habs. cbn [andb].
              replace (existsb _ todo) with false in Hhand.
              ** cbn [andb] in Hhand. subst row'. eauto.
              ** symmetry. apply not_true_iff_false. intros Hex.
                 apply existsb_exists in Hex as (x & Hx & Hk).
                 apply Z.eqb_eq in Hk. apply Hh.
                 change (Product.wc_product_id
                           (mark_deleted (clock env (ticks w))
                              (clock env (S (ticks w))) h))
                   with (Product.wc_product_id h) in Hk.
                 rewrite <- Hk. apply list_elem_of_In, in_map. exact Hx.
           ++ replace (Product.wc_product_id h =? Product.wc_product_id row)
                with false by (symmetry; apply Z.eqb_neq; congruence).
              exact Hhand.
        -- subst l1. cbn [List.length] in *.
           cbn [on_result result inc_deleted products_deleted
                products_checked products_added products_updated] in *.
           repeat split; try assumption. lia.
    + (* the row was met in the walk: nothing happens *)
      unfold ret at 1.
      destruct (IH w l Hu) as (w' & l' & Hrun & HF & Hd & Hrest).
      * intros x Hx. apply Hin. right. exact Hx.
      * exact Hnd.
      * exact Hobs.
      * exists w', l'. split; [exact Hrun|].
        split; [|split; [exact Hd | exact Hrest]].
        eapply Forall2_impl_In; [exact HF|].
        intros row row' Hrow Hhand. unfold handled in *. cbn [existsb].
        destruct (Z.eqb_spec (Product.wc_product_id h)
                    (Product.wc_product_id row)) as [Heq|Hne]; [|exact Hhand].
        assert (row = h) as -> by (apply (unique_key_eq _ _ _ Hu); auto).
        rewrite Habs in *. rewrite andb_false_r in *. exact Hhand.
Qed.

End DeletePass.

Lemma NoDup_keys_filter (p : Product.t -> bool) rows :
  unique_keys rows -> unique_keys (List.filter p rows).
Proof.
  unfold unique_keys. induction rows as [|x rows IH]; cbn; [auto|].
  intros Hu. apply NoDup_cons in Hu as [Hx Hu].
  destruct (p x); [|apply IH, Hu].
  cbn. apply NoDup_cons. split; [|apply IH, Hu].
  intros Hin. apply Hx. apply list_elem_of_In in Hin.
  apply in_map_iff in Hin as (y & Hy & Hin).
  apply filter_In in Hin as [Hin _].
  apply list_elem_of_In, in_map_iff. exists y. auto.
Qed.

Lemma filter_absent_active merchant remote rows :
  List.filter (absent_remotely merchant remote)
    (List.filter (active_of merchant) rows)
  = List.filter (absent_remotely merchant remote) rows.
Proof.
  induction rows as [|x rows IH]; cbn; [reflexivity|].
  destruct (active_of merchant x) eqn:E; cbn.
  - rewrite IH. reflexivity.
  - unfold absent_remotely at 2. rewrite E. cbn. exact IH.
Qed.

(** C2. Let the walk meet pages [1..k]: after each page before [k] it
    goes on, page [k] is its last, and every product on them carries an
    integer ID.  Then [reconcile_products] completes, and
    - it treats the products met one after the other ([reconcile_each]):
      a product for which the tenant has no row is upserted and counted in
      [products_added]; one whose row is soft-deleted is upserted and
      counted in [products_updated]; one whose row is active is left alone;
    - [products_checked] is the number of products met;
    - after the walk, every active row of the tenant whose key no
      product met carries is soft-deleted, every other row stays as the
      walk left it, and [products_deleted] is the number of rows
      soft-deleted. *)
Theorem reconcile_products_spec env store w (k fuel : nat) :
  (1 <= k <= fuel)%nat ->
  (forall j, (1 <= j < k)%nat -> walk_continues env store j) ->
  walk_ends env store k ->
  Forall integer_id (enumerated env store k) ->
  unique_keys (products (session w)) ->
  clean w ->
  let remote := enumerated env store k in
  let merchant := WooCommerceStore.merchant_id store in
  exists w1 l1 w' r,
    reconcile_each env store remote (w, recon_start) = ((w1, l1), Ok tt)
    /\ reconcile_products env fuel store w = (w', Ok r)
    /\ status r = "completed"
    /\ errors r = []
    /\ products_checked r = Z.of_nat (List.length remote)
    /\ products_added r = products_added (result l1)
    /\ products_updated r = products_updated (result l1)
    /\ products_deleted r
       = Z.of_nat (List.length
                     (List.filter (absent_remotely merchant remote)
                        (products (session w1))))
    /\ Forall2 (deleted_if_absent merchant remote)
         (products (session w1)) (products (committed w'))
    /\ (forall product n w0 l0,
        product !! "id" = Some (JInt n) ->
        reconcile_one env store product (w0, l0)
        = let l0' := on_result inc_checked (add_id (JInt n) l0) in
          let upserted := fst (upsert_product env store product false w0) in
          match find (for_tenant n merchant) (products (session w0)) with
          | None => ((upserted, on_result inc_added l0'), Ok tt)
          | Some row =>
              if negb (Product.is_deleted row =? 0)
              then ((upserted, on_result inc_updated l0'), Ok tt)
              else ((w0, l0'), Ok tt)
          end).
Proof.
  intros Hk Hcont Hend Hids Hu Hclean remote merchant.
  destruct (reconcile_each_ok env store remote w recon_start Hids Hu)
    as (w1 & l1 & Heach & Hu1 & Hc1 & Hd1 & Hobs1).
  assert (Hpages : reconcile_pages env fuel store (client_for env store) 1
                     (w, recon_start) = ((w1, l1), Ok tt)).
  { rewrite <- Heach. subst remote. unfold enumerated.
    pose proof (reconcile_pages_walk env store (k - 1) 1 fuel
                  (w, recon_start)) as Hwalk.
    replace (S (k - 1)) with k in Hwalk by lia.
    change (Z.of_nat 1) with 1 in Hwalk. apply Hwalk.
    - lia.
    - intros j Hj. apply Hcont. lia.
    - replace (1 + (k - 1))%nat with k by lia. exact Hend. }
  set (todo := List.filter (active_of merchant) (products (session w1))).
  destruct (delete_absent_spec env store remote todo w1 l1)
    as (w' & l' & Hdel & HF & Hd & Hc & Ha & Hup).
  { exact Hu1. }
  { intros h Hh. apply filter_In in Hh. exact Hh. }
  { apply NoDup_keys_filter, Hu1. }
  { intros n. rewrite Hobs1. cbn. apply orb_false_r. }
  assert (Hbody : reconcile_body env fuel store (client_for env store)
                    (w, recon_start) = ((w', l'), Ok tt)).
  { unfold reconcile_body. unfold bind at 1. rewrite Hpages.
    unfold bind at 1. unfold lift, query_products_all, gets.
    exact Hdel. }
  destruct (keeps_reconcile_body _ _ _ _ _ _ _ _ _ Hbody Hclean)
    as (Hclean' & Herr & Hst).
  exists w1, l1, w', (result l').
  split; [exact Heach|].
  split.
  { unfold reconcile_products, bind, with_locals, try_except.
    rewrite Hbody. reflexivity. }
  split; [rewrite Hst; reflexivity|].
  split; [rewrite Herr; reflexivity|].
  split; [rewrite Hc, Hc1; cbn; lia|].
  split; [exact Ha|]. split; [exact Hup|].
  split.
  { rewrite Hd, Hd1. subst todo. rewrite filter_absent_active.
    cbn. reflexivity. }
  split.
  { rewrite <- Hclean'.
    eapply Forall2_impl_In; [exact HF|].
    intros row row' Hrow Hhand. unfold deleted_if_absent.
    cbv beta zeta in Hhand. fold merchant in Hhand.
    destruct (absent_remotely merchant remote row) eqn:Eabs.
    - replace (existsb _ todo) with true in Hhand; [exact Hhand|].
      symmetry. apply existsb_exists. exists row. split.
      + subst todo. apply filter_In. split; [exact Hrow|].
        unfold absent_remotely in Eabs. apply andb_true_iff in Eabs. tauto.
      + apply Z.eqb_refl.
    - rewrite andb_false_r in Hhand. exact Hhand. }
  intros product n w0 l0 Hid. apply reconcile_one_run, Hid.
Qed.

(** C6. When the [try] block of [reconcile_products] raises, the
    function returns normally with status [partial], the message of the
    exception as the one entry of [errors], and the counts reached; the
    world it leaves is the world at the moment of the exception, nothing
    is undone, and in that world every change made is committed.  In the
    walk, a product that raises changes no row: what the products before
    it brought about stays. *)
Theorem reconcile_partial_on_exception env fuel store w w1 l1 e :
  clean w ->
  reconcile_body env fuel store (client_for env store) (w, recon_start)
  = ((w1, l1), Raise e) ->
  reconcile_products env fuel store w
  = (w1, Ok (set_partial e (result l1)))
  /\ status (set_partial e (result l1)) = "partial"
  /\ errors (set_partial e (result l1)) = [str_exn e]
  /\ products_checked (set_partial e (result l1)) = products_checked (result l1)
  /\ products_added (set_partial e (result l1)) = products_added (result l1)
  /\ products_updated (set_partial e (result l1)) = products_updated (result l1)
  /\ products_deleted (set_partial e (result l1)) = products_deleted (result l1)
  /\ committed w1 = session w1
  /\ (forall before bad after w0 l0 wb lb wr lr e',
      reconcile_each env store before (w0, l0) = ((wb, lb), Ok tt) ->
      reconcile_one env store bad (wb, lb) = ((wr, lr), Raise e') ->
      reconcile_each env store (before ++ bad :: after) (w0, l0)
      = ((wb, lr), Raise e')).
Proof.
  intros Hclean Hbody.
  destruct (keeps_reconcile_body _ _ _ _ _ _ _ _ _ Hbody Hclean)
    as (Hclean' & Herr & Hst).
  split.
  { unfold reconcile_products, bind, with_locals, try_except.
    rewrite Hbody. reflexivity. }
  split; [reflexivity|].
  split; [cbn [set_partial errors]; rewrite Herr; reflexivity|].
  repeat (split; [reflexivity|]).
  split; [symmetry; exact Hclean'|].
  intros before bad after w0 l0 wb lb wr lr e' Hbefore Hbad.
  rewrite reconcile_each_app. unfold bind at 1. rewrite Hbefore.
  cbn [reconcile_each]. unfold bind at 1. rewrite Hbad.
  apply reconcile_one_raise in Hbad. subst wr. reflexivity.
Qed.

End ReconcileFacts.

(** ** Stored credentials *)
Module CredentialFacts.
Import PyLib Credentials.

(** C9, as the code has it.  On a ciphertext on which the decryption
    attempt fails, [TokenEncryption.decrypt] raises a [ValueError] that
    carries the cause; it is the credential properties of the store that
    turn this, and a failure to build the cipher, into [None], so that
    reading a corrupted credential does not raise. *)
Theorem decrypt_failure_raises_and_store_reads_null
    (te : TokenEncryption) (text : str) (e : Exn) :
  text <> [] ->
  decrypt_attempt te text = Raise e ->
  decrypt te (Some text)
  = Raise (ValueError ("Failed to decrypt credential: " ++ str_exn e)%string)
  /\ read_credential (Ok te) (Some text) = Ok None
  /\ (forall e', read_credential (Raise e') (Some text) = Ok None).
Proof.
  intros Hne Hfail. destruct text as [|c text]; [congruence|].
  assert (Hd : decrypt te (Some (c :: text))
               = Raise (ValueError
                          ("Failed to decrypt credential: " ++ str_exn e)%string)).
  { cbn [decrypt]. rewrite Hfail. reflexivity. }
  split; [exact Hd|]. split.
  - change (read_credential (Ok te) (Some (c :: text)))
      with (res_try (decrypt te (Some (c :: text))) (fun _ => Ok None)).
    rewrite Hd. reflexivity.
  - intros e'. reflexivity.
Qed.

End CredentialFacts.

(** ** The scheduled job *)
Module SchedulerFacts.
Import Samples.

(** C3 fails on the code: the job calls the bulk sync, not the
    reconciliation.  Product 3 of merchant A is gone from the shop; the job
    refreshes products 1 and 2 (also though the store before A failed) and
    leaves product 3 active, where [reconcile_products] on the same state
    soft-deletes it. *)
Theorem scheduled_job_runs_bulk_sync_only :
  let after_job := fst (reconciliation_job env_job 5 job_world) in
  let after_reconcile := fst (reconcile_products env_job 5 store_a job_world) in
  deleted_flag 3 job_world = Some 0
  /\ deleted_flag 3 after_job = Some 0
  /\ deleted_flag 3 after_reconcile = Some 1
  /\ option_map Product.price
       (find (has_wc_id 1) (products (committed after_job)))
     = Some (JStr "1.50")
  /\ snd (reconciliation_job env_job 5 job_world) = Ok tt.
Proof. vm_compute. repeat split. Qed.

End SchedulerFacts.

(** ** The statements at concrete inputs *)
Module Witnesses.
Import Samples PyLib Credentials.
Import UpsertClaims BulkSyncFacts ReconcileFacts CredentialFacts.

(** V1, a soft delete by its merchant, then V2: the row ends as V2,
    active. *)
Lemma upsert_product_converges_witness :
  exists w3 r,
    upsert_product env_two_pages store_a V2 false
      (fst (soft_delete_product env_two_pages 1 "merchant-a"
              (fst (upsert_product env_two_pages store_a V1 false empty_world))))
    = (w3, Ok (Some r))
    /\ find (has_wc_id 1) (products (committed w3)) = Some r
    /\ row_matches env_two_pages V2 r
    /\ Product.is_deleted r = 0
    /\ Product.deleted_at r = None.
Proof.
  destruct (upsert_product_converges env_two_pages) as (_ & Hseq & _).
  apply (Hseq store_a store_a V1 V2 false false 1 "merchant-a" true empty_world);
    vm_compute; reflexivity.
Defined.

Example soft_deleted_in_between :
  option_map Product.is_deleted
    (find (has_wc_id 1)
       (products (committed
          (fst (soft_delete_product env_two_pages 1 "merchant-a"
                  (fst (upsert_product env_two_pages store_a V1 false
                          empty_world)))))))
  = Some 1.
Proof. vm_compute. reflexivity. Qed.

(** Store B upserts product 1, which merchant A owns. *)
Lemma upsert_conflict_keeps_ownership_witness :
  exists w' r,
    upsert_product env_two_pages store_b V2 false seeded = (w', Ok (Some r))
    /\ Product.store_id r = 1
    /\ Product.merchant_id r = "merchant-a"
    /\ Product.name r = JStr "one, renamed"
    /\ List.length (products (committed w')) = 3%nat.
Proof.
  destruct (find (has_wc_id 1) (products (session seeded))) as [r0|] eqn:E;
    [|vm_compute in E; discriminate E].
  destruct (upsert_conflict_keeps_ownership env_two_pages store_b V2 false 1
              seeded r0)
    as (w' & r & Hrun & _ & Hs & Hm & _ & _ & _ & Hrow & Hlen).
  - vm_compute. reflexivity.
  - exact E.
  - exists w', r. split; [exact Hrun|].
    vm_compute in E. injection E as <-.
    split; [exact Hs|]. split; [exact Hm|].
    split; [apply Hrow|]. exact Hlen.
Defined.

(** The provider cannot be built: the upsert asked to embed runs as the
    one that was not. *)
Lemma embedding_failure_is_swallowed_witness :
  upsert_product env_no_provider store_a V1 true empty_world
  = upsert_product env_no_provider store_a V1 false empty_world
  /\ exists w' r,
       upsert_product env_no_provider store_a V1 true empty_world
       = (w', Ok (Some r))
       /\ Product.embedding r = None.
Proof.
  destruct (embedding_failure_is_swallowed env_no_provider store_a V1 empty_world)
    as (Hsame & Hrow & _).
  - right. eexists. vm_compute. reflexivity.
  - split; [exact Hsame|].
    destruct (Hrow 1) as (w' & r & Hrun & _ & Hemb);
      [vm_compute; reflexivity|].
    exists w', r. split; [exact Hrun | exact Hemb].
Defined.

(** C7 as stated fails: the second upsert of V1 moves [synced_at]. *)
Lemma upsert_twice_moves_synced_at :
  ~ (forall env store product_data generate w,
        let w1 := fst (upsert_product env store product_data generate w) in
        let w2 := fst (upsert_product env store product_data generate w1) in
        products (committed w2) = products (committed w1)).
Proof.
  intros H.
  specialize (H env_two_pages store_a V1 false empty_world).
  cbv zeta in H.
  apply (f_equal (map Product.synced_at)) in H.
  vm_compute in H. discriminate H.
Qed.

Lemma upsert_product_idempotent_witness :
  let w1 := fst (upsert_product env_two_pages store_a V1 false empty_world) in
  let w2 := fst (upsert_product env_two_pages store_a V1 false w1) in
  products (committed w2)
  = update_first (has_wc_id 1) (refreshed 1001) (products (committed w1))
  /\ List.length (products (committed w2)) = 1%nat.
Proof.
  destruct (upsert_product_idempotent env_two_pages store_a V1 false 1 empty_world)
    as (Hrows & Hlen & _).
  - vm_compute. reflexivity.
  - constructor.
  - split; [exact Hrows|]. rewrite Hlen. vm_compute. reflexivity.
Defined.

(** Two pages of one item, asked for with page size 1 and two pages
    reported: the sync ends with page 2. *)
Lemma bulk_sync_pagination_witness :
  exists w' stats,
    fetch_all_products_from_woocommerce env_two_pages 2 store_a empty_world
    = (w', Ok stats)
    /\ st_status stats = "completed"
    /\ pages_fetched stats = 2
    /\ snd (fetch_all_products_from_woocommerce env_two_pages 1 store_a
              empty_world) = OutOfFuel.
Proof.
  destruct (bulk_sync_pagination env_two_pages store_a empty_world)
    as (Hneeds & Hstops & _).
  destruct (Hstops 2%nat 2%nat
              {| data := [remote 2 "two" "2.00"]; x_wp_total := Some 2;
                 x_wp_totalpages := Some 2 |})
    as (w' & stats & Hrun & Hst & _ & Hpf).
  - lia.
  - intros j Hj. assert (j = 1%nat) as -> by lia.
    eexists. split; [vm_compute; reflexivity|].
    split; [discriminate|]. split; vm_compute; [discriminate | reflexivity].
  - vm_compute. reflexivity.
  - right. right. vm_compute. discriminate.
  - exists w', stats. split; [exact Hrun|]. split; [exact Hst|].
    split; [exact Hpf|].
    apply Hneeds. intros j Hj. assert (j = 1%nat) as -> by lia.
    eexists. split; [vm_compute; reflexivity|].
    split; [discriminate|]. split; vm_compute; [discriminate | reflexivity].
Defined.

(** Three local products, two of them met on the two pages of the shop:
    the third is soft-deleted. *)
Lemma reconcile_products_spec_witness :
  exists w' r,
    reconcile_products env_two_pages 5 store_a seeded = (w', Ok r)
    /\ status r = "completed"
    /\ products_checked r = 2
    /\ products_added r = 0
    /\ products_deleted r = 1
    /\ map Product.is_deleted (products (committed w')) = [0; 0; 1].
Proof.
  destruct (reconcile_products_spec env_two_pages store_a seeded 2 5)
    as (w1 & l1 & w' & r & Heach & Hrun & Hst & _ & Hc & Ha & _ & Hd & HF & _).
  7: pose proof Hrun as Hrun'.
  - lia.
  - intros j Hj. assert (j = 1%nat) as -> by lia.
    eexists. split; [vm_compute; reflexivity|].
    split; [discriminate | vm_compute; reflexivity].
  - eexists. split; [vm_compute; reflexivity|]. right. vm_compute. discriminate.
  - repeat constructor; eexists; vm_compute; reflexivity.
  - unfold unique_keys. apply (bool_decide_unpack _). vm_compute. reflexivity.
  - vm_compute. reflexivity.
  - pose proof (f_equal (fun x => snd (fst x)) Heach) as Hl1.
    apply (f_equal (fun x => fst (fst x))) in Heach.
    cbn [fst snd] in Heach, Hl1.
    apply (f_equal fst) in Hrun. cbn [fst] in Hrun.
    exists w', r. split; [exact Hrun'|]. split; [exact Hst|].
    split; [rewrite Hc; vm_compute; reflexivity|].
    split; [rewrite Ha, <- Hl1; vm_compute; reflexivity|].
    split; [rewrite Hd, <- Heach; vm_compute; reflexivity|].
    rewrite <- Hrun. vm_compute. reflexivity.
Defined.

(** Page 1 brings product 4, page 2 cannot be fetched: the result is
    partial and product 4 stays committed. *)
Lemma reconcile_partial_on_exception_witness :
  exists w1 r,
    reconcile_products env_failing 5 store_a seeded = (w1, Ok r)
    /\ status r = "partial"
    /\ errors r = ["502 Bad Gateway"]
    /\ products_added r = 1
    /\ map Product.wc_product_id (products (committed w1)) = [1; 2; 3; 4].
Proof.
  pose (run := reconcile_body env_failing 5 store_a
                 (client_for env_failing store_a) (seeded, recon_start)).
  destruct (reconcile_partial_on_exception env_failing 5 store_a seeded
              (fst (fst run)) (snd (fst run)) (HTTPError "502 Bad Gateway"))
    as (Hrun & Hst & Herr & _ & Ha & _).
  - vm_compute. reflexivity.
  - vm_compute. reflexivity.
  - do 2 eexists. split; [exact Hrun|]. split; [exact Hst|].
    split; [exact Herr|]. split; vm_compute; reflexivity.
Defined.

(** C9 as stated fails: on a token the cipher refuses, [decrypt]
    raises. *)
Lemma decrypt_raises_on_corrupted_token :
  ~ (forall (te : TokenEncryption) (text : str) (e : Exn),
        decrypt_attempt te text = Raise e ->
        decrypt te (Some text) = Ok None).
Proof.
  intros H.
  specialize (H {| cipher := sample_fernet |} (str_of_string "corrupted")
                InvalidToken).
  vm_compute in H. specialize (H eq_refl). discriminate H.
Qed.

Lemma decrypt_failure_witness :
  decrypt {| cipher := sample_fernet |} (Some (str_of_string "corrupted"))
  = Raise (ValueError "Failed to decrypt credential: ")
  /\ read_credential (Ok {| cipher := sample_fernet |})
       (Some (str_of_string "corrupted")) = Ok None.
Proof.
  destruct (decrypt_failure_raises_and_store_reads_null
              {| cipher := sample_fernet |} (str_of_string "corrupted")
              InvalidToken) as (Hd & Hr & _).
  - discriminate.
  - vm_compute. reflexivity.
  - split; [exact Hd | exact Hr].
Defined.

End Witnesses.

(** * Further properties of the code *)

(** ** Soft delete and restore *)
Module SoftDeleteRestore.
Import UpsertFacts SoftDeleteFacts ReconcileFacts.

Lemma restore_product_run env n merchant w :
  restore_product env n merchant w
  = match find (for_tenant n merchant) (products (session w)) with
    | Some _ =>
        (let t := with_products
                    (update_first (for_tenant n merchant)
                       (mark_restored (clock env (ticks w))))
                    (session w) in
         {| committed := t; session := t;
            product_id_seq := product_id_seq w; ticks := S (ticks w) |},
         Ok true)
    | None => (w, Ok false)
    end.
Proof.
  unfold restore_product, bind, query_products_first, gets.
  destruct (find (for_tenant n merchant) (products (session w)));
    reflexivity.
Qed.

Lemma same_content_mark_deleted d t r : same_content r (mark_deleted d t r).
Proof. repeat split. Qed.

Lemma find_for_tenant_in n merchant rows r :
  find (for_tenant n merchant) rows = Some r ->
  In r rows /\ for_tenant n merchant r = true.
Proof. apply find_some. Qed.

Lemma find_map_key n (f : Product.t -> Product.t) rows :
  (forall r, Product.wc_product_id (f r) = Product.wc_product_id r) ->
  find (has_wc_id n) (map (fun r => if has_wc_id n r then f r else r) rows)
  = option_map f (find (has_wc_id n) rows).
Proof.
  intros Hf. induction rows as [|x rows IH]; [reflexivity|].
  cbn [map find]. destruct (has_wc_id n x) eqn:E.
  - unfold has_wc_id at 1. rewrite Hf. fold (has_wc_id n x). rewrite E.
    reflexivity.
  - rewrite E. exact IH.
Qed.

Lemma soft_delete_product_cases env n merchant w :
  unique_keys (products (session w)) ->
  match find (for_tenant n merchant) (products (session w)) with
  | None =>
      soft_delete_product env n merchant w = (w, Ok false)
  | Some r =>
      exists w',
        soft_delete_product env n merchant w = (w', Ok true)
        /\ committed w' = session w'
        /\ products (committed w')
           = map (fun x => if has_wc_id n x
                           then mark_deleted (clock env (ticks w))
                                  (clock env (S (ticks w))) x
                           else x)
               (products (session w))
        /\ stores (committed w') = stores (session w)
        /\ exists r',
             find (has_wc_id n) (products (committed w')) = Some r'
             /\ Product.is_deleted r' = 1
             /\ Product.status r' = JStr "deleted"
             /\ Product.deleted_at r' = Some (clock env (ticks w))
             /\ same_content r r'
  end.
Proof.
  intros Hu. rewrite soft_delete_product_run.
  destruct (find (for_tenant n merchant) (products (session w))) as [r|] eqn:E;
    [|reflexivity].
  apply find_for_tenant_in in E as [Hin Hr].
  exists (soft_deleted env n merchant w).
  assert (Hrows : products (committed (soft_deleted env n merchant w))
                  = map (fun x => if has_wc_id n x
                                  then mark_deleted (clock env (ticks w))
                                         (clock env (S (ticks w))) x
                                  else x)
                      (products (session w))).
  { cbn [soft_deleted committed with_products products].
    apply (update_first_unique _ _ _ _ r); assumption. }
  split; [reflexivity|]. split; [reflexivity|].
  split; [exact Hrows|]. split; [reflexivity|].
  exists (mark_deleted (clock env (ticks w)) (clock env (S (ticks w))) r).
  split.
  - rewrite Hrows, find_map_key by reflexivity.
    assert (Hfind : find (has_wc_id n) (products (session w)) = Some r).
    { destruct (find_is_some (has_wc_id n) (products (session w)) r Hin
                  (for_tenant_has_wc_id _ _ _ Hr)) as [y Hy].
      rewrite Hy. f_equal.
      apply find_some in Hy as [Hyin Hyn].
      apply (unique_key_eq _ _ _ Hu Hyin Hin).
      apply for_tenant_has_wc_id in Hr.
      apply Z.eqb_eq in Hyn, Hr. congruence. }
    rewrite Hfind. reflexivity.
  - repeat split.
Qed.

(** X1. Soft delete is scoped by merchant.  When the merchant has no row
    of that remote ID (also when another merchant has one) it returns
    [False] and changes nothing.  When it has, it returns [True] and
    commits; under the unique constraint the one row of that ID gets
    [is_deleted = 1], the status [deleted] and the deletion time, keeps all
    its other content, and no other row changes. *)
Theorem soft_delete_product_spec env n merchant w :
  unique_keys (products (session w)) ->
  match find (for_tenant n merchant) (products (session w)) with
  | None =>
      soft_delete_product env n merchant w = (w, Ok false)
  | Some r =>
      exists w',
        soft_delete_product env n merchant w = (w', Ok true)
        /\ committed w' = session w'
        /\ products (committed w')
           = map (fun x => if has_wc_id n x
                           then mark_deleted (clock env (ticks w))
                                  (clock env (S (ticks w))) x
                           else x)
               (products (session w))
        /\ stores (committed w') = stores (session w)
        /\ exists r',
             find (has_wc_id n) (products (committed w')) = Some r'
             /\ Product.is_deleted r' = 1
             /\ Product.status r' = JStr "deleted"
             /\ Product.deleted_at r' = Some (clock env (ticks w))
             /\ same_content r r'
  end.
Proof. exact (soft_delete_product_cases env n merchant w). Qed.

(** X2. Restoring a product that was soft-deleted clears the flag and the
    deletion time and keeps the content, but the status stays [deleted]:
    the status the row had before the soft delete does not come back. *)
Theorem restore_after_soft_delete env n merchant w r :
  unique_keys (products (session w)) ->
  find (for_tenant n merchant) (products (session w)) = Some r ->
  let w1 := fst (soft_delete_product env n merchant w) in
  exists w2 r2,
    restore_product env n merchant w1 = (w2, Ok true)
    /\ find (has_wc_id n) (products (committed w2)) = Some r2
    /\ Product.is_deleted r2 = 0
    /\ Product.deleted_at r2 = None
    /\ Product.status r2 = JStr "deleted"
    /\ same_content r r2
    /\ List.length (products (committed w2))
       = List.length (products (session w)).
Proof.
  intros Hu Hfind w1.
  pose proof (soft_delete_product_cases env n merchant w Hu) as Hsd.
  rewrite Hfind in Hsd.
  destruct Hsd as (w' & Hrun & Hclean & Hrows & _ & r' & Hf' & _ & _ & _ & Hsame).
  subst w1. rewrite Hrun. cbn [fst].
  rewrite restore_product_run.
  apply find_for_tenant_in in Hfind as [Hin Hr].
  assert (Hin' : In (mark_deleted (clock env (ticks w))
                       (clock env (S (ticks w))) r) (products (session w'))).
  { rewrite <- Hclean, Hrows. apply in_map_iff. exists r.
    rewrite (for_tenant_has_wc_id _ _ _ Hr). split; [reflexivity | exact Hin]. }
  assert (Hu' : unique_keys (products (session w'))).
  { rewrite <- Hclean, Hrows. unfold unique_keys. rewrite map_map.
    erewrite List.map_ext; [exact Hu|].
    intros a. cbv beta. destruct (has_wc_id n a); reflexivity. }
  destruct (find_is_some (for_tenant n merchant) (products (session w')) _
              Hin' Hr) as [y Hy].
  rewrite Hy.
  do 2 eexists. split; [reflexivity|].
  cbn [committed with_products products].
  rewrite (update_first_unique _ _ _ _ _ Hu' Hin' Hr).
  rewrite find_map_key by reflexivity.
  rewrite <- Hclean, Hf'. cbn [option_map].
  split; [reflexivity|].
  assert (Hr' : r' = mark_deleted (clock env (ticks w))
                       (clock env (S (ticks w))) r).
  { rewrite Hrows, find_map_key in Hf' by reflexivity.
    destruct (find (has_wc_id n) (products (session w))) as [r0|] eqn:E0;
      [|discriminate].
    injection Hf' as <-. f_equal.
    apply find_some in E0 as [Hin0 Hn0].
    apply (unique_key_eq _ _ _ Hu Hin0 Hin).
    apply for_tenant_has_wc_id in Hr. apply Z.eqb_eq in Hn0, Hr. congruence. }
  subst r'.
  repeat split.
  rewrite length_map, Hrows, length_map. reflexivity.
Qed.

End SoftDeleteRestore.

(** ** The batch and the bulk sync *)
Module BulkSyncMore.
Import UpsertFacts UpsertClaims SoftDeleteFacts BulkSyncFacts ReconcileFacts.

Lemma sync_one_run env store product_data stats w :
  sync_one env store product_data stats w
  = match dict_get product_data "id" with
    | JInt n =>
        (upserted env store product_data (ENABLE_EMBEDDINGS (settings env)) n w,
         Ok (batch_synced (find (has_wc_id n) (products (session w))) stats))
    | _ => (rolled_back w, Ok (batch_failed stats))
    end.
Proof.
  unfold sync_one, try_except, bind at 1.
  unfold query_products_first at 1, gets.
  unfold bind at 1.
  destruct (dict_get product_data "id") as [| |n| | |] eqn:Hid;
    try (destruct (upsert_product_refused env store product_data
                     (ENABLE_EMBEDDINGS (settings env)) w) as [e ->];
         [intros m; congruence | reflexivity]).
  rewrite (upsert_product_run _ _ _ _ n) by exact Hid.
  reflexivity.
Qed.

Lemma batch_counts_step product_data existing stats :
  let stats' := if integer_idb product_data
                then batch_synced existing stats else batch_failed stats in
  b_synced_count stats'
  = b_synced_count stats + (if integer_idb product_data then 1 else 0)
  /\ b_failed_count stats'
     = b_failed_count stats + (if integer_idb product_data then 0 else 1)
  /\ b_created_count stats' + b_updated_count stats'
     = b_created_count stats + b_updated_count stats
       + (if integer_idb product_data then 1 else 0).
Proof.
  destruct (integer_idb product_data); cbn; destruct existing; cbn; lia.
Qed.

Lemma sync_loop_counts env store products :
  forall stats w,
  exists w' stats',
    sync_loop env store products stats w = (w', Ok stats')
    /\ b_synced_count stats'
       = b_synced_count stats
         + Z.of_nat (List.length (List.filter integer_idb products))
    /\ b_failed_count stats'
       = b_failed_count stats
         + Z.of_nat (List.length products)
         - Z.of_nat (List.length (List.filter integer_idb products))
    /\ b_created_count stats' + b_updated_count stats'
       = b_created_count stats + b_updated_count stats
         + Z.of_nat (List.length (List.filter integer_idb products)).
Proof.
  induction products as [|pd rest IH]; intros stats w.
  - exists w, stats. split; [reflexivity|]. cbn. repeat split; lia.
  - cbn [sync_loop]. unfold bind. rewrite sync_one_run.
    assert (Hb : integer_idb pd
                 = match dict_get pd "id" with JInt _ => true | _ => false end)
      by reflexivity.
    cbn [List.filter List.length].
    destruct (dict_get pd "id") as [| |n| | |]; rewrite Hb;
      match goal with
      | |- context [sync_loop env store rest ?s ?w0] =>
          destruct (IH s w0) as (w' & stats' & Hrun & Hs & Hf & Hc)
      end;
      rewrite Hrun; exists w', stats'; (split; [reflexivity|]);
      cbn [batch_failed batch_synced b_synced_count b_failed_count
           b_created_count b_updated_count List.length] in *;
      try (destruct (find (has_wc_id n) (products (session w))));
      repeat split; lia.
Qed.

(** X3. [sync_products_batch] never raises and accounts for every product:
    each is counted as synced or as failed, a product is synced exactly when
    its payload carries an integer ID, and every synced product is counted
    as created or as updated. *)
Theorem sync_products_batch_accounts env store products w :
  exists w' stats,
    sync_products_batch env store products w = (w', Ok stats)
    /\ b_synced_count stats
       = Z.of_nat (List.length (List.filter integer_idb products))
    /\ b_synced_count stats + b_failed_count stats
       = Z.of_nat (List.length products)
    /\ b_created_count stats + b_updated_count stats = b_synced_count stats.
Proof.
  unfold sync_products_batch.
  destruct (sync_loop_counts env store products batch_zero w)
    as (w' & stats & Hrun & Hs & Hf & Hc).
  exists w', stats. split; [exact Hrun|].
  cbn [batch_zero b_synced_count b_failed_count b_created_count
       b_updated_count] in *.
  repeat split; lia.
Qed.

(** *** What the sync does to the table *)

Lemma sync_step_refl w : sync_step w w.
Proof.
  intros Hc. split; [exact Hc|]. split; [intros r Hr _; exact Hr|].
  split; [auto | reflexivity].
Qed.

Lemma sync_step_trans w1 w2 w3 :
  sync_step w1 w2 -> sync_step w2 w3 -> sync_step w1 w3.
Proof.
  intros H12 H23 Hc.
  destruct (H12 Hc) as (Hc2 & Hd2 & Hu2 & Hs2).
  destruct (H23 Hc2) as (Hc3 & Hd3 & Hu3 & Hs3).
  split; [exact Hc3|]. split.
  - intros r Hr Hdel. apply Hd2; [|exact Hdel]. apply Hd3; assumption.
  - split; [auto | congruence].
Qed.

Lemma in_upsert_rows stmt key n t rows r :
  In r (upsert_rows stmt key n t rows) ->
  In r rows
  \/ r = inserted_row stmt key n t
  \/ exists r0, r = apply_update_set (set_ stmt) t r0.
Proof.
  unfold upsert_rows. destruct (existsb (has_wc_id n) rows).
  - induction rows as [|x rows IH]; cbn [update_first]; [tauto|].
    destruct (has_wc_id n x); cbn [In].
    + intros [<-|H]; [right; right; eauto | left; right; exact H].
    + intros [<-|H]; [left; left; reflexivity|].
      destruct (IH H) as [H'|H']; [left; right; exact H' | right; exact H'].
  - intros H. apply in_app_or in H as [H|[<-|[]]]; [left; exact H|].
    right. left. reflexivity.
Qed.

Lemma sync_step_upserted env store product_data generate n w :
  sync_step w (upserted env store product_data generate n w).
Proof.
  intros _. split; [reflexivity|]. split; [|split].
  - intros r Hr Hdel. cbn [upserted session with_products products] in Hr.
    apply in_upsert_rows in Hr as [Hr|[->|[r0 ->]]];
      [exact Hr | |]; exfalso; apply Hdel; reflexivity.
  - apply unique_keys_upsert_rows.
  - reflexivity.
Qed.

Lemma sync_step_rolled_back w : sync_step w (rolled_back w).
Proof.
  intros Hc. unfold rolled_back, rollback, modify, clean in *. cbn.
  rewrite <- Hc. split; [reflexivity|].
  split; [intros r Hr _; exact Hr|]. split; [auto | reflexivity].
Qed.

Lemma sync_loop_step env store products :
  forall stats w w' r,
    sync_loop env store products stats w = (w', r) -> sync_step w w'.
Proof.
  induction products as [|pd rest IH]; intros stats w w' r Hrun.
  - injection Hrun as <- _. apply sync_step_refl.
  - cbn [sync_loop] in Hrun. unfold bind in Hrun.
    rewrite sync_one_run in Hrun.
    destruct (dict_get pd "id") as [| |n| | |];
      (eapply sync_step_trans; [|eapply IH; exact Hrun]);
      first [apply sync_step_rolled_back | apply sync_step_upserted].
Qed.

Section Pages.
Variables (env : Env) (store : WooCommerceStore.t).

Lemma fetch_pages_step fuel :
  forall client page per_page w s w' s' r,
    fetch_pages env fuel store client page per_page (w, s) = ((w', s'), r) ->
    sync_step w w' /\ st_status s' = st_status s /\ error s' = error s.
Proof.
  induction fuel as [|fuel IH]; intros client page per_page w s w' s' r Hrun.
  - injection Hrun as <- <- _. split; [apply sync_step_refl | tauto].
  - cbn [fetch_pages] in Hrun. unfold bind at 1 in Hrun.
    unfold lift at 1 in Hrun. rewrite get_products_run in Hrun.
    destruct (http_get_products env client (products_params page per_page "any"))
      as [reply|e|].
    2,3: injection Hrun as <- <- _; split; [apply sync_step_refl | tauto].
    destruct (data reply) as [|p1 items].
    { injection Hrun as <- <- _. split; [apply sync_step_refl | tauto]. }
    unfold bind at 1 in Hrun.
    set (first := if page =? 1 then _ else _) in Hrun.
    assert (Hfirst : exists s0, first (w, s) = ((w, s0), Ok tt)
                       /\ st_status s0 = st_status s /\ error s0 = error s).
    { subst first. destruct (page =? 1); eexists;
        (split; [reflexivity | split; reflexivity]). }
    destruct Hfirst as (s0 & Hf & Hst0 & Herr0). rewrite Hf in Hrun.
    unfold bind at 1 in Hrun. unfold lift at 1 in Hrun.
    destruct (sync_products_batch env store (p1 :: items) w) as [w1 rb] eqn:Eb.
    assert (Hstep1 : sync_step w w1)
      by (eapply sync_loop_step; exact Eb).
    destruct (sync_products_batch_ok env store (p1 :: items) w) as (w1' & b & Eb').
    rewrite Eb in Eb'. injection Eb' as <- ->.
    unfold bind at 1 in Hrun. unfold set_local at 1 in Hrun.
    destruct ((page >=? default 0 (x_wp_totalpages reply))
              || (Z.of_nat (List.length (p1 :: items)) <? per_page)).
    + injection Hrun as <- <- _. split; [exact Hstep1|].
      cbn. split; congruence.
    + destruct (IH _ _ _ _ _ _ _ _ Hrun) as (Hstep2 & Hst2 & Herr2).
      split; [eapply sync_step_trans; eassumption|].
      cbn in Hst2, Herr2. split; congruence.
Qed.

End Pages.

Lemma fetch_all_run env fuel store w :
  fetch_all_products_from_woocommerce env fuel store w
  = let '((w1, s1), r1) :=
      fetch_pages env fuel store (client_for env store) 1
        (WC_PRODUCTS_PER_PAGE (settings env)) (w, stats_zero) in
    match r1 with
    | Ok _ => (touched env store w1, Ok s1)
    | Raise e => (w1, Ok (set_failed e s1))
    | OutOfFuel => (w1, OutOfFuel)
    end.
Proof.
  unfold fetch_all_products_from_woocommerce, with_locals, try_except.
  unfold bind at 1.
  destruct (fetch_pages env fuel store (client_for env store) 1
              (WC_PRODUCTS_PER_PAGE (settings env)) (w, stats_zero))
    as [[w1 s1] [[]|e|]]; reflexivity.
Qed.

Lemma touched_tables env store w :
  clean (touched env store w)
  /\ products (session (touched env store w)) = products (session w)
  /\ stores (session (touched env store w))
     = update_first (same_store store)
         (set_last_synced (clock env (ticks w)) (clock env (S (ticks w))))
         (stores (session w)).
Proof. repeat split. Qed.

(** X4. The bulk sync never raises: it returns its statistics (or is still
    paging when the fuel is spent).  The status is [completed], with no
    error entry and the store's [last_synced_at] set, or [failed], with the
    message of the exception as the error and the stores table untouched.
    Either way nothing is left uncommitted. *)
Theorem fetch_all_outcome env fuel store w :
  clean w ->
  let w' := fst (fetch_all_products_from_woocommerce env fuel store w) in
  clean w'
  /\ match snd (fetch_all_products_from_woocommerce env fuel store w) with
     | Ok stats =>
         (st_status stats = "completed" /\ error stats = None
          /\ exists t t',
               stores (committed w')
               = update_first (same_store store) (set_last_synced t t')
                   (stores (committed w)))
         \/ (st_status stats = "failed"
             /\ (exists e, error stats = Some (str_exn e))
             /\ stores (committed w') = stores (committed w))
     | Raise _ => False
     | OutOfFuel => stores (committed w') = stores (committed w)
     end.
Proof.
  intros Hc w'. subst w'. rewrite fetch_all_run.
  destruct (fetch_pages env fuel store (client_for env store) 1
              (WC_PRODUCTS_PER_PAGE (settings env)) (w, stats_zero))
    as [[w1 s1] r1] eqn:E.
  destruct (fetch_pages_step env store fuel _ _ _ _ _ _ _ _ E)
    as (Hstep & Hst & Herr).
  destruct (Hstep Hc) as (Hc1 & _ & _ & Hstores).
  destruct r1 as [[]|e|]; cbn [fst snd].
  - destruct (touched_tables env store w1) as (Hct & _ & Hs).
    split; [exact Hct|]. left. split; [exact Hst|]. split; [exact Herr|].
    exists (clock env (ticks w1)), (clock env (S (ticks w1))).
    rewrite <- Hct, Hs, Hstores, Hc. reflexivity.
  - split; [exact Hc1|]. right. split; [reflexivity|].
    split; [eexists; reflexivity|].
    rewrite <- Hc1, Hstores, Hc. reflexivity.
  - split; [exact Hc1|]. rewrite <- Hc1, Hstores, Hc. reflexivity.
Qed.

Lemma fetch_all_products_step env fuel store w :
  clean w ->
  let w' := fst (fetch_all_products_from_woocommerce env fuel store w) in
  clean w'
  /\ no_new_deletion (products (session w)) (products (session w'))
  /\ (unique_keys (products (session w)) -> unique_keys (products (session w'))).
Proof.
  intros Hc w'. subst w'. rewrite fetch_all_run.
  destruct (fetch_pages env fuel store (client_for env store) 1
              (WC_PRODUCTS_PER_PAGE (settings env)) (w, stats_zero))
    as [[w1 s1] r1] eqn:E.
  destruct (fetch_pages_step env store fuel _ _ _ _ _ _ _ _ E) as (Hstep & _).
  destruct (Hstep Hc) as (Hc1 & Hd & Hu & _).
  destruct r1 as [[]|e|]; cbn [fst]; repeat split; assumption.
Qed.

Lemma clean_rolled_back w : clean (rolled_back w).
Proof. reflexivity. Qed.

Lemma rolled_back_clean w : clean w -> rolled_back w = w.
Proof.
  destruct w as [c s q t]. unfold clean, rolled_back, rollback, modify.
  cbn. intros ->. reflexivity.
Qed.

(** [reconcile_store] on a store, and the loop over the stores. *)
Lemma reconcile_store_run env fuel store w :
  reconcile_store env fuel store w
  = (fst (fetch_all_products_from_woocommerce env fuel store w),
     match snd (fetch_all_products_from_woocommerce env fuel store w) with
     | Ok _ => Ok tt
     | Raise e => Raise e
     | OutOfFuel => OutOfFuel
     end).
Proof.
  unfold reconcile_store, try_except, bind, ret, raise.
  destruct (fetch_all_products_from_woocommerce env fuel store w)
    as [w1 [s|e|]]; reflexivity.
Qed.

Lemma fetch_all_never_raises env fuel store w e :
  snd (fetch_all_products_from_woocommerce env fuel store w) <> Raise e.
Proof.
  rewrite fetch_all_run.
  destruct (fetch_pages _ _ _ _ _ _ _) as [[w1 s1] [[]|e1|]]; discriminate.
Qed.

Lemma reconcile_stores_step env fuel todo :
  forall w,
    clean w ->
    let w' := fst (reconcile_stores env fuel todo w) in
    clean w'
    /\ no_new_deletion (products (session w)) (products (session w'))
    /\ (unique_keys (products (session w)) -> unique_keys (products (session w')))
    /\ (forall e, snd (reconcile_stores env fuel todo w) <> Raise e).
Proof.
  induction todo as [|store rest IH]; intros w Hc.
  - cbn. split; [exact Hc|]. split; [intros r Hr _; exact Hr|].
    split; [auto | discriminate].
  - cbn [reconcile_stores]. unfold bind, try_except.
    rewrite reconcile_store_run.
    destruct (fetch_all_products_step env fuel store w Hc) as (Hc1 & Hd1 & Hu1).
    pose proof (fetch_all_never_raises env fuel store w) as Hnr.
    destruct (fetch_all_products_from_woocommerce env fuel store w)
      as [w1 [s|e|]]; cbn [fst snd] in *.
    + destruct (IH w1 Hc1) as (Hc2 & Hd2 & Hu2 & Hr2).
      split; [exact Hc2|]. split; [|split; [auto | exact Hr2]].
      intros r Hr Hdel. apply Hd1; [|exact Hdel]. apply Hd2; assumption.
    + exfalso. apply (Hnr e). reflexivity.
    + repeat split; try assumption. discriminate.
Qed.

Lemma job_run env fuel w :
  reconciliation_job env fuel w
  = match reconcile_stores env fuel (job_stores w) (rolled_back w) with
    | (w1, Ok _) => (rolled_back w1, Ok tt)
    | (w1, Raise _) => (rolled_back w1, Ok tt)
    | (w1, OutOfFuel) => (w1, OutOfFuel)
    end.
Proof.
  unfold reconciliation_job, bind at 1. unfold rollback at 1, modify.
  unfold bind at 1, try_except, bind at 1, query_stores_all, gets.
  unfold job_stores, rolled_back, rollback, modify. cbn [fst session].
  destruct (reconcile_stores env fuel
              (List.filter active_verified (stores (committed w))) _)
    as [w1 [[]|e|]]; reflexivity.
Qed.

(** X5. Neither the bulk sync nor the scheduled job ever marks a product
    deleted: a row that is soft-deleted afterwards is a row that was
    there, as it is, before.  Both keep the unique constraint on the remote
    product ID. *)
Theorem sync_never_soft_deletes env fuel :
  (forall store w,
      clean w ->
      let w' := fst (fetch_all_products_from_woocommerce env fuel store w) in
      no_new_deletion (products (committed w)) (products (committed w'))
      /\ (unique_keys (products (committed w)) ->
          unique_keys (products (committed w'))))
  /\ (forall w,
      let w' := fst (reconciliation_job env fuel w) in
      no_new_deletion (products (committed w)) (products (committed w'))
      /\ (unique_keys (products (committed w)) ->
          unique_keys (products (committed w')))
      /\ forall e, snd (reconciliation_job env fuel w) <> Raise e).
Proof.
  split.
  - intros store w Hc w'.
    destruct (fetch_all_products_step env fuel store w Hc) as (Hc' & Hd & Hu).
    fold w' in Hc', Hd, Hu. rewrite <- Hc', <- Hc. split; assumption.
  - intros w w'. subst w'. rewrite job_run.
    destruct (reconcile_stores_step env fuel (job_stores w) (rolled_back w)
                (clean_rolled_back w)) as (Hc1 & Hd & Hu & Hr).
    change (products (session (rolled_back w)))
      with (products (committed w)) in Hd, Hu.
    destruct (reconcile_stores env fuel (job_stores w) (rolled_back w))
      as [w1 r]. cbn [fst snd] in *.
    assert (Hrb : rolled_back w1 = w1) by (apply rolled_back_clean, Hc1).
    destruct r as [[]|e|]; cbn [fst snd]; rewrite ?Hrb, <- ?Hc1;
      repeat split; try assumption; discriminate.
Qed.

Lemma fetch_all_ends env store fuel w :
  bulk_ends_within env store fuel ->
  exists stats,
    snd (fetch_all_products_from_woocommerce env fuel store w) = Ok stats.
Proof.
  intros (k & Hk & Hcont & Hend). rewrite fetch_all_run.
  destruct Hend as [(last & Hreply & Hlast)|(e & Hreply)].
  - destruct (fetch_pages_stops env store (k - 1) 1 fuel last w stats_zero)
      as (w1 & s1 & Hrun & _).
    + lia.
    + intros j Hj. apply Hcont. lia.
    + replace (1 + (k - 1))%nat with k by lia. exact Hreply.
    + replace (1 + (k - 1))%nat with k by lia. exact Hlast.
    + change (Z.of_nat 1) with 1 in Hrun. rewrite Hrun. eexists. reflexivity.
  - destruct (fetch_pages_raises env store (k - 1) 1 fuel e w stats_zero)
      as (w1 & s1 & Hrun & _).
    + lia.
    + intros j Hj. apply Hcont. lia.
    + replace (1 + (k - 1))%nat with k by lia. exact Hreply.
    + change (Z.of_nat 1) with 1 in Hrun. rewrite Hrun. eexists. reflexivity.
Qed.

Lemma reconcile_stores_each env fuel todo :
  forall w,
    clean w ->
    (forall s, In s todo -> bulk_ends_within env s fuel) ->
    reconcile_stores env fuel todo w = (sync_each env fuel todo w, Ok tt)
    /\ clean (sync_each env fuel todo w).
Proof.
  induction todo as [|store rest IH]; intros w Hc Hends.
  - split; [reflexivity | exact Hc].
  - cbn [reconcile_stores sync_each]. unfold bind, try_except.
    rewrite reconcile_store_run.
    destruct (fetch_all_ends env store fuel w) as [stats Hs].
    { apply Hends. left. reflexivity. }
    rewrite Hs.
    destruct (fetch_all_products_step env fuel store w Hc) as (Hc1 & _).
    apply IH; [exact Hc1|]. intros s Hin. apply Hends. right. exact Hin.
Qed.

(** X6. The scheduled job syncs the stores that are active and verified,
    and no others, one after the other in table order: when the
    pagination of each of their shops comes to an end within the fuel, by a
    last page or by a failing request, the job returns and the state is the
    one the bulk syncs of these stores lead to in sequence.  A store whose
    sync fails does not keep the later ones from being synced. *)
Theorem job_syncs_each_store env fuel w :
  (forall s, In s (job_stores w) -> bulk_ends_within env s fuel) ->
  reconciliation_job env fuel w
  = (sync_each env fuel (job_stores w) (rolled_back w), Ok tt).
Proof.
  intros Hends. rewrite job_run.
  destruct (reconcile_stores_each env fuel (job_stores w) (rolled_back w)
              (clean_rolled_back w) Hends) as (-> & Hc).
  rewrite (rolled_back_clean _ Hc). reflexivity.
Qed.

(** X7. The page size is compared as configured, the request is sent with
    the size clamped to 100: with [WC_PRODUCTS_PER_PAGE] above 100, a first
    page of at most 100 items ends the bulk sync after that page, whatever
    number of pages the shop reports. *)
Theorem bulk_sync_stops_early_above_100 env store w fuel reply :
  100 < WC_PRODUCTS_PER_PAGE (settings env) ->
  bulk_reply env store 1 = Ok reply ->
  data reply <> [] ->
  (List.length (data reply) <= 100)%nat ->
  q_per_page (products_params 1 (WC_PRODUCTS_PER_PAGE (settings env)) "any")
  = 100
  /\ exists w' stats,
       fetch_all_products_from_woocommerce env (S fuel) store w = (w', Ok stats)
       /\ st_status stats = "completed"
       /\ pages_fetched stats = 1.
Proof.
  intros Hbig Hreply Hne Hlen. split.
  - cbn [products_params q_per_page]. lia.
  - destruct (fetch_pages_last env store fuel 1 reply w stats_zero)
      as (w1 & s1 & Hrun & Hst & _ & Hpf).
    + exact Hreply.
    + right. left. lia.
    + change (Z.of_nat 1) with 1 in Hrun.
      rewrite fetch_all_run, Hrun.
      do 2 eexists. split; [reflexivity|]. split; [exact Hst|].
      rewrite Hpf. destruct (data reply); [congruence | reflexivity].
Qed.

End BulkSyncMore.

(** ** More on the reconciliation *)
Module ReconcileMore.
Import UpsertFacts UpsertClaims SoftDeleteFacts BulkSyncFacts ReconcileFacts
       BulkSyncMore.

(** X8. The reconciliation never raises.  It returns a result whose status
    is [completed] with no error, or [partial] with exactly one error
    message (or it is still paging when the fuel is spent); nothing is left
    uncommitted. *)
Theorem reconcile_products_outcome env fuel store w :
  clean w ->
  clean (fst (reconcile_products env fuel store w))
  /\ match snd (reconcile_products env fuel store w) with
     | Ok res =>
         (status res = "completed" /\ errors res = [])
         \/ (status res = "partial" /\ exists e, errors res = [str_exn e])
     | Raise _ => False
     | OutOfFuel => True
     end.
Proof.
  intros Hc. unfold reconcile_products, bind, with_locals, try_except.
  destruct (reconcile_body env fuel store (client_for env store)
              (w, recon_start)) as [[w1 l1] r] eqn:E.
  destruct (keeps_reconcile_body _ _ _ _ _ _ _ _ _ E Hc) as (Hc1 & He & Hs).
  destruct r as [[]|e|]; cbn [fst snd set_local ret].
  - split; [exact Hc1|]. left. split; [rewrite Hs | rewrite He]; reflexivity.
  - split; [exact Hc1|]. right. split; [reflexivity|].
    exists e. cbn [on_result result set_partial errors]. rewrite He.
    reflexivity.
  - split; [exact Hc1 | exact I].
Qed.

Lemma walk_keeps_one env store product :
  walk_keeps (reconcile_one env store product).
Proof.
  intros w l w' l' r Hrun.
  destruct (reconcile_one_cases env store product w l)
    as (w1 & l1 & r1 & Hrun1 & _ & Hw & _ & _ & Hd).
  rewrite Hrun1 in Hrun. injection Hrun as <- <- <-.
  split; [|exact Hd].
  destruct Hw as [->|[n ->]];
    [apply sync_step_refl | apply sync_step_upserted].
Qed.

Lemma walk_keeps_bind (m k : M (World * ReconLocals) unit) :
  walk_keeps m -> walk_keeps k -> walk_keeps (bind m (fun _ => k)).
Proof.
  intros Hm Hk w l w' l' r Hrun. unfold bind in Hrun.
  destruct (m (w, l)) as [[w1 l1] [[]|e|]] eqn:E.
  - destruct (Hm _ _ _ _ _ E) as (H1 & Hd1).
    destruct (Hk _ _ _ _ _ Hrun) as (H2 & Hd2).
    split; [eapply sync_step_trans; eassumption | congruence].
  - injection Hrun as <- <- <-. exact (Hm _ _ _ _ _ E).
  - injection Hrun as <- <- <-. exact (Hm _ _ _ _ _ E).
Qed.

Lemma walk_keeps_ret : walk_keeps (ret tt).
Proof.
  intros w l w' l' r [= <- <- <-]. split; [apply sync_step_refl | reflexivity].
Qed.

Lemma walk_keeps_each env store products :
  walk_keeps (reconcile_each env store products).
Proof.
  induction products as [|p rest IH]; cbn [reconcile_each].
  - apply walk_keeps_ret.
  - apply walk_keeps_bind; [apply walk_keeps_one | exact IH].
Qed.

Lemma walk_keeps_pages env fuel store client :
  forall page, walk_keeps (reconcile_pages env fuel store client page).
Proof.
  induction fuel as [|fuel IH]; intros page; cbn [reconcile_pages].
  - intros w l w' l' r [= <- <- <-].
    split; [apply sync_step_refl | reflexivity].
  - intros w l w' l' r Hrun.
    unfold bind at 1 in Hrun. unfold lift at 1 in Hrun.
    rewrite get_products_run in Hrun.
    destruct (http_get_products env client (products_params page 100 "any"))
      as [reply|e|].
    2,3: injection Hrun as <- <- <-; split;
         [apply sync_step_refl | reflexivity].
    destruct (data reply) as [|p1 items].
    { injection Hrun as <- <- <-. split; [apply sync_step_refl | reflexivity]. }
    revert Hrun. revert w l w' l' r.
    change (walk_keeps
              (bind (reconcile_each env store (p1 :: items))
                 (fun _ => if page >=? default 0 (x_wp_totalpages reply)
                           then ret tt
                           else reconcile_pages env fuel store client (page + 1)))).
    apply walk_keeps_bind; [apply walk_keeps_each|].
    destruct (page >=? default 0 (x_wp_totalpages reply));
      [apply walk_keeps_ret | apply IH].
Qed.

(** X9. When the walk over the remote catalogue raises (a request fails, a
    product has no usable ID), the delete pass does not run: the result is
    [partial] with [products_deleted = 0], and no product was marked
    deleted.  An enumeration that breaks off never makes local products
    disappear. *)
Theorem failed_walk_deletes_nothing env fuel store w w1 l1 e :
  clean w ->
  reconcile_pages env fuel store (client_for env store) 1 (w, recon_start)
  = ((w1, l1), Raise e) ->
  exists res,
    reconcile_products env fuel store w = (w1, Ok res)
    /\ status res = "partial"
    /\ errors res = [str_exn e]
    /\ products_deleted res = 0
    /\ no_new_deletion (products (committed w)) (products (committed w1)).
Proof.
  intros Hc Hwalk.
  destruct (walk_keeps_pages env fuel store _ 1 _ _ _ _ _ Hwalk) as (Hstep & Hd).
  destruct (Hstep Hc) as (Hc1 & Hnd & _).
  destruct (keeps_reconcile_pages env fuel store _ 1 _ _ _ _ _ Hwalk Hc)
    as (_ & He & _).
  exists (set_partial e (result l1)).
  split.
  { unfold reconcile_products, bind, with_locals, try_except, reconcile_body.
    unfold bind at 1. rewrite Hwalk. reflexivity. }
  split; [reflexivity|].
  split; [cbn [set_partial errors]; rewrite He; reflexivity|].
  split; [exact Hd|].
  rewrite <- Hc1, <- Hc. exact Hnd.
Qed.

(** X10. When the shop answers the first request with an empty page, the
    reconciliation completes with nothing checked and soft-deletes every
    active product of the merchant; rows of other merchants and rows that
    were soft-deleted already stay as they are. *)
Theorem empty_catalogue_deletes_all env store w fuel reply :
  page_reply env store 1 = Ok reply ->
  data reply = [] ->
  unique_keys (products (session w)) ->
  clean w ->
  let merchant := WooCommerceStore.merchant_id store in
  exists w' res,
    reconcile_products env (S fuel) store w = (w', Ok res)
    /\ status res = "completed"
    /\ products_checked res = 0
    /\ products_added res = 0
    /\ products_updated res = 0
    /\ products_deleted res
       = Z.of_nat (List.length
                     (List.filter (active_of merchant) (products (session w))))
    /\ Forall2 (deleted_if_active merchant)
         (products (session w)) (products (committed w')).
Proof.
  intros Hreply Hdata Hu Hc merchant.
  assert (Hpages : reconcile_pages env (S fuel) store (client_for env store) 1
                     (w, recon_start) = ((w, recon_start), Ok tt)).
  { cbn [reconcile_pages]. unfold bind at 1. unfold lift at 1.
    rewrite get_products_run.
    unfold page_reply in Hreply. rewrite Hreply, Hdata. reflexivity. }
  set (todo := List.filter (active_of merchant) (products (session w))).
  destruct (delete_absent_spec env store [] todo w recon_start)
    as (w' & l' & Hdel & HF & Hd & Hck & Ha & Hup).
  { exact Hu. }
  { intros h Hh. apply filter_In in Hh. exact Hh. }
  { apply NoDup_keys_filter, Hu. }
  { intros n. reflexivity. }
  assert (Hbody : reconcile_body env (S fuel) store (client_for env store)
                    (w, recon_start) = ((w', l'), Ok tt)).
  { unfold reconcile_body. unfold bind at 1. rewrite Hpages.
    unfold bind at 1. unfold lift, query_products_all, gets. exact Hdel. }
  destruct (keeps_reconcile_body _ _ _ _ _ _ _ _ _ Hbody Hc)
    as (Hc' & _ & Hst).
  exists w', (result l'). split.
  { unfold reconcile_products, bind, with_locals, try_except.
    rewrite Hbody. reflexivity. }
  split; [rewrite Hst; reflexivity|].
  split; [exact Hck|]. split; [exact Ha|]. split; [exact Hup|].
  assert (Habs : forall row, absent_remotely merchant [] row = active_of merchant row).
  { intros row. unfold absent_remotely. cbn. apply andb_true_r. }
  split.
  { rewrite Hd. cbn [recon_start result result_zero products_deleted].
    fold merchant. erewrite (List.filter_ext _ _ Habs).
    subst todo.
    replace (List.filter (active_of merchant)
               (List.filter (active_of merchant) (products (session w))))
      with (List.filter (active_of merchant) (products (session w))).
    - lia.
    - generalize (products (session w)). intros rows.
      induction rows as [|x rows IH]; [reflexivity|].
      cbn [List.filter]. destruct (active_of merchant x) eqn:E;
        cbn [List.filter]; rewrite ?E; congruence. }
  rewrite <- Hc'.
  eapply Forall2_impl_In; [exact HF|].
  intros row row' Hrow Hhand. unfold deleted_if_active.
  cbv beta zeta in Hhand. fold merchant in Hhand. rewrite Habs in Hhand.
  destruct (active_of merchant row) eqn:Eact.
  - replace (existsb _ todo) with true in Hhand; [exact Hhand|].
    symmetry. apply existsb_exists. exists row. split.
    + subst todo. apply filter_In. split; assumption.
    + apply Z.eqb_refl.
  - rewrite andb_false_r in Hhand. exact Hhand.
Qed.

End ReconcileMore.

(** ** Credentials written and read back *)
Module CredentialRoundTrip.
Import PyLib Credentials WebhookVerificationFacts.

Lemma encode_utf8_ascii (s : str) :
  is_ascii s = true -> encode_utf8 s = Ok s.
Proof.
  induction s as [|c s IH]; [reflexivity|].
  cbn [is_ascii forallb]. intros H. apply andb_true_iff in H as [Hc Hs].
  apply andb_true_iff in Hc as [H0 H128].
  cbn [encode_utf8]. unfold encode_char.
  replace (c <? 0) with false
    by (symmetry; apply Z.ltb_ge; apply Z.leb_le; exact H0).
  change 128 with 0x80 in H128. rewrite H128. cbn [res_bind].
  rewrite (IH Hs). reflexivity.
Qed.

(** X11. A credential written through the store's setter and read back
    through its getter comes back as it was, for a non-empty ASCII value and
    a cipher that decrypts what it encrypts.  An empty or missing value is
    stored as [None], unencrypted, and reads as [None]. *)
Theorem credential_round_trip (te : TokenEncryption) (value : str) :
  sound_cipher (cipher te) ->
  value <> [] ->
  is_ascii value = true ->
  (exists column,
      write_credential (Ok te) (Some value) = Ok (Some column)
      /\ read_credential (Ok te) (Some column) = Ok (Some value))
  /\ write_credential (Ok te) (Some []) = Ok None
  /\ write_credential (Ok te) None = Ok None
  /\ read_credential (Ok te) None = Ok None.
Proof.
  intros Hsound Hne Hascii.
  split; [|repeat split].
  destruct (Hsound value Hascii) as (Hdec & Htok & Hnonempty).
  exists (fernet_encrypt (cipher te) value).
  destruct value as [|c value]; [congruence|].
  split.
  - cbn [write_credential res_bind encrypt].
    rewrite (encode_utf8_ascii _ Hascii). cbn [res_bind].
    rewrite (decode_utf8_ascii _ Htok). reflexivity.
  - destruct (fernet_encrypt (cipher te) (c :: value)) as [|t token] eqn:Et;
      [congruence|].
    cbn [read_credential res_bind decrypt]. unfold decrypt_attempt.
    rewrite (encode_utf8_ascii _ Htok). cbn [res_bind].
    rewrite Hdec. cbn [res_bind].
    rewrite (decode_utf8_ascii _ Hascii). reflexivity.
Qed.

End CredentialRoundTrip.

(** ** Trailing slashes of a store URL *)
Module StoreUrl.



Lemma rstrip_slash_no_slash s : ends_with_slash (rstrip_slash s) = false.
Proof.
  induction s as [|c s IH]; cbn [rstrip_slash]; [reflexivity|].
  destruct (rstrip_slash s) eqn:E.
  - destruct (Ascii.eqb_spec c "/"%char) as [->|Hc]; [reflexivity|].
    cbn. apply Ascii.eqb_neq. exact Hc.
  - exact IH.
Qed.



End StoreUrl.

(** ** Webhook headers *)
Module WebhookHeaderFacts.

Lemma fold_insert_other (k : string) (hs : list (string * string)) :
  forall m : gmap string string,
    Forall (fun kv => lower (fst kv) <> k) hs ->
    fold_left (fun m kv => <[lower (fst kv) := snd kv]> m) hs m !! k = m !! k.
Proof.
  induction hs as [|[n v] hs IH]; intros m H; [reflexivity|].
  apply Forall_cons in H as [Hn Hs]. cbn [fold_left fst snd].
  rewrite IH by exact Hs. apply lookup_insert_ne. exact Hn.
Qed.

Lemma normalized_lookup (hs : list (string * string)) (name : string) :
  normalized hs !! lower name = header_value hs name.
Proof.
  unfold normalized, header_value.
  induction hs as [|[n v] hs IH] using rev_ind; [reflexivity|].
  rewrite fold_left_app, rev_app_distr. cbn [fold_left rev app find fst snd].
  destruct (String.eqb_spec (lower n) (lower name)) as [->|Hne].
  - cbn [option_map snd]. apply lookup_insert_eq.
  - rewrite lookup_insert_ne by exact Hne. exact IH.
Qed.

Lemma present_true (v : option string) :
  present v = true <-> exists s, v = Some s /\ s <> "".
Proof.
  destruct v as [s|]; cbn.
  - rewrite negb_true_iff. split.
    + intros H. exists s. split; [reflexivity|].
      intros ->. discriminate H.
    + intros (s' & [= <-] & Hne). apply String.eqb_neq. exact Hne.
  - split; [discriminate | intros (s & [=] & _)].
Qed.

(** X13. [from_request_headers] finds each webhook header whatever the case
    of the letters of its name, taking the last one when a name occurs more
    than once.  The headers are valid exactly when source, topic and
    signature are all there and non-empty, and the store URL they give ends
    in no slash. *)
Theorem from_request_headers_spec (headers : list (string * string)) :
  let h := from_request_headers headers in
  wh_source h = header_value headers "X-WC-Webhook-Source"
  /\ wh_topic h = header_value headers "X-WC-Webhook-Topic"
  /\ wh_resource h = header_value headers "X-WC-Webhook-Resource"
  /\ wh_event h = header_value headers "X-WC-Webhook-Event"
  /\ wh_signature h = header_value headers "X-WC-Webhook-Signature"
  /\ wh_webhook_id h = header_value headers "X-WC-Webhook-ID"
  /\ wh_delivery_id h = header_value headers "X-WC-Webhook-Delivery-ID"
  /\ (is_valid h = true
      <-> exists source topic signature,
            header_value headers "x-wc-webhook-source" = Some source
            /\ header_value headers "x-wc-webhook-topic" = Some topic
            /\ header_value headers "x-wc-webhook-signature" = Some signature
            /\ source <> "" /\ topic <> "" /\ signature <> "")
  /\ (forall url, get_store_url h = Some url -> ends_with_slash url = false).
Proof.
  intros h. subst h. unfold from_request_headers.
  cbn [wh_source wh_topic wh_resource wh_event wh_signature wh_webhook_id
       wh_delivery_id].
  split; [exact (normalized_lookup headers "X-WC-Webhook-Source")|].
  split; [exact (normalized_lookup headers "X-WC-Webhook-Topic")|].
  split; [exact (normalized_lookup headers "X-WC-Webhook-Resource")|].
  split; [exact (normalized_lookup headers "X-WC-Webhook-Event")|].
  split; [exact (normalized_lookup headers "X-WC-Webhook-Signature")|].
  split; [exact (normalized_lookup headers "X-WC-Webhook-ID")|].
  split; [exact (normalized_lookup headers "X-WC-Webhook-Delivery-ID")|].
  split.
  - unfold is_valid. cbn [wh_source wh_topic wh_signature].
    rewrite !andb_true_iff, !present_true.
    rewrite <- !(normalized_lookup headers).
    change (lower "x-wc-webhook-source") with "x-wc-webhook-source".
    change (lower "x-wc-webhook-topic") with "x-wc-webhook-topic".
    change (lower "x-wc-webhook-signature") with "x-wc-webhook-signature".
    split.
    + intros [[(s & Hs & Hsn) (t & Ht & Htn)] (g & Hg & Hgn)].
      exists s, t, g. tauto.
    + intros (s & t & g & Hs & Ht & Hg & Hsn & Htn & Hgn).
      repeat split; eexists; split; eassumption.
  - intros url. unfold get_store_url. cbn [wh_source].
    destruct (present _); [|discriminate].
    destruct (normalized headers !! "x-wc-webhook-source") as [s|];
      [|discriminate].
    intros [= <-]. apply StoreUrl.rstrip_slash_no_slash.
Qed.

End WebhookHeaderFacts.

(** ** Incoming webhooks *)
Module WebhookGate.
Import PyLib WebhookVerification WebhookVerificationFacts UpsertFacts
       SoftDeleteFacts.

Lemma present_some s : present (Some s) = negb (String.eqb s "").
Proof. reflexivity. Qed.

(** The gate as a case distinction. *)
Lemma verify_wc_webhook_cases json_loads hooks d w :
  (rejection (snd (verify_wc_webhook json_loads hooks d w))
   /\ fst (verify_wc_webhook json_loads hooks d w) = w
   /\ ~ (exists store, authentic hooks w d store (delivery_topic d)))
  \/ (exists store,
        authentic hooks w d store (delivery_topic d)
        /\ verify_wc_webhook json_loads hooks d w
           = (w, match decode_utf8 (body d) with
                 | Ok text =>
                     match json_loads text with
                     | Some payload =>
                         Ok (Respond {| wd_store := store;
                                        wd_topic := delivery_topic d;
                                        wd_payload := payload |})
                     | None => Ok (HTTPException 400 "Invalid JSON payload")
                     end
                 | Raise e => Ok (Unhandled e)
                 | OutOfFuel => OutOfFuel
                 end)).
Proof.
  unfold verify_wc_webhook.
  destruct (x_wc_webhook_source d) as [source|] eqn:Esrc.
  2:{ left. split; [eexists; left; reflexivity|]. split; [reflexivity|].
      intros (store & src & sg & wh & sec & Hs & _). congruence. }
  destruct (x_wc_webhook_signature d) as [signature|] eqn:Esig.
  2:{ left. cbn [present negb orb]. rewrite orb_true_r.
      split; [eexists; left; reflexivity|]. split; [reflexivity|].
      intros (store & src & sg & wh & sec & _ & _ & Hs & _). congruence. }
  rewrite !present_some, !negb_involutive.
  destruct (String.eqb_spec source "") as [->|Hsrc].
  { left. split; [eexists; left; reflexivity|]. split; [reflexivity|].
    intros (store & src & sg & wh & sec & Hs & Hne & _). congruence. }
  destruct (String.eqb_spec signature "") as [->|Hsig].
  { left. split; [eexists; left; reflexivity|]. split; [reflexivity|].
    intros (store & src & sg & wh & sec & _ & _ & Hs & _ & _ & _ & Hv).
    rewrite Esig in Hs. injection Hs as <-.
    rewrite verify_true_iff in Hv. destruct Hv as [Hv _]. apply Hv.
    reflexivity. }
  cbn [orb default from_option id]. unfold bind, gets. cbv beta iota zeta.
  fold (delivery_topic d).
  destruct (find (store_at (rstrip_slash source)) (stores (session w)))
    as [store|] eqn:Estore.
  2:{ left. split; [eexists; right; reflexivity|]. split; [reflexivity|].
      intros (st & src & sg & wh & sec & Hs & _ & _ & Hf & _).
      rewrite Esrc in Hs. injection Hs as <-. congruence. }
  destruct (find (hook_for store (delivery_topic d)) hooks) as [webhook|]
    eqn:Ehook.
  2:{ left. split; [eexists; left; reflexivity|]. split; [reflexivity|].
      intros (st & src & sg & wh & sec & Hs & _ & _ & Hf & Hh & _).
      rewrite Esrc in Hs. injection Hs as <-.
      rewrite Estore in Hf. injection Hf as <-. congruence. }
  assert (Hno : (forall sec, Webhook.secret webhook = Some sec ->
                          verify_woocommerce_webhook (body d)
                            (str_of_string signature) sec = Ok true -> False) ->
             ~ (exists st, authentic hooks w d st (delivery_topic d))).
  { intros HP (st & src & sg & wh & sec & Hs1 & _ & Hs2 & Hf & Hh & Hs & Hv).
    rewrite Esrc in Hs1. injection Hs1 as <-.
    rewrite Esig in Hs2. injection Hs2 as <-.
    rewrite Estore in Hf. injection Hf as <-.
    rewrite Ehook in Hh. injection Hh as <-. eapply HP; eassumption. }
  destruct (Webhook.secret webhook) as [[|c secret]|] eqn:Esec.
  - left. split; [eexists; left; reflexivity|]. split; [reflexivity|].
    apply Hno. intros sec [= <-] Hv.
    rewrite verify_true_iff in Hv. destruct Hv as (_ & Hv & _). apply Hv.
    reflexivity.
  - destruct (verify_total (body d) (str_of_string signature) (c :: secret))
      as [[|] Hv]; rewrite Hv.
    + right. exists store. split.
      * exists source, signature, webhook, (c :: secret). repeat split;
          assumption.
      * destruct (decode_utf8 (body d)) as [text|e|]; [|reflexivity..].
        destruct (json_loads text); reflexivity.
    + left. split; [eexists; left; reflexivity|]. split; [reflexivity|].
      apply Hno. intros sec [= <-] Hv'. congruence.
  - left. split; [eexists; left; reflexivity|]. split; [reflexivity|].
    apply Hno. intros sec [=].
Qed.

(** X14. No product handler acts on a delivery that is not authentic: when
    no active store has the source URL, or the store has no active
    subscription with a secret for the topic, or the signature does not
    verify under that secret, the handler answers 401 or 404 and the
    database is as it was. *)
Theorem unauthentic_delivery_changes_nothing env json_loads hooks
    (d : Delivery) (w : World) :
  ~ (exists store, authentic hooks w d store (delivery_topic d)) ->
  forall handler,
    In handler [product_created_webhook env json_loads hooks;
                product_updated_webhook env json_loads hooks;
                product_restored_webhook env json_loads hooks;
                product_deleted_webhook env json_loads hooks] ->
    fst (handler d w) = w /\ rejection (snd (handler d w)).
Proof.
  intros Hun handler Hin.
  destruct (verify_wc_webhook_cases json_loads hooks d w)
    as [(Hrej & Hw & _)|(store & Hauth & _)];
    [|exfalso; apply Hun; exists store; exact Hauth].
  destruct (verify_wc_webhook json_loads hooks d w) as [w0 r] eqn:E.
  cbn [fst snd] in Hrej, Hw. subst w0.
  destruct Hrej as [detail Hr].
  assert (Hh : handler d w
               = (w, match r with
                     | Ok (HTTPException c dt) => Ok (HTTPException c dt)
                     | _ => snd (handler d w)
                     end)).
  { cbn [In] in Hin.
    destruct Hin as [<-|[<-|[<-|[<-|[]]]]];
      unfold product_created_webhook, product_updated_webhook,
        product_restored_webhook, product_upsert_webhook,
        product_deleted_webhook, bind; rewrite E;
      destruct Hr as [->| ->]; reflexivity. }
  rewrite Hh. cbn [fst snd]. split; [reflexivity|].
  exists detail. destruct Hr as [->| ->]; [left | right]; reflexivity.
Qed.

(** X15. An authentic delivery to one of the upsert handlers (created,
    updated, restored) whose body is a JSON object with an integer ID is
    upserted for the store of the source URL, with an embedding asked for,
    and acknowledged; one whose object has no integer ID is answered 500
    and changes nothing. *)
Theorem authentic_delivery_is_upserted env json_loads hooks
    (d : Delivery) (w : World)
    store text payload action :
  authentic hooks w d store (delivery_topic d) ->
  decode_utf8 (body d) = Ok text ->
  json_loads text = Some (JObj payload) ->
  match dict_get payload "id" with
  | JInt n =>
      product_upsert_webhook action env json_loads hooks d w
      = (upserted env store payload true n w,
         Ok (Respond {| ack_status := "success";
                        ack_action := action;
                        ack_product_id := JInt n;
                        ack_merchant_id := Some (WooCommerceStore.merchant_id store);
                        ack_message := None |}))
  | _ =>
      exists detail,
        product_upsert_webhook action env json_loads hooks d w
        = (w, Ok (HTTPException 500 detail))
  end.
Proof.
  intros Hauth Htext Hjson.
  destruct (verify_wc_webhook_cases json_loads hooks d w)
    as [(_ & _ & Hno)|(store' & Hauth' & Hrun)];
    [exfalso; apply Hno; exists store; exact Hauth|].
  assert (store' = store) as ->.
  { destruct Hauth as (s1 & g1 & h1 & c1 & Hs1 & _ & _ & Hf1 & _).
    destruct Hauth' as (s2 & g2 & h2 & c2 & Hs2 & _ & _ & Hf2 & _).
    congruence. }
  rewrite Htext, Hjson in Hrun.
  assert (Hstep : product_upsert_webhook action env json_loads hooks d w
                  = try_except
                      (upsert_product env store payload true ;;;
                       ret (Respond
                              {| ack_status := "success";
                                 ack_action := action;
                                 ack_product_id := dict_get payload "id";
                                 ack_merchant_id :=
                                   Some (WooCommerceStore.merchant_id store);
                                 ack_message := None |}))
                      (fun e => ret (HTTPException 500 (str_exn e))) w).
  { unfold product_upsert_webhook, bind at 1. rewrite Hrun. reflexivity. }
  rewrite Hstep. unfold try_except, bind.
  destruct (dict_get payload "id") as [|b|n|s|l|o] eqn:Hid.
  3:{ rewrite (upsert_product_run _ _ _ _ n) by exact Hid. reflexivity. }
  all: destruct (upsert_product_refused env store payload true w) as [e He];
    [intros m; congruence|]; rewrite He; eexists; reflexivity.
Qed.

(** X16. An authentic delivery to the delete handler soft-deletes the product
    for the merchant of the store: when the merchant has a row of that
    ID, the row is soft-deleted and the action is [deleted]; when it has
    none (the ID is missing, unknown, or another merchant's), the action is
    [not_found] and nothing changes. *)
Theorem authentic_delete_is_scoped env json_loads hooks
    (d : Delivery) (w : World)
    store text payload :
  authentic hooks w d store (delivery_topic d) ->
  decode_utf8 (body d) = Ok text ->
  json_loads text = Some (JObj payload) ->
  let merchant := WooCommerceStore.merchant_id store in
  let not_found pid :=
    Ok (Respond {| ack_status := "success"; ack_action := "not_found";
                   ack_product_id := pid; ack_merchant_id := None;
                   ack_message := Some "Product not found in database" |}) in
  match dict_get payload "id" with
  | JInt n =>
      match find (for_tenant n merchant) (products (session w)) with
      | Some _ =>
          product_deleted_webhook env json_loads hooks d w
          = (soft_deleted env n merchant w,
             Ok (Respond {| ack_status := "success"; ack_action := "deleted";
                            ack_product_id := JInt n;
                            ack_merchant_id := Some merchant;
                            ack_message := None |}))
      | None =>
          product_deleted_webhook env json_loads hooks d w
          = (w, not_found (JInt n))
      end
  | JNull =>
      product_deleted_webhook env json_loads hooks d w = (w, not_found JNull)
  | _ => True
  end.
Proof.
  intros Hauth Htext Hjson merchant not_found.
  destruct (verify_wc_webhook_cases json_loads hooks d w)
    as [(_ & _ & Hno)|(store' & Hauth' & Hrun)];
    [exfalso; apply Hno; exists store; exact Hauth|].
  assert (store' = store) as ->.
  { destruct Hauth as (s1 & g1 & h1 & c1 & Hs1 & _ & _ & Hf1 & _).
    destruct Hauth' as (s2 & g2 & h2 & c2 & Hs2 & _ & _ & Hf2 & _).
    congruence. }
  rewrite Htext, Hjson in Hrun.
  assert (Hstep : product_deleted_webhook env json_loads hooks d w
                  = try_except
                      (let* success :=
                         soft_delete_payload_id env (dict_get payload "id")
                           merchant in
                       if success then
                         ret (Respond
                                {| ack_status := "success";
                                   ack_action := "deleted";
                                   ack_product_id := dict_get payload "id";
                                   ack_merchant_id := Some merchant;
                                   ack_message := None |})
                       else
                         ret (Respond
                                {| ack_status := "success";
                                   ack_action := "not_found";
                                   ack_product_id := dict_get payload "id";
                                   ack_merchant_id := None;
                                   ack_message :=
                                     Some "Product not found in database" |}))
                      (fun e => ret (HTTPException 500 (str_exn e))) w).
  { unfold product_deleted_webhook, bind at 1. rewrite Hrun. reflexivity. }
  rewrite Hstep. unfold try_except, bind.
  destruct (dict_get payload "id") as [|b|n|s|l|o] eqn:Hid; try exact I.
  - reflexivity.
  - cbn [soft_delete_payload_id]. rewrite soft_delete_product_run.
    destruct (find (for_tenant n merchant) (products (session w)));
      reflexivity.
Qed.

End WebhookGate.


(** ** Access and reading *)
Module AccessFacts.
Import PyLib WebhookVerificationFacts SoftDeleteFacts.

(** X17. [verify_api_key] accepts a request exactly when its key is the
    configured key, character by character, and is non-empty ASCII text;
    so a configured key that is empty or not ASCII accepts no request. *)
Theorem verify_api_key_spec (API_KEY x_api_key k : str) :
  verify_api_key API_KEY x_api_key = Ok (Respond k)
  <-> k = x_api_key /\ x_api_key = API_KEY /\ x_api_key <> []
      /\ is_ascii x_api_key = true.
Proof.
  unfold verify_api_key, compare_digest.
  destruct x_api_key as [|c x].
  - split; [discriminate | intros (_ & _ & H & _); congruence].
  - destruct (is_ascii (c :: x)) eqn:Ea; cbn [andb].
    + destruct (is_ascii API_KEY) eqn:Eb; cbn [andb].
      * destruct (list_eqb (c :: x) API_KEY) eqn:Eq.
        -- apply list_eqb_eq in Eq. split.
           ++ intros [= <-]. repeat split; [exact Eq | discriminate].
           ++ intros (-> & _). reflexivity.
        -- split; [discriminate|]. intros (_ & He & _).
           apply list_eqb_eq in He. congruence.
      * split; [discriminate|]. intros (_ & <- & _). congruence.
    + split; [discriminate | intros (_ & _ & _ & H); discriminate H].
Qed.

Lemma get_merchant_from_header_run merchant_id w :
  get_merchant_from_header merchant_id w
  = (w, snd (get_merchant_from_header merchant_id w)).
Proof.
  unfold get_merchant_from_header, bind, gets.
  destruct (find (store_of merchant_id) (stores (session w))) as [s|];
    [|reflexivity].
  destruct (WooCommerceStore.is_active s =? 0); [reflexivity|].
  destruct (WooCommerceStore.is_verified s =? 0); reflexivity.
Qed.

(** X18. A merchant reads its own products only: when the merchant
    dependency accepts the merchant of the header and [get_product] answers
    with a product, the answer is made of a row of that merchant with the
    requested ID, the store is that merchant's, active and verified, and
    neither step changes the database. *)
Theorem get_product_is_tenant_scoped {R} (model_validate : Product.t -> Res R)
    (merchant_id : string) (product_id : Z) (w : World)
    (store : WooCommerceStore.t) (v : R) :
  snd (get_merchant_from_header merchant_id w) = Ok (Respond store) ->
  snd (get_product model_validate product_id store w) = Ok (Respond v) ->
  WooCommerceStore.merchant_id store = merchant_id
  /\ WooCommerceStore.is_active store <> 0
  /\ WooCommerceStore.is_verified store <> 0
  /\ In store (stores (session w))
  /\ (exists row,
        In row (products (session w))
        /\ Product.merchant_id row = merchant_id
        /\ Product.wc_product_id row = product_id
        /\ model_validate row = Ok v)
  /\ fst (get_merchant_from_header merchant_id w) = w
  /\ fst (get_product model_validate product_id store w) = w.
Proof.
  intros Hs Hp.
  assert (Hstore : WooCommerceStore.merchant_id store = merchant_id
                   /\ WooCommerceStore.is_active store <> 0
                   /\ WooCommerceStore.is_verified store <> 0
                   /\ In store (stores (session w))).
  { revert Hs. unfold get_merchant_from_header, bind, gets.
    destruct (find (store_of merchant_id) (stores (session w))) as [s|] eqn:Ef;
      [|discriminate].
    destruct (WooCommerceStore.is_active s =? 0) eqn:Ea; [discriminate|].
    destruct (WooCommerceStore.is_verified s =? 0) eqn:Ev; [discriminate|].
    intros [= <-]. apply find_some in Ef. destruct Ef as [Hin Hm].
    apply String.eqb_eq in Hm. repeat split; [exact Hm | lia | lia | exact Hin]. }
  destruct Hstore as (Hm & Ha & Hv & Hin).
  repeat (split; [assumption|]).
  rewrite get_merchant_from_header_run. cbn [fst].
  revert Hp. unfold get_product, bind, query_products_first, gets, of_res.
  destruct (find (for_tenant product_id (WooCommerceStore.merchant_id store))
              (products (session w))) as [row|] eqn:Ef; [|discriminate].
  destruct (model_validate row) as [v'|e|] eqn:Ev; try discriminate.
  intros [= <-]. split; [|split; reflexivity].
  apply find_some in Ef. destruct Ef as [Hr Ht].
  unfold for_tenant, has_wc_id in Ht. apply andb_true_iff in Ht.
  destruct Ht as [Hid Hmer]. apply String.eqb_eq in Hmer.
  exists row. repeat split; [exact Hr | congruence | lia | exact Ev].
Qed.

(** *** Pages *)

Lemma firstn_add {A} (a b : nat) (l : list A) :
  firstn (a + b) l = firstn a l ++ firstn b (skipn a l).
Proof.
  revert l. induction a as [|a IH]; intros l; [reflexivity|].
  destruct l as [|x l]; cbn [Nat.add firstn skipn app].
  - rewrite firstn_nil. reflexivity.
  - rewrite IH. reflexivity.
Qed.

Lemma concat_pages {A} (n m : nat) (l : list A) :
  concat (map (fun k => firstn n (skipn ((k - 1) * n) l)) (seq 1 m))
  = firstn (m * n) l.
Proof.
  induction m as [|m IH]; [reflexivity|].
  rewrite seq_S, map_app, concat_app, IH. cbn [map concat Nat.add].
  rewrite app_nil_r.
  replace (S m - 1)%nat with m by lia.
  replace (S m * n)%nat with (m * n + n)%nat by lia.
  symmetry. apply firstn_add.
Qed.

Lemma length_insert_desc r l :
  List.length (insert_desc r l) = S (List.length l).
Proof.
  induction l as [|x l IH]; [reflexivity|]. cbn [insert_desc].
  destruct (Product.wc_product_id x <=? Product.wc_product_id r);
    cbn [List.length]; [reflexivity | rewrite IH; reflexivity].
Qed.

Lemma length_order_by rows :
  List.length (order_by_wc_product_id_desc rows) = List.length rows.
Proof.
  induction rows as [|x l IH]; [reflexivity|].
  unfold order_by_wc_product_id_desc in *. cbn [fold_right].
  rewrite length_insert_desc, IH. reflexivity.
Qed.

Lemma in_insert_desc r x l : In x (insert_desc r l) -> x = r \/ In x l.
Proof.
  induction l as [|y l IH]; cbn [insert_desc].
  - intros [<-|[]]. left. reflexivity.
  - destruct (Product.wc_product_id y <=? Product.wc_product_id r).
    + intros [<-|H]; [left; reflexivity | right; exact H].
    + intros [<-|H]; [right; left; reflexivity|].
      destruct (IH H) as [->|H']; [left; reflexivity | right; right; exact H'].
Qed.

Lemma in_order_by x rows :
  In x (order_by_wc_product_id_desc rows) -> In x rows.
Proof.
  induction rows as [|y l IH]; [intros []|].
  unfold order_by_wc_product_id_desc in *. cbn [fold_right].
  intros H. apply in_insert_desc in H. destruct H as [->|H].
  - left. reflexivity.
  - right. apply IH, H.
Qed.

Lemma validate_each_map {R} (model_validate : Product.t -> Res R)
    (f : Product.t -> R) rows :
  (forall r, In r rows -> model_validate r = Ok (f r)) ->
  validate_each model_validate rows = Ok (map f rows).
Proof.
  induction rows as [|x l IH]; intros H; [reflexivity|].
  cbn [validate_each map]. rewrite (H x (or_introl eq_refl)). cbn [res_bind].
  rewrite IH by (intros r Hr; apply H; right; exact Hr). reflexivity.
Qed.

Lemma in_offset_limit {A} a b (l : list A) x :
  In x (offset_limit a b l) -> In x l.
Proof.
  unfold offset_limit. intros H.
  rewrite <- (firstn_skipn (Z.to_nat a) l). apply in_or_app. right.
  rewrite <- (firstn_skipn (Z.to_nat b) (skipn (Z.to_nat a) l)).
  apply in_or_app. left. exact H.
Qed.

Lemma list_products_run {R} (model_validate : Product.t -> Res R)
    (ilike : JVal -> string -> bool)
    (status type search : option string) (include_deleted : bool)
    (store : WooCommerceStore.t) (w : World) (f : Product.t -> R)
    page per_page :
  (forall r, In r (products (session w)) -> model_validate r = Ok (f r)) ->
  1 <= page -> 1 <= per_page <= 100 ->
  list_products model_validate ilike page per_page status type search
    include_deleted store w
  = (w, Ok (Respond
       {| pl_products :=
            map f (offset_limit ((page - 1) * per_page) per_page
                     (listing ilike status type search include_deleted
                        store w));
          pl_total :=
            Z.of_nat (List.length
                        (listing ilike status type search include_deleted
                           store w));
          pl_page := page;
          pl_per_page := per_page;
          pl_total_pages :=
            (Z.of_nat (List.length
                         (listing ilike status type search include_deleted
                            store w))
             + per_page - 1) / per_page |})).
Proof.
  intros valid Hp Hpp. unfold list_products, within_bounds.
  replace (1 <=? page) with true by (symmetry; apply Z.leb_le; lia).
  replace (1 <=? per_page) with true by (symmetry; apply Z.leb_le; lia).
  replace (per_page <=? 100) with true by (symmetry; apply Z.leb_le; lia).
  cbn [andb negb]. unfold bind, query_products_all, gets, of_res, ret.
  fold (listing ilike status type search include_deleted store w).
  rewrite (validate_each_map model_validate f).
  - unfold listing. rewrite length_order_by. reflexivity.
  - intros r Hr. apply valid. apply in_offset_limit in Hr.
    apply in_order_by in Hr. apply filter_In in Hr. apply Hr.
Qed.

(** X19. The pages of [list_products] cut the listing into consecutive
    pieces.  For a page size within its bounds and rows that validate:
    every page from 1 on is answered, changes nothing, reports the number of
    rows listed and the number of pages, and holds at most [per_page]
    products; the reported number of pages is the least that holds all rows;
    the pages up to it, one after the other, are the whole listing in
    descending order of product ID, each row once; and a page beyond it is
    empty. *)
Theorem list_products_pages {R} (model_validate : Product.t -> Res R)
    (ilike : JVal -> string -> bool) (per_page : Z)
    (status type search : option string) (include_deleted : bool)
    (store : WooCommerceStore.t) (w : World) (f : Product.t -> R) :
  1 <= per_page <= 100 ->
  (forall r, In r (products (session w)) -> model_validate r = Ok (f r)) ->
  let rows := listing ilike status type search include_deleted store w in
  let total := Z.of_nat (List.length rows) in
  exists total_pages,
    (total_pages - 1) * per_page < total <= total_pages * per_page
    /\ (forall page, 1 <= page ->
          exists reply,
            list_products model_validate ilike page per_page status type
              search include_deleted store w = (w, Ok (Respond reply))
            /\ pl_total reply = total
            /\ pl_total_pages reply = total_pages
            /\ Z.of_nat (List.length (pl_products reply)) <= per_page
            /\ (total_pages < page -> pl_products reply = []))
    /\ pages_upto model_validate ilike per_page status type search
         include_deleted store w (Z.to_nat total_pages)
       = map f rows.
Proof.
  intros Hpp Hvalid rows total.
  set (total_pages := (total + per_page - 1) / per_page).
  assert (Hlow : (total_pages - 1) * per_page < total).
  { pose proof (Z.mul_div_le (total + per_page - 1) per_page ltac:(lia)).
    fold total_pages in H. nia. }
  assert (Hhigh : total <= total_pages * per_page).
  { pose proof (Z.mul_succ_div_gt (total + per_page - 1) per_page ltac:(lia)).
    fold total_pages in H. nia. }
  assert (Htp : 0 <= total_pages) by (subst total; nia).
  exists total_pages. split; [split; assumption|]. split.
  - intros page Hpage. eexists. split.
    + apply (list_products_run model_validate ilike status type search
               include_deleted store w f page per_page Hvalid Hpage Hpp).
    + cbn [pl_total pl_total_pages pl_products]. fold rows. fold total.
      split; [reflexivity|]. split; [reflexivity|]. split.
      * rewrite length_map. unfold offset_limit. rewrite length_firstn. lia.
      * intros Hbeyond. unfold offset_limit.
        rewrite skipn_all2; [rewrite firstn_nil; reflexivity|].
        subst total. nia.
  - unfold pages_upto.
    rewrite (map_ext_in _
               (fun k => map f (firstn (Z.to_nat per_page)
                                  (skipn ((k - 1) * Z.to_nat per_page) rows)))).
    + rewrite <- (map_map
                    (fun k => firstn (Z.to_nat per_page)
                                (skipn ((k - 1) * Z.to_nat per_page) rows))
                    (map f)).
      rewrite <- concat_map.
      rewrite (concat_pages (Z.to_nat per_page) (Z.to_nat total_pages) rows).
      rewrite firstn_all2; [reflexivity|]. subst total. nia.
    + intros k Hk. apply in_seq in Hk.
      rewrite (list_products_run model_validate ilike status type search
                 include_deleted store w f (Z.of_nat k) per_page Hvalid
                 ltac:(lia) Hpp).
      cbn [snd products_of pl_products]. fold rows. unfold offset_limit.
      replace (Z.to_nat ((Z.of_nat k - 1) * per_page))
        with ((k - 1) * Z.to_nat per_page)%nat by nia.
      reflexivity.
Qed.

(** *** Counts *)

Lemma count_update_first {A} (p q : A -> bool) (g : A -> A) (l : list A) r :
  find q l = Some r ->
  count p (update_first q g l)
  = count p l - Z.b2z (p r) + Z.b2z (p (g r)).
Proof.
  unfold count. induction l as [|x l IH]; [discriminate|].
  cbn [find update_first]. destruct (q x) eqn:Eq.
  - intros [= ->]. cbn [List.filter].
    destruct (p r), (p (g r)); cbn [List.length Z.b2z]; lia.
  - intros Hf. specialize (IH Hf). cbn [List.filter].
    destruct (p x); cbn [List.length]; lia.
Qed.

Lemma get_sync_status_run ENABLE_SCHEDULER hooks store w :
  get_sync_status ENABLE_SCHEDULER hooks store w
  = (w, Ok (sync_status ENABLE_SCHEDULER hooks store w)).
Proof. reflexivity. Qed.

(** X20. The sync status counts what a soft delete does.  When the merchant
    has a row of the product ID: the soft delete succeeds, the total stays,
    and an active product moves from the active count to the deleted count
    (a product already deleted moves nothing); and the deleted count of a
    status is the number of the merchant's rows that are marked
    deleted. *)
Theorem soft_delete_moves_one_count env (ENABLE_SCHEDULER : bool)
    (hooks : list Webhook.t) (store : WooCommerceStore.t) (n : Z)
    (w : World) (r : Product.t) :
  let merchant := WooCommerceStore.merchant_id store in
  find (for_tenant n merchant) (products (session w)) = Some r ->
  exists w' before after,
    get_sync_status ENABLE_SCHEDULER hooks store w = (w, Ok before)
    /\ soft_delete_product env n merchant w = (w', Ok true)
    /\ get_sync_status ENABLE_SCHEDULER hooks store w' = (w', Ok after)
    /\ ss_deleted_products before
       = count (fun x => of_merchant merchant x
                         && negb (Product.is_deleted x =? 0))
           (products (session w))
    /\ ss_total_products after = ss_total_products before
    /\ ss_active_products after
       = ss_active_products before
         - (if Product.is_deleted r =? 0 then 1 else 0)
    /\ ss_deleted_products after
       = ss_deleted_products before
         + (if Product.is_deleted r =? 0 then 1 else 0).
Proof.
  intros merchant Hf.
  exists (soft_deleted env n merchant w),
    (sync_status ENABLE_SCHEDULER hooks store w),
    (sync_status ENABLE_SCHEDULER hooks store (soft_deleted env n merchant w)).
  split; [apply get_sync_status_run|]. split.
  { rewrite soft_delete_product_run, Hf. reflexivity. }
  split; [apply get_sync_status_run|].
  unfold sync_status.
  cbn [ss_total_products ss_active_products ss_deleted_products].
  fold merchant. unfold soft_deleted. cbn [session with_products products].
  pose proof (find_some _ _ Hf) as [_ Hr].
  unfold for_tenant in Hr. apply andb_true_iff in Hr. destruct Hr as [_ Hm].
  rewrite !(count_update_first _ _ _ _ r Hf).
  assert (Ho : of_merchant merchant
                 (mark_deleted (clock env (ticks w)) (clock env (S (ticks w))) r)
               = of_merchant merchant r) by reflexivity.
  assert (Ha : active_of merchant
                 (mark_deleted (clock env (ticks w)) (clock env (S (ticks w))) r)
               = false).
  { unfold active_of. cbn [mark_deleted Product.is_deleted Product.merchant_id].
    apply andb_false_r. }
  assert (Ha' : active_of merchant r = (Product.is_deleted r =? 0)).
  { unfold active_of. rewrite Hm. reflexivity. }
  rewrite Ho, Ha, Ha'.
  split.
  { unfold count. clear.
    induction (products (session w)) as [|x l IH]; [reflexivity|].
    cbn [List.filter]. unfold of_merchant, active_of in *.
    destruct (String.eqb (Product.merchant_id x) merchant);
      destruct (Product.is_deleted x =? 0); cbn [andb negb List.length] in *;
      lia. }
  destruct (Product.is_deleted r =? 0); cbn [Z.b2z]; lia.
Qed.

End AccessFacts.


(** ** The statements at concrete inputs *)
Module MoreWitnesses.
Import Samples MoreSamples PyLib Credentials.
Import SoftDeleteRestore BulkSyncMore ReconcileMore CredentialRoundTrip
       WebhookGate AccessFacts.

Local Ltac unique :=
  unfold unique_keys; apply (bool_decide_unpack _); vm_compute; reflexivity.

(** Merchant A soft-deletes its product 2. *)
Lemma soft_delete_product_spec_witness :
  exists w',
    soft_delete_product env_two_pages 2 "merchant-a" seeded = (w', Ok true)
    /\ option_map Product.is_deleted
         (find (has_wc_id 2) (products (committed w'))) = Some 1.
Proof.
  pose proof (soft_delete_product_spec env_two_pages 2 "merchant-a" seeded) as H.
  destruct (find (for_tenant 2 "merchant-a") (products (session seeded)))
    as [r|] eqn:E; [|vm_compute in E; discriminate E].
  destruct H as (w' & Hrun & _ & _ & _ & r' & Hf & Hd & _).
  - unique.
  - exists w'. split; [exact Hrun|]. rewrite Hf. cbn [option_map].
    rewrite Hd. reflexivity.
Defined.

(** Product 2, published, is soft-deleted and restored: it is active
    again and its status is [deleted]. *)
Lemma restore_after_soft_delete_witness :
  exists w2 r2,
    restore_product env_two_pages 2 "merchant-a"
      (fst (soft_delete_product env_two_pages 2 "merchant-a" seeded))
    = (w2, Ok true)
    /\ find (has_wc_id 2) (products (committed w2)) = Some r2
    /\ Product.is_deleted r2 = 0
    /\ Product.status r2 = JStr "deleted".
Proof.
  destruct (find (for_tenant 2 "merchant-a") (products (session seeded)))
    as [r|] eqn:E; [|vm_compute in E; discriminate E].
  destruct (restore_after_soft_delete env_two_pages 2 "merchant-a" seeded r)
    as (w2 & r2 & Hrun & Hf & Hd & _ & Hs & _).
  - unique.
  - exact E.
  - exists w2, r2. repeat split; assumption.
Defined.

(** The bulk sync of store B, whose shop is down, ends as failed and
    leaves nothing uncommitted. *)
Lemma fetch_all_outcome_witness :
  clean (fst (fetch_all_products_from_woocommerce env_job 3 store_b job_world))
  /\ option_map st_status
       (match snd (fetch_all_products_from_woocommerce env_job 3 store_b
                     job_world) with
        | Ok stats => Some stats
        | _ => None
        end) = Some "failed".
Proof.
  destruct (fetch_all_outcome env_job 3 store_b job_world) as [Hclean _].
  - vm_compute. reflexivity.
  - split; [exact Hclean|]. vm_compute. reflexivity.
Defined.

(** The job over the seeded table keeps the unique constraint. *)
Lemma sync_never_soft_deletes_witness :
  unique_keys
    (products (committed (fst (reconciliation_job env_job 2 job_world)))).
Proof.
  destruct (sync_never_soft_deletes env_job 2) as [_ H].
  destruct (H job_world) as (_ & Hu & _).
  apply Hu. unique.
Defined.

(** The job over store B, whose shop is down, and store A. *)
Lemma job_syncs_each_store_witness :
  reconciliation_job env_job 2 job_world
  = (sync_each env_job 2 [store_b; store_a] (rolled_back job_world), Ok tt).
Proof.
  apply (job_syncs_each_store env_job 2 job_world).
  intros s Hs. vm_compute in Hs.
  destruct Hs as [<-|[<-|[]]]; exists 1%nat; (split; [lia|]);
    (split; [intros j Hj; lia|]).
  - right. eexists. vm_compute. reflexivity.
  - left. eexists. split; [vm_compute; reflexivity|].
    right. right. vm_compute. discriminate.
Defined.

(** A configured page size of 250: the shop reports five pages and the
    sync ends after the first. *)
Lemma bulk_sync_stops_early_above_100_witness :
  exists w' stats,
    fetch_all_products_from_woocommerce env_big_pages 1 store_a empty_world
    = (w', Ok stats)
    /\ st_status stats = "completed"
    /\ pages_fetched stats = 1.
Proof.
  destruct (bulk_sync_stops_early_above_100 env_big_pages store_a empty_world
              0%nat
              {| data := [remote 1 "one" "1.00"]; x_wp_total := Some 2;
                 x_wp_totalpages := Some 5 |})
    as (_ & w' & stats & Hrun & Hst & Hpf).
  - vm_compute. reflexivity.
  - vm_compute. reflexivity.
  - discriminate.
  - cbn [data List.length]. lia.
  - exists w', stats. repeat split; assumption.
Defined.

(** The reconciliation against a shop whose second page cannot be
    fetched. *)
Lemma reconcile_products_outcome_witness :
  clean (fst (reconcile_products env_failing 3 store_a seeded))
  /\ option_map status
       (match snd (reconcile_products env_failing 3 store_a seeded) with
        | Ok res => Some res
        | _ => None
        end) = Some "partial".
Proof.
  destruct (reconcile_products_outcome env_failing 3 store_a seeded)
    as [Hclean _].
  - vm_compute. reflexivity.
  - split; [exact Hclean|]. vm_compute. reflexivity.
Defined.

(** The same run: product 4 of the first page is added, the second
    page raises, and nothing is deleted although products 1 to 3 were not
    met. *)
Lemma failed_walk_deletes_nothing_witness :
  exists res,
    snd (reconcile_products env_failing 3 store_a seeded) = Ok res
    /\ status res = "partial"
    /\ products_deleted res = 0.
Proof.
  destruct (reconcile_pages env_failing 3 store_a
              (client_for env_failing store_a) 1 (seeded, recon_start))
    as [[w1 l1] r] eqn:E.
  assert (Hr : r = Raise (HTTPError "502 Bad Gateway")).
  { apply (f_equal snd) in E. cbn [snd] in E. rewrite <- E.
    vm_compute. reflexivity. }
  subst r.
  destruct (failed_walk_deletes_nothing env_failing 3 store_a seeded w1 l1
              (HTTPError "502 Bad Gateway"))
    as (res & Hrun & Hst & _ & Hdel & _).
  - vm_compute. reflexivity.
  - exact E.
  - exists res. rewrite Hrun. repeat split; assumption.
Defined.

(** The shop of merchant A lists nothing: its three products are
    soft-deleted. *)
Lemma empty_catalogue_deletes_all_witness :
  exists w' res,
    reconcile_products env_empty_shop 1 store_a seeded = (w', Ok res)
    /\ status res = "completed"
    /\ products_deleted res = 3.
Proof.
  destruct (empty_catalogue_deletes_all env_empty_shop store_a seeded 0%nat
              {| data := []; x_wp_total := Some 0; x_wp_totalpages := Some 0 |})
    as (w' & res & Hrun & Hst & _ & _ & _ & Hdel & _).
  - vm_compute. reflexivity.
  - reflexivity.
  - unique.
  - vm_compute. reflexivity.
  - exists w', res. split; [exact Hrun|]. split; [exact Hst|].
    rewrite Hdel. vm_compute. reflexivity.
Defined.

(** A consumer key through the stand-in cipher. *)
Lemma credential_round_trip_witness :
  exists column,
    write_credential (Ok {| cipher := sample_fernet |})
      (Some (str_of_string "ck_live")) = Ok (Some column)
    /\ read_credential (Ok {| cipher := sample_fernet |}) (Some column)
       = Ok (Some (str_of_string "ck_live")).
Proof.
  destruct (credential_round_trip {| cipher := sample_fernet |}
              (str_of_string "ck_live")) as [H _].
  - intros data Hd. split; [reflexivity|]. split; [exact Hd | discriminate].
  - discriminate.
  - vm_compute. reflexivity.
  - exact H.
Defined.

(** A delivery whose signature is not the body's is turned away by the
    handler for updates. *)
Lemma unauthentic_delivery_changes_nothing_witness :
  fst (product_updated_webhook env_two_pages json_7 hooks_b delivery_forged
         world_b) = world_b
  /\ rejection (snd (product_updated_webhook env_two_pages json_7 hooks_b
                       delivery_forged world_b)).
Proof.
  apply (unauthentic_delivery_changes_nothing env_two_pages json_7 hooks_b
           delivery_forged world_b).
  - intros (store & src & sg & wh & sec & Hs & _ & Hg & Hf & Hh & Hsec & Hv).
    injection Hs as <-. injection Hg as <-.
    vm_compute in Hf. injection Hf as <-.
    vm_compute in Hh. injection Hh as <-.
    vm_compute in Hsec. injection Hsec as <-.
    vm_compute in Hv. discriminate Hv.
  - right. left. reflexivity.
Defined.

(** A signed delivery of store B for product 7 is upserted. *)
Lemma authentic_delivery_is_upserted_witness :
  exists w',
    product_upsert_webhook "updated" env_two_pages json_7 hooks_b
      delivery_updated world_b
    = (w', Ok (Respond {| ack_status := "success";
                          ack_action := "updated";
                          ack_product_id := JInt 7;
                          ack_merchant_id := Some "merchant-b";
                          ack_message := None |})).
Proof.
  pose proof (authentic_delivery_is_upserted env_two_pages json_7 hooks_b
                delivery_updated world_b store_b body_7
                payload_7 "updated") as H.
  assert (Hid : dict_get payload_7 "id" = JInt 7) by (vm_compute; reflexivity).
  rewrite Hid in H. eexists. apply H.
  - exists "https://b.example/", signature_7, (hook 1 "product.updated"),
      (str_of_string "s3cret").
    repeat split; try discriminate; vm_compute; reflexivity.
  - vm_compute. reflexivity.
  - vm_compute. reflexivity.
Defined.

(** A signed delivery of store B for the deletion of product 7. *)
Lemma authentic_delete_is_scoped_witness :
  product_deleted_webhook env_two_pages json_7 hooks_b delivery_deleted world_b
  = (soft_deleted env_two_pages 7 "merchant-b" world_b,
     Ok (Respond {| ack_status := "success"; ack_action := "deleted";
                    ack_product_id := JInt 7;
                    ack_merchant_id := Some "merchant-b";
                    ack_message := None |})).
Proof.
  pose proof (authentic_delete_is_scoped env_two_pages json_7 hooks_b
                delivery_deleted world_b store_b body_7 payload_7) as H.
  assert (Hid : dict_get payload_7 "id" = JInt 7) by (vm_compute; reflexivity).
  cbv zeta in H. rewrite Hid in H.
  change (WooCommerceStore.merchant_id store_b) with "merchant-b" in H.
  destruct (find (for_tenant 7 "merchant-b") (products (session world_b)))
    as [r|] eqn:E; [|vm_compute in E; discriminate E].
  apply H.
  - exists "https://b.example", signature_7, (hook 2 "product.deleted"),
      (str_of_string "s3cret").
    repeat split; try discriminate; vm_compute; reflexivity.
  - vm_compute. reflexivity.
  - vm_compute. reflexivity.
Defined.

(** Merchant A reads its product 2. *)
Lemma get_product_is_tenant_scoped_witness :
  exists row,
    In row (products (session seeded))
    /\ Product.merchant_id row = "merchant-a"
    /\ Product.wc_product_id row = 2.
Proof.
  destruct (get_product_is_tenant_scoped
              (fun r => Ok (Product.wc_product_id r)) "merchant-a" 2 seeded
              store_a 2)
    as (_ & _ & _ & _ & (row & Hin & Hm & Hid & _) & _).
  - vm_compute. reflexivity.
  - vm_compute. reflexivity.
  - exists row. repeat split; assumption.
Defined.

(** The three products of merchant A on pages of two. *)
Lemma list_products_pages_witness :
  pages_upto (fun r => Ok (Product.wc_product_id r)) (fun _ _ => false) 2
    None None None false store_a seeded 2
  = [3; 2; 1].
Proof.
  destruct (list_products_pages (fun r => Ok (Product.wc_product_id r))
              (fun _ _ => false) 2 None None None false store_a seeded
              Product.wc_product_id)
    as (total_pages & Hb & _ & Hpages).
  - lia.
  - intros r _. reflexivity.
  - assert (total_pages = 2) as ->.
    { vm_compute Z.of_nat in Hb.
      change (Z.of_nat
                (List.length (listing (fun _ _ => false) None None None false
                                store_a seeded))) with 3 in Hb.
      lia. }
    refine (eq_trans Hpages _). vm_compute. reflexivity.
Defined.

(** The status of merchant A before and after the soft delete of its
    product 2. *)
Lemma soft_delete_moves_one_count_witness :
  exists w' before after,
    soft_delete_product env_two_pages 2 "merchant-a" seeded = (w', Ok true)
    /\ get_sync_status true [] store_a seeded = (seeded, Ok before)
    /\ get_sync_status true [] store_a w' = (w', Ok after)
    /\ ss_active_products before = 3
    /\ ss_active_products after = 2
    /\ ss_deleted_products after = 1.
Proof.
  destruct (find (for_tenant 2 "merchant-a") (products (session seeded)))
    as [r|] eqn:E; [|vm_compute in E; discriminate E].
  destruct (soft_delete_moves_one_count env_two_pages true [] store_a 2 seeded r E)
    as (w' & before & after & Hb & Hrun & Ha & _ & _ & Hact & Hdel).
  assert (Hr : Product.is_deleted r = 0).
  { vm_compute in E. injection E as <-. reflexivity. }
  rewrite Hr in Hact, Hdel. cbn [Z.eqb] in Hact, Hdel.
  assert (Hbefore : before = sync_status true [] store_a seeded).
  { rewrite get_sync_status_run in Hb. injection Hb as <-. reflexivity. }
  exists w', before, after.
  split; [exact Hrun|]. split; [exact Hb|]. split; [exact Ha|].
  rewrite Hact, Hdel, Hbefore. vm_compute. repeat split; reflexivity.
Defined.

End MoreWitnesses.
